(** * Temporal: the upload ledger, its garbage collection, and the
      private-network / cluster request handlers

    A shallow embedding of [models/upload.go] (the [UploadManager] over the
    [uploads] table) and of the pin, pin-removal, file-add and cluster-pin
    handlers of package [api], followed by the properties the specification
    states about them. *)

From Stdlib Require Import ZArith List String Bool Lia.
Import ListNotations.
Open Scope string_scope.
Open Scope Z_scope.

(** ** Go's [time.Time] *)

Module GoTime.

(** An instant, as nanoseconds since the Unix epoch (UTC). *)
Definition Time := Z.

Definition nsPerSec : Z := 1000000000.
Definition nsPerDay : Z := 86400 * nsPerSec.

(** [t.Unix()]: whole seconds since the epoch, rounded down. *)
Definition Unix (t : Time) : Z := t / nsPerSec.

Definition isLeap (y : Z) : bool :=
  ((y mod 4 =? 0) && negb (y mod 100 =? 0)) || (y mod 400 =? 0).

Definition daysIn (y m : Z) : Z :=
  if m =? 2 then (if isLeap y then 29 else 28)
  else if (m =? 4) || (m =? 6) || (m =? 9) || (m =? 11) then 30
  else 31.

(** Day number (days since 1970-01-01) of a proleptic Gregorian date. *)
Definition daysFromCivil (y m d : Z) : Z :=
  let y' := if m <=? 2 then y - 1 else y in
  let era := y' / 400 in
  let yoe := y' - era * 400 in
  let doy := (153 * (m + (if 2 <? m then -3 else 9)) + 2) / 5 + d - 1 in
  let doe := yoe * 365 + yoe / 4 - yoe / 100 + doy in
  era * 146097 + doe - 719468.

Definition civilFromDays (z : Z) : Z * Z * Z :=
  let z := z + 719468 in
  let era := z / 146097 in
  let doe := z - era * 146097 in
  let yoe := (doe - doe / 1460 + doe / 36524 - doe / 146096) / 365 in
  let doy := doe - (365 * yoe + yoe / 4 - yoe / 100) in
  let mp := (5 * doy + 2) / 153 in
  let d := doy - (153 * mp + 2) / 5 + 1 in
  let m := mp + (if mp <? 10 then 3 else -9) in
  (yoe + era * 400 + (if m <=? 2 then 1 else 0), m, d).

(** [time.Date(y, m, d, hh, mm, ss, 0, time.UTC)]. *)
Definition Date (y m d hh mm ss : Z) : Time :=
  (daysFromCivil y m d * 86400 + hh * 3600 + mm * 60 + ss) * nsPerSec.

(** Modelled from the spec: the month arithmetic of
    [utils.CalculateGarbageCollectDate], which is not among the sources.
    The spec gives [garbageCollectAt = now + holdMonths months], the day
    clamped to the last day of the target month. *)
Definition AddMonthsClamped (t : Time) (months : Z) : Time :=
  let day := t / nsPerDay in
  let tod := t mod nsPerDay in
  let '(y, m, d) := civilFromDays day in
  let total := y * 12 + (m - 1) + months in
  let y2 := total / 12 in
  let m2 := total mod 12 + 1 in
  let d2 := Z.min d (daysIn y2 m2) in
  daysFromCivil y2 m2 d2 * nsPerDay + tod.

End GoTime.
Export GoTime.

Arguments Unix : simpl never.
Arguments Date : simpl never.
Arguments AddMonthsClamped : simpl never.

(** ** The [uploads] table *)

Inductive error : Type :=
| ErrRecordNotFound          (* gorm.ErrRecordNotFound *)
| ErrDatabase                (* any other error reported by the database *)
| ErrUploadExists            (* "attempting to create new upload entry when one already exists in database" *)
| ErrAtoiRange               (* strconv.Atoi: value out of range *)
| PanicNilDereference.       (* a nil *Upload dereferenced *)

(** [models.Upload]. Of the embedded [gorm.Model] the primary key [ID] and
    the soft-delete mark [DeletedAt] are kept; [CreatedAt] and [UpdatedAt]
    are bookkeeping no operation below reads. *)
Record Upload : Type := mkUpload {
  ID : Z;
  DeletedAt : option Time;
  Hash : string;
  Type_ : string;
  Name : string;
  NetworkName : string;
  HoldTimeInMonths : Z;
  UserName : string;
  GarbageCollectDate : Time;
  UserNames : list string
}.

Definition set_ID (i : Z) (u : Upload) : Upload :=
  mkUpload i (DeletedAt u) (Hash u) (Type_ u) (Name u) (NetworkName u)
           (HoldTimeInMonths u) (UserName u) (GarbageCollectDate u) (UserNames u).

Definition set_DeletedAt (d : option Time) (u : Upload) : Upload :=
  mkUpload (ID u) d (Hash u) (Type_ u) (Name u) (NetworkName u)
           (HoldTimeInMonths u) (UserName u) (GarbageCollectDate u) (UserNames u).

Definition set_HoldTimeInMonths (h : Z) (u : Upload) : Upload :=
  mkUpload (ID u) (DeletedAt u) (Hash u) (Type_ u) (Name u) (NetworkName u)
           h (UserName u) (GarbageCollectDate u) (UserNames u).

Definition set_UserName (n : string) (u : Upload) : Upload :=
  mkUpload (ID u) (DeletedAt u) (Hash u) (Type_ u) (Name u) (NetworkName u)
           (HoldTimeInMonths u) n (GarbageCollectDate u) (UserNames u).

Definition set_GarbageCollectDate (t : Time) (u : Upload) : Upload :=
  mkUpload (ID u) (DeletedAt u) (Hash u) (Type_ u) (Name u) (NetworkName u)
           (HoldTimeInMonths u) (UserName u) t (UserNames u).

Definition set_UserNames (l : list string) (u : Upload) : Upload :=
  mkUpload (ID u) (DeletedAt u) (Hash u) (Type_ u) (Name u) (NetworkName u)
           (HoldTimeInMonths u) (UserName u) (GarbageCollectDate u) l.

(** The zero value [Upload{}]. *)
Definition zeroUpload : Upload := mkUpload 0 None "" "" "" "" 0 "" 0 [].

(** A row is visible to queries while it carries no soft-delete mark. *)
Definition active (u : Upload) : bool :=
  match DeletedAt u with None => true | Some _ => false end.

(** ** Program state and its environment *)

(** What the outside world decides: the successive readings of
    [time.Now()] and which database calls fail. *)
Record Env : Type := mkEnv {
  wallClock : nat -> Time;
  dbFault : nat -> bool
}.

(** The state an [UploadManager] acts on: the rows of the table (soft-deleted
    ones included), the next value of the serial primary key, and how many
    database calls and clock readings have happened so far. *)
Record State : Type := mkState {
  table : list Upload;
  nextID : Z;
  dbCalls : nat;
  clockReads : nat
}.

Definition M (A : Type) : Type := State -> A * State.

Definition ret {A} (a : A) : M A := fun s => (a, s).

Definition bind {A B} (m : M A) (k : A -> M B) : M B :=
  fun s => let (a, s') := m s in k a s'.

Declare Scope go_scope.
Delimit Scope go_scope with go.
Notation "x <- m ;; k" := (bind m (fun x => k))
  (at level 61, m at next level, right associativity) : go_scope.
Notation "' p <- m ;; k" := (bind m (fun x => match x with p => k end))
  (at level 61, p pattern, m at next level, right associativity) : go_scope.
Open Scope go_scope.

Definition getTable : M (list Upload) := fun s => (table s, s).

Definition putTable (t : list Upload) : M unit :=
  fun s => (tt, mkState t (nextID s) (dbCalls s) (clockReads s)).

(** [time.Now()]. *)
Definition timeNow (E : Env) : M Time :=
  fun s => (wallClock E (clockReads s),
            mkState (table s) (nextID s) (dbCalls s) (S (clockReads s))).

(** One round trip to the database; answers whether it failed. *)
Definition dbCall (E : Env) : M bool :=
  fun s => (dbFault E (dbCalls s),
            mkState (table s) (nextID s) (S (dbCalls s)) (clockReads s)).

(** The serial primary key handed out by an insert. *)
Definition freshID : M Z :=
  fun s => (nextID s, mkState (table s) (nextID s + 1) (dbCalls s) (clockReads s)).

(** ** The gorm handle

    A [*gorm.DB] value is a query under construction: the conditions chained
    so far and the error of the last statement run through it. [Where] only
    extends the conditions; [Find], [First], [Create], [Save] and [Delete]
    run a statement against the table. *)

Record GormDB : Type := mkDB {
  conds : list (Upload -> bool);
  Error : option error
}.

(** [um.DB]: the handle the manager was built with, no condition chained. *)
Definition DB : GormDB := mkDB [] None.

Definition Where (c : Upload -> bool) (db : GormDB) : GormDB :=
  mkDB (conds db ++ [c]) (Error db).

Definition withError (e : error) (db : GormDB) : GormDB :=
  mkDB (conds db) (Some e).

(** The rows a statement built on [db] ranges over: [deleted_at IS NULL] and
    every chained condition. *)
Definition selected (db : GormDB) (u : Upload) : bool :=
  active u && forallb (fun c => c u) (conds db).

(** The row with the least primary key ([ORDER BY id ASC LIMIT 1]). *)
Fixpoint lowestID (l : list Upload) : option Upload :=
  match l with
  | [] => None
  | u :: rest =>
      match lowestID rest with
      | None => Some u
      | Some v => Some (if ID u <=? ID v then u else v)
      end
  end.

(** [db.Find(&uploads)]: the selected rows, or the slice left empty. *)
Definition Find (E : Env) (db : GormDB) : M (list Upload * GormDB) :=
  failed <- dbCall E ;;
  if failed then ret ([], withError ErrDatabase db)
  else t <- getTable ;; ret (filter (selected db) t, db).

(** [db.First(upload)]: the selected row of least id, or
    [ErrRecordNotFound] with [upload] left at its zero value. *)
Definition First (E : Env) (db : GormDB) : M (Upload * GormDB) :=
  failed <- dbCall E ;;
  if failed then ret (zeroUpload, withError ErrDatabase db)
  else
    t <- getTable ;;
    match lowestID (filter (selected db) t) with
    | Some u => ret (u, db)
    | None => ret (zeroUpload, withError ErrRecordNotFound db)
    end.

(** [db.Create(&upload)]: inserts the row under the next serial id and
    writes that id back into [upload]. *)
Definition Create (E : Env) (db : GormDB) (u : Upload) : M (Upload * GormDB) :=
  failed <- dbCall E ;;
  if failed then ret (u, withError ErrDatabase db)
  else
    i <- freshID ;;
    t <- getTable ;;
    _ <- putTable ((t ++ [set_ID i u])%list) ;;
    ret (set_ID i u, db).

(** [db.Save(upload)]: with a blank primary key an insert, otherwise an
    update of every column of the selected row carrying that id. (What gorm
    does when the update matches no row is not needed: [UpdateUpload] saves
    the row it has just read.) *)
Definition Save (E : Env) (db : GormDB) (u : Upload) : M (Upload * GormDB) :=
  if ID u =? 0 then Create E db u
  else
    failed <- dbCall E ;;
    if failed then ret (u, withError ErrDatabase db)
    else
      t <- getTable ;;
      _ <- putTable (map (fun r => if selected db r && (ID r =? ID u) then u else r) t) ;;
      ret (u, db).

(** [db.Delete(&v)]: [Upload] embeds [gorm.Model], so the statement is a soft
    delete, [UPDATE uploads SET deleted_at = now WHERE id = v.ID] over the
    selected rows; with a blank primary key gorm drops the [id] condition.
    The struct [v] itself is not written to. *)
Definition Delete (E : Env) (db : GormDB) (v : Upload) : M GormDB :=
  now <- timeNow E ;;
  failed <- dbCall E ;;
  if failed then ret (withError ErrDatabase db)
  else
    t <- getTable ;;
    _ <- putTable (map (fun r => if selected db r && ((ID v =? 0) || (ID r =? ID v))
                                 then set_DeletedAt (Some now) r else r) t) ;;
    ret db.

(** ** [strconv] and [utils] *)

(** [int] is 64 bits wide on the platforms the service is built for. *)
Definition maxInt : Z := 9223372036854775807.
Definition minInt : Z := -9223372036854775808.

(** [strconv.Atoi(fmt.Sprintf("%v", h))], and the same with ["%+v"], for an
    [int64] [h]: the signed decimal rendering parsed back, failing only when
    the value does not fit [int]. *)
Definition AtoiSprintf (h : Z) : Z * option error :=
  if (minInt <=? h) && (h <=? maxInt) then (h, None)
  else (if h <? minInt then minInt else maxInt, Some ErrAtoiRange).

(** Modelled from the spec: [utils.CalculateGarbageCollectDate], which is not
    among the sources; [now + holdMonths] months. *)
Definition CalculateGarbageCollectDate (E : Env) (holdTimeInMonths : Z) : M Time :=
  now <- timeNow E ;;
  ret (AddMonthsClamped now holdTimeInMonths).

(** ** [UploadManager] *)

(** A Go result pair: a pointer that may be nil, and an error that may be nil. *)
Definition GoResult (A : Type) : Type := (option A * option error)%type.

Definition byHashNetworkUser (hash networkName username : string) (u : Upload) : bool :=
  String.eqb (Hash u) hash && String.eqb (NetworkName u) networkName
  && String.eqb (UserName u) username.

Definition FindUploadByHashAndNetworkAndUser (E : Env)
    (hash networkName username : string) : M (GoResult Upload) :=
  '(upload, check) <- First E (Where (byHashNetworkUser hash networkName username) DB) ;;
  match Error check with
  | Some e => ret (None, Some e)
  | None => ret (Some upload, None)
  end.

Definition NewUpload (E : Env)
    (contentHash uploadType networkName username name : string)
    (holdTimeInMonths : Z) : M (GoResult Upload) :=
  '(_, err) <- FindUploadByHashAndNetworkAndUser E contentHash networkName username ;;
  match err with
  | None => ret (None, Some ErrUploadExists)
  | Some _ =>
      let '(holdInt, err) := AtoiSprintf holdTimeInMonths in
      match err with
      | Some _ => ret (None, err)
      | None =>
          gcd <- CalculateGarbageCollectDate E holdInt ;;
          let upload :=
            mkUpload 0 None contentHash uploadType name networkName
                     holdTimeInMonths username gcd [username] in
          '(upload, check) <- Create E DB upload ;;
          match Error check with
          | Some e => ret (None, Some e)
          | None => ret (Some upload, None)
          end
      end
  end.

Definition UpdateUpload (E : Env) (holdTimeInMonths : Z)
    (username contentHash networkName : string) : M (GoResult Upload) :=
  '(found, err) <- FindUploadByHashAndNetworkAndUser E contentHash networkName username ;;
  match err with
  | Some _ => ret (None, err)
  | None =>
      match found with
      | None => ret (None, Some PanicNilDereference)
      | Some upload =>
          let upload := set_UserName username upload in
          let isUploader := existsb (String.eqb username) (UserNames upload) in
          let upload :=
            if negb isUploader
            then set_UserNames ((UserNames upload ++ [username])%list) upload
            else upload in
          (* holdInt, err := strconv.Atoi(...) assigns the err declared above *)
          let '(holdInt, err) := AtoiSprintf holdTimeInMonths in
          match err with
          | Some _ => ret (None, err)
          | None =>
              let oldGcd := GarbageCollectDate upload in
              newGcd <- CalculateGarbageCollectDate E holdInt ;;
              let upload :=
                if Unix newGcd >? Unix oldGcd
                then set_GarbageCollectDate oldGcd
                       (set_HoldTimeInMonths holdTimeInMonths upload)
                else upload in
              '(upload, check) <- Save E DB upload ;;
              match Error check with
              | Some _ => ret (None, err)
              | None => ret (Some upload, None)
              end
          end
      end
  end.

(** The loop of [RunDatabaseGarbageCollection] over the rows found. *)
Fixpoint gcLoop (E : Env) (uploads deletedUploads : list Upload)
  : M (GoResult (list Upload)) :=
  match uploads with
  | [] => ret (Some deletedUploads, None)
  | v :: rest =>
      now <- timeNow E ;;
      if Unix now >? Unix (GarbageCollectDate v) then
        check <- Delete E DB v ;;
        match Error check with
        | Some e => ret (None, Some e)
        | None => gcLoop E rest ((deletedUploads ++ [v])%list)
        end
      else gcLoop E rest deletedUploads
  end.

Definition RunDatabaseGarbageCollection (E : Env) : M (GoResult (list Upload)) :=
  '(uploads, check) <- Find E DB ;;
  match Error check with
  | Some e => ret (None, Some e)
  | None => gcLoop E uploads []
  end.

Definition FindUploadsByNetwork (E : Env) (networkName : string)
  : M (GoResult (list Upload)) :=
  '(uploads, check) <- Find E (Where (fun u => String.eqb (NetworkName u) networkName) DB) ;;
  match Error check with
  | Some e => ret (None, Some e)
  | None => ret (Some uploads, None)
  end.

(** [um.DB.Find(&uploads).Where("hash = ?", hash)]: [Find] runs on the bare
    handle, and [Where] then extends the handle [Find] returned, which is
    dropped. *)
Definition FindUploadsByHash (E : Env) (hash : string) : M (list Upload) :=
  '(uploads, check) <- Find E DB ;;
  let _ := Where (fun u => String.eqb (Hash u) hash) check in
  ret uploads.

Definition GetUploadByHashForUser (E : Env) (hash username : string)
  : M (list Upload) :=
  '(uploads, check) <- Find E DB ;;
  let _ := Where (fun u => String.eqb (Hash u) hash && String.eqb (UserName u) username) check in
  ret uploads.

Definition GetUploads (E : Env) : M (GoResult (list Upload)) :=
  '(uploads, check) <- Find E DB ;;
  match Error check with
  | Some e => ret (None, Some e)
  | None => ret (Some uploads, None)
  end.

Definition GetUploadsForUser (E : Env) (username : string)
  : M (GoResult (list Upload)) :=
  '(uploads, check) <- Find E (Where (fun u => String.eqb (UserName u) username) DB) ;;
  match Error check with
  | Some e => ret (None, Some e)
  | None => ret (Some uploads, None)
  end.

(** Primary keys are handed out in increasing order, so the rows of a table
    the manager has built are in strictly ascending, positive id order and
    below the next serial value. *)
Fixpoint idsAscending (lo : Z) (l : list Upload) : bool :=
  match l with
  | [] => true
  | u :: rest => (lo <? ID u) && idsAscending (ID u) rest
  end.

Definition pk_ok (s : State) : bool :=
  idsAscending 0 (table s) && forallb (fun u => ID u <? nextID s) (table s)
  && (0 <? nextID s).

(** The rows queries can see. *)
Definition activeRows (s : State) : list Upload := filter active (table s).

(** The stored garbage-collect date of the row with primary key [i]. *)
Definition storedGcd (i : Z) (s : State) : option Time :=
  option_map GarbageCollectDate (find (fun u => ID u =? i) (table s)).

Definition storedHold (i : Z) (s : State) : option Z :=
  option_map HoldTimeInMonths (find (fun u => ID u =? i) (table s)).

(** A renewal request, and a run of them. *)
Record Renewal : Type := mkRenewal {
  rHold : Z;
  rUser : string;
  rHash : string;
  rNetwork : string
}.

Fixpoint renewAll (E : Env) (calls : list Renewal) (s : State) : State :=
  match calls with
  | [] => s
  | c :: rest =>
      renewAll E rest (snd (UpdateUpload E (rHold c) (rUser c) (rHash c) (rNetwork c) s))
  end.

(** ** Package [api]: queue messages and request handlers *)

Module Api.

(** The queues and exchanges of package [queue], by name. *)
Inductive QueueName : Type :=
| IpfsPinQueue | IpfsFileQueue | DatabaseFileAddQueue
| IpfsPinRemovalQueue | IpfsClusterPinQueue.

Inductive Exchange : Type := PinExchange | PinRemovalExchange.

Inductive QueueMessage : Type :=
| IPFSPin (cid networkName userName : string) (holdTimeInMonths : Z)
| IPFSPinRemoval (contentHash networkName userName : string)
| IPFSFile (bucketName objectName userName networkName holdTimeInMonths : string)
| DatabaseFileAdd (hash : string) (holdTimeInMonths : Z) (userName networkName : string)
| IPFSClusterPin (cid networkName userName : string) (holdTimeInMonths : Z).

(** An error value handed back by a collaborator. *)
Definition err := string.

Definition PrivateNetworkAccessError := "invalid access to private netowrk".
Definition APIURLCheckError := "failed to get api url".
Definition IPFSConnectionError := "failed to connect to ipfs".
Definition QueueInitializationError := "failed to initialize queue".
Definition QueuePublishError := "failed to publish message to queue".
Definition IPFSAddError := "failed to add file to ipfs".
Definition FileOpenError := "failed to open file".
Definition MinioPutError := "failed to store object in minio".
Definition MinioConnectionError := "failed to connect to minio".

(** [multipart.FileHeader] as far as the handlers look at it. *)
Record FileHeader : Type := mkFileHeader {
  Size : Z;
  Open : option err
}.

(** [gin.Context]: the authenticated user, the post form, the route
    parameters and the uploaded file. *)
Record Context : Type := mkContext {
  GetAuthenticatedUserFromContext : string;
  GetPostForm : string -> option string;
  Param : string -> string;
  FormFile : string -> FileHeader * option err
}.

(** The answers of everything a handler calls outside this file: the access
    gate, the CID decoder, the broker, minio and the ipfs node. *)
Record Services : Type := mkServices {
  CheckAccessForPrivateNetwork : string -> string -> option err;
  gocid_Decode : string -> option err;
  strconv_ParseInt : string -> Z * option err;
  queue_Initialize : QueueName -> option err;
  qm_Publish : QueueName -> option Exchange -> QueueMessage -> option err;
  NewMinioManager : option err;
  FileSizeCheck : Z -> option err;
  GenerateString : string;
  FilesUploadBucket : string;
  PutObject : string -> string -> option err;
  GetAPIURLByName : string -> string * option err;
  rtfs_Initialize : string -> option err;
  ipfs_Add : FileHeader -> string * option err
}.

(** What a handler does that can be observed from outside. *)
Inductive Event : Type :=
| EvCheckAccess (user networkName : string) (result : option err)
| EvLogError (e : err) (message : string)
| EvLogInfo (message : string)
| EvPrintln (message : string)
| EvFailOnError (e : err)
| EvFailOnServerError (e : err)
| EvFailNoExistPostForm (field : string)
| EvQueueInitialize (q : QueueName) (result : option err)
| EvPublish (q : QueueName) (x : option Exchange) (m : QueueMessage) (result : option err)
| EvPutObject (bucket object : string) (result : option err)
| EvIpfsAdd (result : string * option err)
| EvRespond (status : Z) (body : string).

(** A handler run: the events so far, and [None] once it has returned. *)
Definition H (A : Type) : Type := (list Event * option A)%type.

Definition hret {A} (a : A) : H A := ([], Some a).

Definition hbind {A B} (m : H A) (k : A -> H B) : H B :=
  match m with
  | (tr, None) => (tr, None)
  | (tr, Some a) => let (tr', r) := k a in ((tr ++ tr')%list, r)
  end.

Declare Scope handler_scope.
Notation "x <- m ;; k" := (hbind m (fun x => k))
  (at level 61, m at next level, right associativity) : handler_scope.
Notation "m ;;; k" := (hbind m (fun _ => k))
  (at level 61, right associativity) : handler_scope.
Local Open Scope handler_scope.

Definition emit (e : Event) : H unit := ([e], Some tt).

(** Emit the failure events and [return]. *)
Definition bail {A} (evs : list Event) : H A := (evs, None).

(** [if err != nil { api.LogError(err, msg); FailOnError(c, err); return }] *)
Definition orLogAndFail (r : option err) (message : string) : H unit :=
  match r with
  | Some e => bail [EvLogError e message; EvFailOnError e]
  | None => hret tt
  end.

(** [if err != nil { api.LogError(err, msg); FailOnServerError(c, err); return }] *)
Definition orLogAndFailServer (r : option err) (message : string) : H unit :=
  match r with
  | Some e => bail [EvLogError e message; EvFailOnServerError e]
  | None => hret tt
  end.

(** [if err != nil { FailOnError(c, err); return }] *)
Definition orFail (r : option err) : H unit :=
  match r with
  | Some e => bail [EvFailOnError e]
  | None => hret tt
  end.

(** [v, exists := c.GetPostForm(f); if !exists { FailNoExistPostForm(c, f); return }] *)
Definition requirePostForm (c : Context) (field : string) : H string :=
  match GetPostForm c field with
  | Some v => hret v
  | None => bail [EvFailNoExistPostForm field]
  end.

Definition checkAccess (S : Services) (user networkName : string) : H (option err) :=
  let r := CheckAccessForPrivateNetwork S user networkName in
  emit (EvCheckAccess user networkName r) ;;; hret r.

Definition initialize (S : Services) (q : QueueName) : H (option err) :=
  let r := queue_Initialize S q in
  emit (EvQueueInitialize q r) ;;; hret r.

Definition publish (S : Services) (q : QueueName) (x : option Exchange)
    (m : QueueMessage) : H (option err) :=
  let r := qm_Publish S q x m in
  emit (EvPublish q x m r) ;;; hret r.

Definition pinToHostedIPFSNetwork (S : Services) (c : Context) : H unit :=
  let username := GetAuthenticatedUserFromContext c in
  networkName <- requirePostForm c "network_name" ;;
  e <- checkAccess S username networkName ;;
  orLogAndFail e PrivateNetworkAccessError ;;;
  let hash := Param c "hash" in
  orFail (gocid_Decode S hash) ;;;
  holdTimeInMonths <- requirePostForm c "hold_time" ;;
  let '(holdTimeInt, e) := strconv_ParseInt S holdTimeInMonths in
  orFail e ;;;
  let ip := IPFSPin hash networkName username holdTimeInt in
  e <- initialize S IpfsPinQueue ;;
  orLogAndFailServer e QueueInitializationError ;;;
  e <- publish S IpfsPinQueue (Some PinExchange) ip ;;
  orLogAndFailServer e QueuePublishError ;;;
  emit (EvLogInfo "ipfs pin request for private network sent to backend") ;;;
  emit (EvRespond 200 "content pin request sent to backend").

Definition addFileToHostedIPFSNetworkAdvanced (S : Services) (c : Context) : H unit :=
  let username := GetAuthenticatedUserFromContext c in
  networkName <- requirePostForm c "network_name" ;;
  e <- checkAccess S username networkName ;;
  orLogAndFail e PrivateNetworkAccessError ;;;
  holdTimeInMonths <- requirePostForm c "hold_time" ;;
  orLogAndFail (NewMinioManager S) MinioConnectionError ;;;
  let '(fileHandler, e) := FormFile c "file" in
  orFail e ;;;
  orFail (FileSizeCheck S (Size fileHandler)) ;;;
  emit (EvPrintln "opening file") ;;;
  orLogAndFail (Open fileHandler) FileOpenError ;;;
  emit (EvPrintln "file opened") ;;;
  let randString := GenerateString S in
  let objectName := (username ++ randString)%string in
  emit (EvPrintln "storing file in minio") ;;;
  let e := PutObject S (FilesUploadBucket S) objectName in
  emit (EvPutObject (FilesUploadBucket S) objectName e) ;;;
  orLogAndFail e MinioPutError ;;;
  emit (EvPrintln "file stored in minio") ;;;
  let ifp := IPFSFile (FilesUploadBucket S) objectName username networkName
                      holdTimeInMonths in
  e <- initialize S IpfsFileQueue ;;
  orLogAndFail e QueueInitializationError ;;;
  e <- publish S IpfsFileQueue None ifp ;;
  orLogAndFail e QueuePublishError ;;;
  emit (EvLogInfo "advanced private ipfs file upload requested") ;;;
  emit (EvRespond 200 "file upload request sent to backend").

Definition addFileToHostedIPFSNetwork (S : Services) (c : Context) : H unit :=
  let username := GetAuthenticatedUserFromContext c in
  networkName <- requirePostForm c "network_name" ;;
  e <- checkAccess S username networkName ;;
  orLogAndFail e PrivateNetworkAccessError ;;;
  holdTimeinMonths <- requirePostForm c "hold_time" ;;
  let '(holdTimeInt, e) := strconv_ParseInt S holdTimeinMonths in
  orFail e ;;;
  let '(apiURL, e) := GetAPIURLByName S networkName in
  orLogAndFail e APIURLCheckError ;;;
  orLogAndFail (rtfs_Initialize S apiURL) IPFSConnectionError ;;;
  e <- initialize S DatabaseFileAddQueue ;;
  orLogAndFail e QueueInitializationError ;;;
  emit (EvPrintln "fetching file") ;;;
  let '(fileHandler, e) := FormFile c "file" in
  orFail e ;;;
  orFail (FileSizeCheck S (Size fileHandler)) ;;;
  orLogAndFail (Open fileHandler) FileOpenError ;;;
  let '(resp, e) := ipfs_Add S fileHandler in
  emit (EvIpfsAdd (resp, e)) ;;;
  orLogAndFail e IPFSAddError ;;;
  emit (EvPrintln "file uploaded") ;;;
  let dfa := DatabaseFileAdd resp holdTimeInt username networkName in
  e <- publish S DatabaseFileAddQueue None dfa ;;
  orLogAndFail e QueuePublishError ;;;
  let pin := IPFSPin resp networkName username holdTimeInt in
  e <- initialize S IpfsPinQueue ;;
  orLogAndFail e QueueInitializationError ;;;
  e <- publish S IpfsPinQueue (Some PinExchange) pin ;;
  orLogAndFail e QueuePublishError ;;;
  emit (EvLogInfo "simple private ipfs file upload processed") ;;;
  emit (EvRespond 200 resp).

Definition removePinFromLocalHostForHostedIPFSNetwork (S : Services) (c : Context)
  : H unit :=
  let username := GetAuthenticatedUserFromContext c in
  let hash := Param c "hash" in
  orFail (gocid_Decode S hash) ;;;
  networkName <- requirePostForm c "network_name" ;;
  e <- checkAccess S username networkName ;;
  orLogAndFail e PrivateNetworkAccessError ;;;
  let rm := IPFSPinRemoval hash networkName username in
  e <- initialize S IpfsPinRemovalQueue ;;
  orLogAndFail e QueueInitializationError ;;;
  e <- publish S IpfsPinRemovalQueue (Some PinRemovalExchange) rm ;;
  orLogAndFail e QueuePublishError ;;;
  emit (EvLogInfo "private ipfs pin removal request sent to backend") ;;;
  emit (EvRespond 200 "pin removal sent to backend").

Definition pinHashToCluster (S : Services) (c : Context) : H unit :=
  let username := GetAuthenticatedUserFromContext c in
  let hash := Param c "hash" in
  orFail (gocid_Decode S hash) ;;;
  holdTime <- requirePostForm c "hold_time" ;;
  let '(holdTimeInt, e) := strconv_ParseInt S holdTime in
  orFail e ;;;
  e <- initialize S IpfsClusterPinQueue ;;
  orLogAndFail e QueueInitializationError ;;;
  let ipfsClusterPin := IPFSClusterPin hash "public" username holdTimeInt in
  e <- publish S IpfsClusterPinQueue None ipfsClusterPin ;;
  orLogAndFail e QueuePublishError ;;;
  emit (EvLogInfo "cluster pin request sent to backend") ;;;
  emit (EvRespond 200 "cluster pin request sent to backend").

End Api.

(** ** The whole service: ledger and broker *)

Definition Publication : Type :=
  (Api.QueueName * option Api.Exchange * Api.QueueMessage)%type.

(** The ledger an [UploadManager] works on, and the messages the broker has
    accepted. The manager holds a database handle only. *)
Record System : Type := mkSystem {
  ledger : State;
  broker : list Publication
}.

(** The messages of a handler run the broker accepted. *)
Fixpoint accepted (tr : list Api.Event) : list Publication :=
  match tr with
  | [] => []
  | Api.EvPublish q x m None :: rest => (q, x, m) :: accepted rest
  | _ :: rest => accepted rest
  end.

(** A request served by handler run [h]. *)
Definition serve (h : Api.H unit) (sys : System) : System :=
  mkSystem (ledger sys) (broker sys ++ accepted (fst h))%list.

(** A method of the [UploadManager] run inside the service. *)
Definition onLedger {A} (m : M A) (sys : System) : A * System :=
  let (a, s') := m (ledger sys) in (a, mkSystem s' (broker sys)).

(** Queue and storage operations: what must not happen before the access
    gate has let the caller through. *)
Definition isOperation (e : Api.Event) : bool :=
  match e with
  | Api.EvQueueInitialize _ _ | Api.EvPublish _ _ _ _
  | Api.EvPutObject _ _ _ | Api.EvIpfsAdd _ => true
  | _ => false
  end.

Definition isPublish (e : Api.Event) : bool :=
  match e with Api.EvPublish _ _ _ _ => true | _ => false end.

Definition isLogError (e : Api.Event) : bool :=
  match e with Api.EvLogError _ _ => true | _ => false end.

(** The handlers acting for a named private network. *)
Definition privateNetworkHandlers : list (Api.Services -> Api.Context -> Api.H unit) :=
  [Api.pinToHostedIPFSNetwork; Api.removePinFromLocalHostForHostedIPFSNetwork;
   Api.addFileToHostedIPFSNetwork; Api.addFileToHostedIPFSNetworkAdvanced].

(** The handlers taking a content identifier to pin or unpin. *)
Definition cidHandlers : list (Api.Services -> Api.Context -> Api.H unit) :=
  [Api.pinToHostedIPFSNetwork; Api.removePinFromLocalHostForHostedIPFSNetwork;
   Api.pinHashToCluster].

(** A run is gated when nothing in it is an operation until the access check
    of [(user, networkName)] has been made, and nothing after a check that
    refused. *)
Fixpoint gated (user networkName : string) (tr : list Api.Event) : bool :=
  match tr with
  | [] => true
  | Api.EvCheckAccess u n r :: rest =>
      String.eqb u user && String.eqb n networkName
      && match r with
         | None => true
         | Some _ => forallb (fun e => negb (isOperation e)) rest
         end
  | e :: rest => negb (isOperation e) && gated user networkName rest
  end.

(** ** Concrete states used in the examples *)

Module Examples.

Definition noon (y m d : Z) : Time := Date y m d 12 0 0.

(** A clock that stands still, and a database that never fails. *)
Definition calm (now : Time) : Env := mkEnv (fun _ => now) (fun _ => false).

(** The same, with the database call number [k] failing. *)
Definition failingAt (now : Time) (k : nat) : Env :=
  mkEnv (fun _ => now) (fun n => Nat.eqb n k).

Definition empty : State := mkState [] 1 0 0.

(** "Qm123" pinned on the public network by alice for one month on
    2018-06-15, kept until 2018-07-15: the state [NewUpload] leaves. *)
Definition qm123 : Upload :=
  mkUpload 1 None "Qm123" "pin" "f" "public" 1 "alice" (noon 2018 7 15) ["alice"].

Definition pinned : State := mkState [qm123] 2 2 1.

(** A second pin, by bob a day later, kept until 2018-07-16. *)
Definition qm456 : Upload :=
  mkUpload 2 None "Qm456" "pin" "g" "public" 1 "bob" (noon 2018 7 16) ["bob"].

Definition twoPins : State := mkState [qm123; qm456] 3 4 2.

Definition request (user : string) (form : list (string * string)) (hash : string)
  : Api.Context :=
  Api.mkContext user
    (fun f => option_map snd (find (fun p => String.eqb (fst p) f) form))
    (fun _ => hash)
    (fun _ => (Api.mkFileHeader 10 None, None)).

(** Collaborators that all answer well, except that the access gate lets
    only [member] through and the decoder accepts only [goodCid]. *)
Definition services (member goodCid : string) : Api.Services :=
  Api.mkServices
    (fun u _ => if String.eqb u member then None else Some "access denied")
    (fun h => if String.eqb h goodCid then None else Some "invalid cid")
    (fun _ => (1, None))
    (fun _ => None)
    (fun _ _ _ => None)
    None
    (fun _ => None)
    "rand"
    "files"
    (fun _ _ => None)
    (fun _ => ("url", None))
    (fun _ => None)
    (fun _ => ("QmAdded", None)).

End Examples.

(** ** More of [UploadManager] *)

(** [const dev = true]. *)
Definition dev : bool := true.

(** What [RunTestDatabaseGarbageCollection] can return as its error. *)
Inductive testGcError : Type :=
| ErrNotInDevMode              (* errors.New("not in dev mode") *)
| ErrGorm (e : error).

(** The loop of [RunTestDatabaseGarbageCollection]: every upload found is
    deleted, whatever its date. *)
Fixpoint testGcLoop (E : Env) (foundUploads deletedUploads : list Upload)
  : M (option (list Upload) * option testGcError) :=
  match foundUploads with
  | [] => ret (Some deletedUploads, None)
  | v :: rest =>
      check <- Delete E DB v ;;
      match Error check with
      | Some e => ret (None, Some (ErrGorm e))
      | None => testGcLoop E rest ((deletedUploads ++ [v])%list)
      end
  end.

Definition RunTestDatabaseGarbageCollection (E : Env)
  : M (option (list Upload) * option testGcError) :=
  if negb dev then ret (None, Some ErrNotInDevMode)
  else
    '(foundUploads, check) <- Find E DB ;;
    match Error check with
    | Some e => ret (None, Some (ErrGorm e))
    | None => testGcLoop E foundUploads []
    end.

(** A call made on the manager, and a run of such calls, each on the state
    the one before left. *)
Inductive LedgerCall : Type :=
| CallNewUpload (contentHash uploadType networkName username name : string)
                (holdTimeInMonths : Z)
| CallUpdateUpload (holdTimeInMonths : Z) (username contentHash networkName : string)
| CallRunDatabaseGarbageCollection
| CallRunTestDatabaseGarbageCollection.

Definition runCall (E : Env) (c : LedgerCall) (s : State) : State :=
  match c with
  | CallNewUpload h ty n u nm hold => snd (NewUpload E h ty n u nm hold s)
  | CallUpdateUpload hold u h n => snd (UpdateUpload E hold u h n s)
  | CallRunDatabaseGarbageCollection => snd (RunDatabaseGarbageCollection E s)
  | CallRunTestDatabaseGarbageCollection => snd (RunTestDatabaseGarbageCollection E s)
  end.

Fixpoint runCalls (E : Env) (calls : list LedgerCall) (s : State) : State :=
  match calls with
  | [] => s
  | c :: rest => runCalls E rest (runCall E c s)
  end.

(** The rows a [Delete] of [v] reaches: those carrying its primary key, or
    every row when that key is blank. *)
Definition reaches (v r : Upload) : bool :=
  (ID v =? 0) || (ID r =? ID v).

(** How a soft delete may change a row: not at all, or a visible row gets
    its mark and nothing else. *)
Definition marked (r r' : Upload) : Prop :=
  r' = r \/ (active r = true /\ exists t, r' = set_DeletedAt (Some t) r).

(** A step that only marks rows: same rows in the same order, same serial
    key. *)
Definition onlyMarks (s s' : State) : Prop :=
  Forall2 marked (table s) (table s') /\ nextID s' = nextID s.

(** ** Package [api]: the cluster routes and the other private-network routes *)

Module Routes.

(** A Go [error]: a message, or an error of package [models]. *)
Inductive err : Type :=
| Msg (text : string)
| FromModels (e : error).

Definition IPFSConnectionError := "failed to connect to ipfs".
Definition PrivateNetworkAccessError := "invalid access to private netowrk".
Definition APIURLCheckError := "failed to get api url".
Definition IPFSCatError := "failed to execute ipfs cat".
Definition IPFSObjectStatError := "failed to execute ipfs object stat".
Definition IPFSPubSubPublishError := "failed to publish pubsub message".
Definition UploadSearchError := "failed to search for uploads in database".
Definition NetworkSearchError := "faild to search for networks".
Definition NetworkCreationError := "failed to create network".
Definition QueueInitializationError := "failed to initialize queue".
Definition QueuePublishError := "failed to publish message to queue".
Definition KeySearchError := "failed to search for key".
Definition KeyUseError := "user does not own key".
Definition IPFSPinParseError := "failed to parse ipfs pins".
Definition IPFSClusterStatusError := "failed to get ipfs cluster status".
Definition IPFSClusterConnectionError := "failed to connect to IPFS cluster".
Definition IPFSClusterPinRemovalError := "failed to remove pin from cluster".
Definition MinioConnectionError := "failed to connect to minio".
Definition MinioBucketCreationError := "failed to create minio bucket".

(** [queue.IPNSEntry]; durations in nanoseconds. *)
Record IPNSEntry : Type := mkIPNSEntry {
  CID : string;
  LifeTime : Z;
  TTL : Z;
  Key : string;
  Resolve : bool;
  EntryNetworkName : string;
  EntryUserName : string
}.

(** A Go [map[string]string] or [map[string][]string], as the list of its
    keys with their values; assigning to a key already there replaces its
    value. *)
Fixpoint mapSet {V} (k : string) (v : V) (m : list (string * V)) : list (string * V) :=
  match m with
  | [] => [(k, v)]
  | (k', v') :: rest =>
      if String.eqb k' k then (k, v) :: rest else (k', v') :: mapSet k v rest
  end.

Fixpoint mapGet {V} (k : string) (m : list (string * V)) : option V :=
  match m with
  | [] => None
  | (k', v') :: rest => if String.eqb k' k then Some v' else mapGet k rest
  end.

(** [gin.Context] as these routes read it. *)
Record Context : Type := mkContext {
  GetAuthenticatedUserFromContext : string;
  GetPostForm : string -> option string;
  GetPostFormArray : string -> option (list string);
  Param : string -> string
}.

(** [c.PostFormArray(key)]: the values, or none. *)
Definition PostFormArray (c : Context) (key : string) : list string :=
  match GetPostFormArray c key with Some l => l | None => [] end.

(** Every call these routes make on something outside package [api]. *)
Inductive Call : Type :=
| ClusterInitialize
| ClusterParseLocalStatusAllAndSync
| ClusterRemovePinFromCluster (hash : string)
| ClusterGetStatusForCidLocally (hash : string)
| ClusterGetStatusForCidGlobally (hash : string)
| ClusterFetchLocalStatus
| DbGetAPIURLByName (networkName : string)
| DbCheckIfKeyOwnedByUser (user key : string)
| DbCreateHostedPrivateNetwork (name apiURL swarmKey : string)
    (args : list (string * list string)) (users : list string)
| DbAddIPFSNetworkForUser (user networkName : string)
| DbGetNetworkByName (name : string)
| DbGetPrivateIPFSNetworksForUser (user : string)
| DbFindUploadsByNetwork (networkName : string)
| IpfsInitialize (apiURL : string)
| IpfsGetObjectFileSizeInBytes (apiURL key : string)
| IpfsPublishPubSubMessage (apiURL topic message : string)
| IpfsPins (apiURL : string)
| IpfsObjectStat (apiURL key : string)
| IpfsParseLocalPinsForHash (apiURL hash : string)
| IpfsCat (apiURL hash : string)
| IpfsPin (hash : string)
| QueueInitializeIpnsEntryQueue
| QueuePublishMessage (entry : IPNSEntry)
| MinioNewManager
| MinioMakeBucket (name : string).

(** What those calls answer. *)
Record Backend : Type := mkBackend {
  AdminAddress : string;
  CheckAccessForPrivateNetwork : string -> string -> option err;
  gocid_Decode : string -> option err;
  cluster_Initialize : option err;
  ParseLocalStatusAllAndSync : list string * option err;
  RemovePinFromCluster : string -> option err;
  GetStatusForCidLocally : string -> string * option err;
  GetStatusForCidGlobally : string -> string * option err;
  FetchLocalStatus : list (string * string) * option err;
  GetAPIURLByName : string -> string * option err;
  CheckIfKeyOwnedByUser : string -> string -> bool * option err;
  CreateHostedPrivateNetwork :
    string -> string -> string -> list (string * list string) -> list string
    -> string * option err;
  AddIPFSNetworkForUser : string -> string -> option err;
  GetNetworkByName : string -> string * option err;
  GetPrivateIPFSNetworksForUser : string -> list string * option err;
  rtfs_Initialize : string -> option err;
  GetObjectFileSizeInBytes : string -> string -> Z * option err;
  PublishPubSubMessage : string -> string -> string -> option err;
  Shell_Pins : string -> string * option err;
  ObjectStat : string -> string -> string * option err;
  ParseLocalPinsForHash : string -> string -> bool * option err;
  Shell_Cat : string -> string -> string * option err;
  Shell_Pin : string -> option err;
  queue_Initialize : option err;
  PublishMessage : IPNSEntry -> option err;
  GenerateMultiAddrFromString : string -> string * option err;
  ParseMultiAddrForIPFSPeer : string -> bool * option err;
  strconv_ParseBool : string -> bool * option err;
  time_ParseDuration : string -> Z * option err;
  NewMinioManager : option err;
  MakeBucket : string -> option err
}.

(** The body of a response. *)
Inductive Body : Type :=
| BText (s : string)
| BStrings (l : list string)
| BBool (b : bool)
| BObjectSize (object : string) (sizeInBytes : Z)
| BTopicMessage (topic message : string)
| BCidsStatuses (cids statuses : list string)
| BUploads (uploads : list Upload)
| BHash (hash : string)
| BNil.

Inductive Event : Type :=
| EvCheckAccess (user networkName : string) (result : option err)
| EvCall (call : Call) (failed : option err)
| EvLogError (e : err) (message : string)
| EvLogErrorf (message : string)
| EvLogInfo (message : string)
| EvFailOnError (e : err)
| EvFailNoExistPostForm (field : string)
| EvFailNotAuthorized (message : string)
| EvRespond (status : Z) (body : Body)
| EvDataFromReader (status sizeInBytes : Z) (contentType reader : string)
    (extraHeaders : list (string * string))
| EvJSON (status : Z) (body : Body).

Definition H (A : Type) : Type := (list Event * option A)%type.

Definition hret {A} (a : A) : H A := ([], Some a).

Definition hbind {A B} (m : H A) (k : A -> H B) : H B :=
  match m with
  | (tr, None) => (tr, None)
  | (tr, Some a) => let (tr', r) := k a in ((tr ++ tr')%list, r)
  end.

Declare Scope routes_scope.
Notation "x <- m ;; k" := (hbind m (fun x => k))
  (at level 61, m at next level, right associativity) : routes_scope.
Notation "m ;;; k" := (hbind m (fun _ => k))
  (at level 61, right associativity) : routes_scope.
Local Open Scope routes_scope.

Definition emit (e : Event) : H unit := ([e], Some tt).

Definition bail {A} (evs : list Event) : H A := (evs, None).

(** [if err != nil { api.LogError(err, msg); FailOnError(c, err); return }] *)
Definition orLogAndFail (r : option err) (message : string) : H unit :=
  match r with
  | Some e => bail [EvLogError e message; EvFailOnError e]
  | None => hret tt
  end.

(** [if err != nil { FailOnError(c, err); return }] *)
Definition orFail (r : option err) : H unit :=
  match r with
  | Some e => bail [EvFailOnError e]
  | None => hret tt
  end.

Definition requirePostForm (c : Context) (field : string) : H string :=
  match GetPostForm c field with
  | Some v => hret v
  | None => bail [EvFailNoExistPostForm field]
  end.

(** [if ethAddress != AdminAddress { FailNotAuthorized(c, msg); return }] *)
Definition requireAdmin (B : Backend) (c : Context) (message : string) : H unit :=
  if String.eqb (GetAuthenticatedUserFromContext c) (AdminAddress B)
  then hret tt
  else bail [EvFailNotAuthorized message].

Definition checkAccess (B : Backend) (user networkName : string) : H unit :=
  let r := CheckAccessForPrivateNetwork B user networkName in
  emit (EvCheckAccess user networkName r) ;;;
  orLogAndFail r PrivateNetworkAccessError.

(** A call, recorded, whose failure is logged under [message]. *)
Definition call {A} (what : Call) (answer : A * option err) (message : string) : H A :=
  emit (EvCall what (snd answer)) ;;;
  orLogAndFail (snd answer) message ;;;
  hret (fst answer).

Definition call_ (what : Call) (answer : option err) (message : string) : H unit :=
  call what (tt, answer) message.

(** *** routes_rtfs_cluster.go *)

Definition syncClusterErrorsLocally (B : Backend) (c : Context) : H unit :=
  requireAdmin B c "unauthorized access to admin route" ;;;
  call_ ClusterInitialize (cluster_Initialize B) IPFSConnectionError ;;;
  syncedCids <- call ClusterParseLocalStatusAllAndSync (ParseLocalStatusAllAndSync B)
                     IPFSClusterStatusError ;;
  emit (EvLogInfo "local cluster errors parsed") ;;;
  emit (EvRespond 200 (BStrings syncedCids)).

Definition removePinFromCluster (B : Backend) (c : Context) : H unit :=
  requireAdmin B c "unauthorized access to cluster removal" ;;;
  let hash := Param c "hash" in
  orFail (gocid_Decode B hash) ;;;
  call_ ClusterInitialize (cluster_Initialize B) IPFSClusterConnectionError ;;;
  call_ (ClusterRemovePinFromCluster hash) (RemovePinFromCluster B hash)
        IPFSClusterPinRemovalError ;;;
  emit (EvLogInfo "pin removal request sent to cluster") ;;;
  emit (EvRespond 200 (BText "pin removal request sent to cluster")).

Definition getLocalStatusForClusterPin (B : Backend) (c : Context) : H unit :=
  requireAdmin B c "unauthorized access to admin route" ;;;
  let hash := Param c "hash" in
  orFail (gocid_Decode B hash) ;;;
  call_ ClusterInitialize (cluster_Initialize B) IPFSClusterConnectionError ;;;
  status <- call (ClusterGetStatusForCidLocally hash) (GetStatusForCidLocally B hash)
                 IPFSClusterStatusError ;;
  emit (EvLogInfo "local cluster status for pin requested") ;;;
  emit (EvRespond 200 (BText status)).

Definition getGlobalStatusForClusterPin (B : Backend) (c : Context) : H unit :=
  requireAdmin B c "unauthorized access to cluster status" ;;;
  let hash := Param c "hash" in
  orFail (gocid_Decode B hash) ;;;
  call_ ClusterInitialize (cluster_Initialize B) IPFSClusterConnectionError ;;;
  status <- call (ClusterGetStatusForCidGlobally hash) (GetStatusForCidGlobally B hash)
                 IPFSClusterStatusError ;;
  emit (EvLogInfo "global cluster status for pin requested") ;;;
  emit (EvRespond 200 (BText status)).

(** [for k, v := range maps { cids = append(cids, k); statuses = append(statuses, v) }] *)
Fixpoint collectStatuses (maps : list (string * string)) (cids statuses : list string)
  : list string * list string :=
  match maps with
  | [] => (cids, statuses)
  | (k, v) :: rest => collectStatuses rest (cids ++ [k])%list (statuses ++ [v])%list
  end.

Definition fetchLocalClusterStatus (B : Backend) (c : Context) : H unit :=
  requireAdmin B c "unauthorized access to admin route" ;;;
  call_ ClusterInitialize (cluster_Initialize B) IPFSClusterConnectionError ;;;
  maps <- call ClusterFetchLocalStatus (FetchLocalStatus B) IPFSClusterStatusError ;;
  let '(cids, statuses) := collectStatuses maps [] [] in
  emit (EvLogInfo "local cluster state fetched") ;;;
  emit (EvRespond 200 (BCidsStatuses cids statuses)).

(** *** The private-network routes that read *)

Definition getFileSizeInBytesForObjectForHostedIPFSNetwork (B : Backend) (c : Context)
  : H unit :=
  let username := GetAuthenticatedUserFromContext c in
  networkName <- requirePostForm c "network_name" ;;
  checkAccess B username networkName ;;;
  apiURL <- call (DbGetAPIURLByName networkName) (GetAPIURLByName B networkName)
                 APIURLCheckError ;;
  let key := Param c "key" in
  orFail (gocid_Decode B key) ;;;
  call_ (IpfsInitialize apiURL) (rtfs_Initialize B apiURL) IPFSConnectionError ;;;
  sizeInBytes <- call (IpfsGetObjectFileSizeInBytes apiURL key)
                      (GetObjectFileSizeInBytes B apiURL key) IPFSObjectStatError ;;
  emit (EvLogInfo "private ipfs object file size requested") ;;;
  emit (EvRespond 200 (BObjectSize key sizeInBytes)).

Definition ipfsPubSubPublishToHostedIPFSNetwork (B : Backend) (c : Context) : H unit :=
  let username := GetAuthenticatedUserFromContext c in
  networkName <- requirePostForm c "network_name" ;;
  checkAccess B username networkName ;;;
  apiURL <- call (DbGetAPIURLByName networkName) (GetAPIURLByName B networkName)
                 APIURLCheckError ;;
  let topic := Param c "topic" in
  message <- requirePostForm c "message" ;;
  call_ (IpfsInitialize apiURL) (rtfs_Initialize B apiURL) IPFSConnectionError ;;;
  call_ (IpfsPublishPubSubMessage apiURL topic message)
        (PublishPubSubMessage B apiURL topic message) IPFSPubSubPublishError ;;;
  emit (EvLogInfo "private ipfs pub sub message published") ;;;
  emit (EvRespond 200 (BTopicMessage topic message)).

Definition getLocalPinsForHostedIPFSNetwork (B : Backend) (c : Context) : H unit :=
  let ethAddress := GetAuthenticatedUserFromContext c in
  requireAdmin B c "unauthorized access to admin route" ;;;
  networkName <- requirePostForm c "network_name" ;;
  checkAccess B ethAddress networkName ;;;
  apiURL <- call (DbGetAPIURLByName networkName) (GetAPIURLByName B networkName)
                 APIURLCheckError ;;
  call_ (IpfsInitialize apiURL) (rtfs_Initialize B apiURL) IPFSConnectionError ;;;
  pinInfo <- call (IpfsPins apiURL) (Shell_Pins B apiURL) IPFSPinParseError ;;
  emit (EvLogInfo "private ipfs pin list requested") ;;;
  emit (EvRespond 200 (BText pinInfo)).

Definition getObjectStatForIpfsForHostedIPFSNetwork (B : Backend) (c : Context)
  : H unit :=
  let ethAddress := GetAuthenticatedUserFromContext c in
  networkName <- requirePostForm c "network_name" ;;
  checkAccess B ethAddress networkName ;;;
  apiURL <- call (DbGetAPIURLByName networkName) (GetAPIURLByName B networkName)
                 APIURLCheckError ;;
  let key := Param c "key" in
  orFail (gocid_Decode B key) ;;;
  call_ (IpfsInitialize apiURL) (rtfs_Initialize B apiURL) IPFSConnectionError ;;;
  stats <- call (IpfsObjectStat apiURL key) (ObjectStat B apiURL key)
                IPFSObjectStatError ;;
  emit (EvLogInfo "private ipfs object stat requested") ;;;
  emit (EvRespond 200 (BText stats)).

Definition checkLocalNodeForPinForHostedIPFSNetwork (B : Backend) (c : Context)
  : H unit :=
  let ethAddress := GetAuthenticatedUserFromContext c in
  requireAdmin B c "unauthorized access to admin route" ;;;
  networkName <- requirePostForm c "network_name" ;;
  checkAccess B ethAddress networkName ;;;
  apiURL <- call (DbGetAPIURLByName networkName) (GetAPIURLByName B networkName)
                 APIURLCheckError ;;
  let hash := Param c "hash" in
  orFail (gocid_Decode B hash) ;;;
  call_ (IpfsInitialize apiURL) (rtfs_Initialize B apiURL) IPFSConnectionError ;;;
  present <- call (IpfsParseLocalPinsForHash apiURL hash)
                  (ParseLocalPinsForHash B apiURL hash) IPFSPinParseError ;;
  emit (EvLogInfo "private ipfs pin check requested") ;;;
  emit (EvRespond 200 (BBool present)).

Definition getIPFSPrivateNetworkByName (B : Backend) (c : Context) : H unit :=
  requireAdmin B c "unauthorized access" ;;;
  let netName := Param c "name" in
  net <- call (DbGetNetworkByName netName) (GetNetworkByName B netName)
              NetworkSearchError ;;
  emit (EvLogInfo "private ipfs network by name requested") ;;;
  emit (EvRespond 200 (BText net)).

Definition getAuthorizedPrivateNetworks (B : Backend) (c : Context) : H unit :=
  let ethAddress := GetAuthenticatedUserFromContext c in
  networks <- call (DbGetPrivateIPFSNetworksForUser ethAddress)
                   (GetPrivateIPFSNetworksForUser B ethAddress)
                   PrivateNetworkAccessError ;;
  emit (EvLogInfo "authorized private ipfs network listing requested") ;;;
  emit (EvRespond 200 (BStrings networks)).

(** [getUploadsByNetworkName] reads the ledger through
    [models.UploadManager.FindUploadsByNetwork]. *)
Definition getUploadsByNetworkName (B : Backend) (E : Env) (c : Context) (s : State)
  : H unit * State :=
  let ethAddress := GetAuthenticatedUserFromContext c in
  let checked : H string :=
    networkName <- requirePostForm c "network_name" ;;
    checkAccess B ethAddress networkName ;;;
    hret networkName in
  match checked with
  | (tr, None) => ((tr, None), s)
  | (tr, Some networkName) =>
      let '((uploads, e), s') := FindUploadsByNetwork E networkName s in
      let e := option_map FromModels e in
      (hbind (tr, Some tt) (fun _ =>
         emit (EvCall (DbFindUploadsByNetwork networkName) e) ;;;
         orLogAndFail e UploadSearchError ;;;
         emit (EvLogInfo "uploads forprivate ifps network requested") ;;;
         emit (EvRespond 200
                 (BUploads match uploads with Some l => l | None => [] end))),
       s')
  end.

(** *** publishDetailedIPNSToHostedIPFSNetwork *)

Definition publishDetailedIPNSToHostedIPFSNetwork (B : Backend) (c : Context) : H unit :=
  networkName <- requirePostForm c "network_name" ;;
  let ethAddress := GetAuthenticatedUserFromContext c in
  checkAccess B ethAddress networkName ;;;
  call_ QueueInitializeIpnsEntryQueue (queue_Initialize B) QueueInitializationError ;;;
  hash <- requirePostForm c "hash" ;;
  orFail (gocid_Decode B hash) ;;;
  lifetimeStr <- match GetPostForm c "life_time" with
                 | Some v => hret v
                 | None => bail [EvFailNoExistPostForm "lifetime"]
                 end ;;
  ttlStr <- requirePostForm c "ttl" ;;
  key <- requirePostForm c "key" ;;
  resolveString <- requirePostForm c "resolve" ;;
  ownsKey <- call (DbCheckIfKeyOwnedByUser ethAddress key)
                  (CheckIfKeyOwnedByUser B ethAddress key) KeySearchError ;;
  (if negb ownsKey
   then orLogAndFail
          (Some (Msg ("unauthorized access to key by user " ++ ethAddress)%string))
          KeyUseError
   else hret tt) ;;;
  let '(resolve, e) := strconv_ParseBool B resolveString in
  orFail e ;;;
  let '(lifetime, e) := time_ParseDuration B lifetimeStr in
  orFail e ;;;
  let '(ttl, e) := time_ParseDuration B ttlStr in
  orFail e ;;;
  let ipnsUpdate := mkIPNSEntry hash lifetime ttl key resolve networkName ethAddress in
  call_ (QueuePublishMessage ipnsUpdate) (PublishMessage B ipnsUpdate)
        QueuePublishError ;;;
  emit (EvLogInfo "private ipns entry creation request sent to backend") ;;;
  emit (EvRespond 200 (BText "ipns entry creation request sent to backend")).

(** *** createHostedIPFSNetworkEntryInDatabase *)

(** The loop [for k, v := range bPeers]: [remaining] is what is left of
    [bPeers] from index [k] on. [nodeAddresses[k]] is within bounds, the
    two lengths having been compared before the loop. *)
Fixpoint validatePeers (B : Backend) (nodeAddresses : list string) (k : nat)
    (remaining localNodeAddresses bootstrapPeerAddresses : list string)
  : H (list string * list string) :=
  match remaining with
  | [] => hret (localNodeAddresses, bootstrapPeerAddresses)
  | v :: rest =>
      let '(addr, e) := GenerateMultiAddrFromString B v in
      orFail e ;;;
      let '(valid, e) := ParseMultiAddrForIPFSPeer B addr in
      orFail e ;;;
      (if negb valid
       then bail [EvLogErrorf ("provided peer " ++ addr
                               ++ " is not a valid bootstrap peer")%string;
                  EvFailOnError (Msg ("provided peer " ++ addr
                                      ++ " is not a valid bootstrap peer")%string)]
       else hret tt) ;;;
      let '(addr, e) := GenerateMultiAddrFromString B (nth k nodeAddresses "") in
      orFail e ;;;
      let '(valid, e) := ParseMultiAddrForIPFSPeer B addr in
      orFail e ;;;
      (if negb valid
       then bail [EvFailOnError (Msg ("provided peer " ++ addr
                                      ++ " is not a valid ipfs peer")%string)]
       else hret tt) ;;;
      validatePeers B nodeAddresses (S k) rest
        (localNodeAddresses ++ [nth k nodeAddresses ""])%list
        (bootstrapPeerAddresses ++ [v])%list
  end.

(** [for _, v := range users { um.AddIPFSNetworkForUser(v, networkName) ... }] *)
Fixpoint addUsers (B : Backend) (networkName : string) (users : list string) : H unit :=
  match users with
  | [] => hret tt
  | v :: rest =>
      call_ (DbAddIPFSNetworkForUser v networkName)
            (AddIPFSNetworkForUser B v networkName) NetworkCreationError ;;;
      addUsers B networkName rest
  end.

Definition createHostedIPFSNetworkEntryInDatabase (B : Backend) (c : Context) : H unit :=
  requireAdmin B c "unauthorized access" ;;;
  networkName <- requirePostForm c "network_name" ;;
  apiURL <- requirePostForm c "api_url" ;;
  swarmKey <- requirePostForm c "swarm_key" ;;
  bPeers <- match GetPostFormArray c "bootstrap_peers" with
            | Some l => hret l
            | None => bail [EvFailNoExistPostForm "bootstrap_peers"]
            end ;;
  nodeAddresses <- match GetPostFormArray c "local_node_addresses" with
                   | Some l => hret l
                   | None => bail [EvFailNoExistPostForm "local_node_addresses"]
                   end ;;
  let users := PostFormArray c "users" in
  (if negb (Nat.eqb (List.length nodeAddresses) (List.length bPeers))
   then bail [EvFailOnError
                (Msg "length of local_node_addresses and bootstrap_peers must be equal")]
   else hret tt) ;;;
  validated <- validatePeers B nodeAddresses 0 bPeers [] [] ;;
  let '(localNodeAddresses, bootstrapPeerAddresses) := validated in
  let args := mapSet "local_node_peer_addresses" localNodeAddresses [] in
  let args :=
    if (0 <? List.length bootstrapPeerAddresses)%nat
    then mapSet "bootstrap_peer_addresses" bootstrapPeerAddresses args
    else args in
  network <- call (DbCreateHostedPrivateNetwork networkName apiURL swarmKey args users)
                  (CreateHostedPrivateNetwork B networkName apiURL swarmKey args users)
                  NetworkCreationError ;;
  (if (0 <? List.length users)%nat
   then addUsers B networkName users
   else call_ (DbAddIPFSNetworkForUser (AdminAddress B) networkName)
              (AddIPFSNetworkForUser B (AdminAddress B) networkName)
              NetworkCreationError) ;;;
  emit (EvLogInfo "private ipfs network created") ;;;
  emit (EvRespond 200 (BText network)).

(** *** downloadContentHashForPrivateNetwork *)

(** The loop [for i := 1; i < len(exHeaders)-1; i += 2]; [fuel] bounds the
    number of turns. *)
Fixpoint headerLoop (fuel : nat) (exHeaders : list string) (i : nat)
    (extraHeaders : list (string * string)) : list (string * string) :=
  match fuel with
  | O => extraHeaders
  | S fuel' =>
      if (i <? List.length exHeaders - 1)%nat
      then
        let header := nth (i - 1) exHeaders "" in
        let value := nth i exHeaders "" in
        headerLoop fuel' exHeaders (i + 2) (mapSet header value extraHeaders)
      else extraHeaders
  end.

(** The parsing of [extra_headers]: an error for an odd number of entries,
    otherwise the map the loop fills. *)
Definition parseExtraHeaders (exHeaders : list string)
  : list (string * string) * option err :=
  if (0 <? List.length exHeaders)%nat then
    if negb (Nat.eqb (List.length exHeaders mod 2) 0)
    then ([], Some (Msg "extra_headers post form is not even in length"))
    else (headerLoop (List.length exHeaders) exHeaders 1 [], None)
  else ([], None).

Definition downloadContentHashForPrivateNetwork (B : Backend) (c : Context) : H unit :=
  networkName <- requirePostForm c "network_name" ;;
  let ethAddress := GetAuthenticatedUserFromContext c in
  checkAccess B ethAddress networkName ;;;
  let contentType :=
    match GetPostForm c "content_type" with
    | Some t => t
    | None => "application/octet-stream"
    end in
  let exHeaders := PostFormArray c "extra_headers" in
  apiURL <- call (DbGetAPIURLByName networkName) (GetAPIURLByName B networkName)
                 APIURLCheckError ;;
  let contentHash := Param c "hash" in
  orFail (gocid_Decode B contentHash) ;;;
  call_ (IpfsInitialize apiURL) (rtfs_Initialize B apiURL) IPFSConnectionError ;;;
  reader <- call (IpfsCat apiURL contentHash) (Shell_Cat B apiURL contentHash)
                 IPFSCatError ;;
  sizeInBytes <- call (IpfsGetObjectFileSizeInBytes apiURL contentHash)
                      (GetObjectFileSizeInBytes B apiURL contentHash)
                      IPFSObjectStatError ;;
  let '(extraHeaders, e) := parseExtraHeaders exHeaders in
  orFail e ;;;
  emit (EvLogInfo "private ipfs content download served") ;;;
  emit (EvDataFromReader 200 sizeInBytes contentType reader extraHeaders).

(** *** The bucket route and the first pin route *)

Definition makeBucket (B : Backend) (c : Context) : H unit :=
  requireAdmin B c "unauthorized access" ;;;
  bucketName <- requirePostForm c "bucket_name" ;;
  call_ MinioNewManager (NewMinioManager B) MinioConnectionError ;;;
  call_ (MinioMakeBucket bucketName) (MakeBucket B bucketName)
        MinioBucketCreationError ;;;
  emit (EvLogInfo "minio bucket created") ;;;
  emit (EvRespond 200 (BText "bucket created")).

(** [pinHash]: the 404 of a failed pin is not followed by a [return]. *)
Definition pinHash (B : Backend) (c : Context) : H unit :=
  let hash := Param c "hash" in
  let e := Shell_Pin B hash in
  emit (EvCall (IpfsPin hash) e) ;;;
  (match e with
   | Some _ => emit (EvJSON 404 BNil)
   | None => hret tt
   end) ;;;
  emit (EvJSON 200 (BHash hash)).

End Routes.

(** ** What is asked of a run of those routes *)

Definition isCall (e : Routes.Event) : bool :=
  match e with Routes.EvCall _ _ => true | _ => false end.

Definition isRespond (e : Routes.Event) : bool :=
  match e with
  | Routes.EvRespond _ _ | Routes.EvDataFromReader _ _ _ _ _ => true
  | _ => false
  end.

(** No call on a backend before the access check of [(user, networkName)]
    has let the caller through, and none after a check that refused. *)
Fixpoint gatedCalls (user networkName : string) (tr : list Routes.Event) : bool :=
  match tr with
  | [] => true
  | Routes.EvCheckAccess u n r :: rest =>
      String.eqb u user && String.eqb n networkName
      && match r with
         | None => true
         | Some _ => forallb (fun e => negb (isCall e)) rest
         end
  | e :: rest => negb (isCall e) && gatedCalls user networkName rest
  end.

(** A failed call is followed by its log entry and its report to the
    caller, and by nothing else. *)
Fixpoint failStop (tr : list Routes.Event) : Prop :=
  match tr with
  | [] => True
  | Routes.EvCall _ (Some e) :: rest =>
      exists message, rest = [Routes.EvLogError e message; Routes.EvFailOnError e]
  | _ :: rest => failStop rest
  end.

(** The routes open to the administrator only. *)
Definition adminRoutes : list (Routes.Backend -> Routes.Context -> Routes.H unit) :=
  [Routes.syncClusterErrorsLocally; Routes.removePinFromCluster;
   Routes.getLocalStatusForClusterPin; Routes.getGlobalStatusForClusterPin;
   Routes.fetchLocalClusterStatus; Routes.getLocalPinsForHostedIPFSNetwork;
   Routes.checkLocalNodeForPinForHostedIPFSNetwork;
   Routes.createHostedIPFSNetworkEntryInDatabase;
   Routes.getIPFSPrivateNetworkByName; Routes.makeBucket].

(** The routes acting for a posted private network, besides the pin, removal
    and file-add routes. *)
Definition networkRoutes : list (Routes.Backend -> Routes.Context -> Routes.H unit) :=
  [Routes.getFileSizeInBytesForObjectForHostedIPFSNetwork;
   Routes.ipfsPubSubPublishToHostedIPFSNetwork;
   Routes.getLocalPinsForHostedIPFSNetwork;
   Routes.getObjectStatForIpfsForHostedIPFSNetwork;
   Routes.checkLocalNodeForPinForHostedIPFSNetwork;
   Routes.publishDetailedIPNSToHostedIPFSNetwork;
   Routes.downloadContentHashForPrivateNetwork].

(** The routes that have no loop over posted values and return after each
    failure; [pinHash], which does not return after a failed pin, is not
    among them. *)
Definition straightRoutes : list (Routes.Backend -> Routes.Context -> Routes.H unit) :=
  [Routes.syncClusterErrorsLocally; Routes.removePinFromCluster;
   Routes.getLocalStatusForClusterPin; Routes.getGlobalStatusForClusterPin;
   Routes.fetchLocalClusterStatus;
   Routes.getFileSizeInBytesForObjectForHostedIPFSNetwork;
   Routes.ipfsPubSubPublishToHostedIPFSNetwork;
   Routes.getLocalPinsForHostedIPFSNetwork;
   Routes.getObjectStatForIpfsForHostedIPFSNetwork;
   Routes.checkLocalNodeForPinForHostedIPFSNetwork;
   Routes.getIPFSPrivateNetworkByName; Routes.getAuthorizedPrivateNetworks;
   Routes.publishDetailedIPNSToHostedIPFSNetwork;
   Routes.downloadContentHashForPrivateNetwork; Routes.makeBucket].

(** The entries of a list taken two by two. *)
Fixpoint pairUp (l : list string) : list (string * string) :=
  match l with
  | a :: b :: rest => (a, b) :: pairUp rest
  | _ => []
  end.

(** A map filled by assigning the pairs in order. *)
Definition assignAll (pairs : list (string * string)) (m : list (string * string))
  : list (string * string) :=
  fold_left (fun acc p => Routes.mapSet (fst p) (snd p) acc) pairs m.

(** A peer address the validation loop lets through. *)
Definition validPeer (B : Routes.Backend) (v : string) : Prop :=
  exists addr,
    Routes.GenerateMultiAddrFromString B v = (addr, None)
    /\ Routes.ParseMultiAddrForIPFSPeer B addr = (true, None).

(** The call that creates a private network. *)
Definition isCreate (e : Routes.Event) : bool :=
  match e with
  | Routes.EvCall (Routes.DbCreateHostedPrivateNetwork _ _ _ _ _) _ => true
  | _ => false
  end.

(** A backend all of whose calls succeed, for an administrator "admin". *)
Module RouteExamples.

Definition backend : Routes.Backend :=
  Routes.mkBackend "admin"
    (fun u _ => if String.eqb u "mallory" then Some (Routes.Msg "access denied") else None)
    (fun h => if String.eqb h "not-a-cid" then Some (Routes.Msg "invalid cid") else None)
    None
    (["QmErr"], None)
    (fun h => if String.eqb h "QmGone" then Some (Routes.Msg "pin failed") else None)
    (fun _ => ("pinned", None))
    (fun _ => ("pinned", None))
    ([("QmA", "pinned"); ("QmB", "pin_error")], None)
    (fun _ => ("url", None))
    (fun u k => (String.eqb k (u ++ "-key")%string, None))
    (fun name _ _ _ _ => (name, None))
    (fun u _ => if String.eqb u "dave" then Some (Routes.Msg "no such user") else None)
    (fun n => (n, None))
    (fun _ => (["acme"], None))
    (fun _ => None)
    (fun _ _ => (42, None))
    (fun _ _ _ => None)
    (fun _ => ("pins", None))
    (fun _ _ => ("stat", None))
    (fun _ _ => (true, None))
    (fun _ _ => ("bytes", None))
    (fun h => if String.eqb h "QmGone" then Some (Routes.Msg "pin failed") else None)
    None
    (fun _ => None)
    (fun v => (v, None))
    (fun a => (negb (String.eqb a "/bad"), None))
    (fun s => (String.eqb s "true", None))
    (fun _ => (3600000000000, None))
    None
    (fun _ => None).

Definition request (user : string) (form : list (string * string))
    (arrays : list (string * list string)) (param : string) : Routes.Context :=
  Routes.mkContext user
    (fun f => Routes.mapGet f form)
    (fun f => Routes.mapGet f arrays)
    (fun _ => param).

End RouteExamples.

(** ** What is asked of the answers *)

(** The handlers that hand their work to a queue. *)
Definition queueHandlers : list (Api.Services -> Api.Context -> Api.H unit) :=
  (privateNetworkHandlers ++ [Api.pinHashToCluster])%list.

(** The events that write the HTTP answer. *)
Definition isAnswer (e : Api.Event) : bool :=
  match e with
  | Api.EvFailOnError _ | Api.EvFailOnServerError _ | Api.EvFailNoExistPostForm _
  | Api.EvRespond _ _ => true
  | _ => false
  end.

(** The events that record something gone wrong. *)
Definition isFailure (e : Api.Event) : bool :=
  match e with
  | Api.EvCheckAccess _ _ (Some _) | Api.EvQueueInitialize _ (Some _)
  | Api.EvPublish _ _ _ (Some _) | Api.EvPutObject _ _ (Some _)
  | Api.EvIpfsAdd (_, Some _) | Api.EvLogError _ _ | Api.EvFailOnError _
  | Api.EvFailOnServerError _ | Api.EvFailNoExistPostForm _ => true
  | _ => false
  end.

Definition isAccepted (e : Api.Event) : bool :=
  match e with Api.EvPublish _ _ _ None => true | _ => false end.

(** A run answers once when its last event writes the answer and no earlier
    one does; the answer is a 200 exactly when the handler ran to its end. *)
Definition answeredOnce (r : Api.H unit) : bool :=
  match rev (fst r) with
  | ans :: pre =>
      forallb (fun e => negb (isAnswer e)) pre
      && match ans, snd r with
         | Api.EvRespond status _, Some _ => status =? 200
         | Api.EvRespond _ _, None => false
         | _, Some _ => false
         | _, None => isAnswer ans
         end
  | [] => false
  end.

(** A run that answers with [Respond] answers 200, has had a message
    accepted by the broker, and records nothing gone wrong. *)
Definition respondedClean (tr : list Api.Event) : bool :=
  forallb (fun e => match e with
                    | Api.EvRespond status _ =>
                        (status =? 200) && existsb isAccepted tr
                        && forallb (fun e' => negb (isFailure e')) tr
                    | _ => true
                    end) tr.

(** The events of the routes that write the HTTP answer. *)
Definition isReply (e : Routes.Event) : bool :=
  match e with
  | Routes.EvFailOnError _ | Routes.EvFailNoExistPostForm _
  | Routes.EvFailNotAuthorized _ | Routes.EvRespond _ _
  | Routes.EvDataFromReader _ _ _ _ _ | Routes.EvJSON _ _ => true
  | _ => false
  end.

Definition repliedOnce (r : Routes.H unit) : bool :=
  match rev (fst r) with
  | ans :: pre =>
      forallb (fun e => negb (isReply e)) pre
      && match snd r with
         | Some _ => isRespond ans
         | None => isReply ans && negb (isRespond ans)
         end
  | [] => false
  end.

(** ** States and values the proofs name *)

(** The state after one database call, and after one clock reading. *)
Definition tickDb (s : State) : State :=
  mkState (table s) (nextID s) (S (dbCalls s)) (clockReads s).

Definition tickClock (s : State) : State :=
  mkState (table s) (nextID s) (dbCalls s) (S (clockReads s)).

(** The record [UpdateUpload] hands to [Save]: the record it found, after
    the assignments made between the lookup and the save. *)
Definition renewedUpload (holdTimeInMonths : Z) (username : string)
    (newGcd : Time) (found : Upload) : Upload :=
  let upload := set_UserName username found in
  let isUploader := existsb (String.eqb username) (UserNames upload) in
  let upload :=
    if negb isUploader
    then set_UserNames ((UserNames upload ++ [username])%list) upload
    else upload in
  let oldGcd := GarbageCollectDate upload in
  if Unix newGcd >? Unix oldGcd
  then set_GarbageCollectDate oldGcd (set_HoldTimeInMonths holdTimeInMonths upload)
  else upload.

(** A record has passed when its garbage-collect date, in whole seconds,
    lies strictly before second [T]. *)
Definition passedAt (T : Z) (u : Upload) : bool :=
  T >? Unix (GarbageCollectDate u).

(** Whether a row carries the primary key of one of the records in [l]. *)
Definition idIn (l : list Upload) (r : Upload) : bool :=
  existsb (fun v => ID v =? ID r) l.

(** The primary key and garbage-collect date of each row, in table order. *)
Definition gcColumn (s : State) : list (Z * Time) :=
  map (fun u => (ID u, GarbageCollectDate u)) (table s).

(** A run with no queue or storage operation in it. *)
Definition quiet (tr : list Api.Event) : bool :=
  forallb (fun e => negb (isOperation e)) tr.

(** * Properties *)

(** ** Stepping through the gorm calls *)

Lemma Find_eq (E : Env) (db : GormDB) (s : State) :
  Find E db s =
  (if dbFault E (dbCalls s) then ([], withError ErrDatabase db)
   else (filter (selected db) (table s), db), tickDb s).
Proof.
  unfold Find, bind, dbCall, getTable, ret, tickDb; simpl.
  destruct (dbFault E (dbCalls s)); reflexivity.
Qed.

Lemma First_eq (E : Env) (db : GormDB) (s : State) :
  First E db s =
  (if dbFault E (dbCalls s) then (zeroUpload, withError ErrDatabase db)
   else match lowestID (filter (selected db) (table s)) with
        | Some u => (u, db)
        | None => (zeroUpload, withError ErrRecordNotFound db)
        end, tickDb s).
Proof.
  unfold First, bind, dbCall, getTable, ret, tickDb; simpl.
  destruct (dbFault E (dbCalls s)); [reflexivity|].
  simpl. destruct (lowestID _); reflexivity.
Qed.

Lemma FindUploadByHashAndNetworkAndUser_eq (E : Env) (h n u : string) (s : State) :
  FindUploadByHashAndNetworkAndUser E h n u s =
  (if dbFault E (dbCalls s) then (None, Some ErrDatabase)
   else match lowestID (filter (selected (Where (byHashNetworkUser h n u) DB)) (table s)) with
        | Some x => (Some x, None)
        | None => (None, Some ErrRecordNotFound)
        end, tickDb s).
Proof.
  unfold FindUploadByHashAndNetworkAndUser, bind. rewrite First_eq.
  destruct (dbFault E (dbCalls s)); [reflexivity|].
  destruct (lowestID _); reflexivity.
Qed.

Lemma lowestID_In (l : list Upload) (u : Upload) :
  lowestID l = Some u -> In u l.
Proof.
  revert u; induction l as [|a l IH]; simpl; intros u H; [discriminate|].
  destruct (lowestID l) as [v|].
  - injection H as <-. destruct (ID a <=? ID v); [now left | right; now apply IH].
  - injection H as <-. now left.
Qed.

Lemma lowestID_nonempty (l : list Upload) :
  l <> [] -> exists u, lowestID l = Some u.
Proof.
  destruct l as [|a l]; [congruence|]; intros _; simpl.
  destruct (lowestID l); eauto.
Qed.

Lemma selected_DB (u : Upload) : selected DB u = active u.
Proof. unfold selected; simpl. apply andb_true_r. Qed.


Lemma Create_eq (E : Env) (db : GormDB) (u : Upload) (s : State) :
  Create E db u s =
  if dbFault E (dbCalls s) then (u, withError ErrDatabase db, tickDb s)
  else (set_ID (nextID s) u, db,
        mkState (table s ++ [set_ID (nextID s) u]) (nextID s + 1)
                (S (dbCalls s)) (clockReads s)).
Proof.
  unfold Create, bind, dbCall, freshID, getTable, putTable, ret, tickDb; simpl.
  destruct (dbFault E (dbCalls s)); reflexivity.
Qed.

Lemma Save_eq (E : Env) (db : GormDB) (u : Upload) (s : State) :
  ID u <> 0 ->
  Save E db u s =
  if dbFault E (dbCalls s) then (u, withError ErrDatabase db, tickDb s)
  else (u, db,
        mkState (map (fun r => if selected db r && (ID r =? ID u) then u else r) (table s))
                (nextID s) (S (dbCalls s)) (clockReads s)).
Proof.
  intros Hid. unfold Save. apply Z.eqb_neq in Hid. rewrite Hid.
  unfold bind, dbCall, getTable, putTable, ret, tickDb; simpl.
  destruct (dbFault E (dbCalls s)); reflexivity.
Qed.

Lemma Delete_eq (E : Env) (db : GormDB) (v : Upload) (s : State) :
  Delete E db v s =
  if dbFault E (dbCalls s)
  then (withError ErrDatabase db, tickDb (tickClock s))
  else (db,
        mkState (map (fun r => if selected db r && ((ID v =? 0) || (ID r =? ID v))
                               then set_DeletedAt (Some (wallClock E (clockReads s))) r
                               else r) (table s))
                (nextID s) (S (dbCalls s)) (S (clockReads s))).
Proof.
  unfold Delete, bind, timeNow, dbCall, getTable, putTable, ret, tickDb, tickClock; simpl.
  destruct (dbFault E (dbCalls s)); reflexivity.
Qed.

Lemma CalculateGarbageCollectDate_eq (E : Env) (h : Z) (s : State) :
  CalculateGarbageCollectDate E h s =
  (AddMonthsClamped (wallClock E (clockReads s)) h, tickClock s).
Proof. reflexivity. Qed.

Lemma AtoiSprintf_int64 (h : Z) :
  minInt <= h <= maxInt -> AtoiSprintf h = (h, None).
Proof.
  intros [H1 H2]. unfold AtoiSprintf.
  apply Z.leb_le in H1, H2. now rewrite H1, H2.
Qed.

(** What a successful [NewUpload] leaves behind: one more row, visible and
    carrying the triple it was asked for. *)
Lemma NewUpload_created (E : Env) (h ty n u nm : string) (hold : Z)
    (s s1 : State) (x : Upload) :
  NewUpload E h ty n u nm hold s = (Some x, None, s1) ->
  table s1 = (table s ++ [x])%list /\ active x = true /\
  Hash x = h /\ NetworkName x = n /\ UserName x = u.
Proof.
  unfold NewUpload, bind. rewrite FindUploadByHashAndNetworkAndUser_eq.
  destruct (dbFault E (dbCalls s)).
  - destruct (AtoiSprintf hold) as [hi [e|]]; [discriminate|].
    rewrite CalculateGarbageCollectDate_eq, Create_eq. simpl.
    destruct (dbFault E (S (dbCalls s))); simpl; [discriminate|].
    intros H; injection H as <- <-. simpl. auto.
  - destruct (lowestID _); [discriminate|].
    destruct (AtoiSprintf hold) as [hi [e|]]; [discriminate|].
    rewrite CalculateGarbageCollectDate_eq, Create_eq. simpl.
    destruct (dbFault E (S (dbCalls s))); simpl; [discriminate|].
    intros H; injection H as <- <-. simpl. auto.
Qed.

(** While a visible row carries the triple, and the lookup itself goes
    through, [NewUpload] refuses and writes nothing. *)
Lemma NewUpload_refuses (E : Env) (h ty n u nm : string) (hold : Z)
    (s : State) (x : Upload) :
  In x (table s) -> active x = true ->
  Hash x = h -> NetworkName x = n -> UserName x = u ->
  dbFault E (dbCalls s) = false ->
  NewUpload E h ty n u nm hold s = (None, Some ErrUploadExists, tickDb s).
Proof.
  intros Hin Hact Hh Hn Hu Hok.
  unfold NewUpload, bind. rewrite FindUploadByHashAndNetworkAndUser_eq, Hok.
  destruct (lowestID_nonempty
              (filter (selected (Where (byHashNetworkUser h n u) DB)) (table s)))
    as [y Hy].
  - intros Hnil.
    assert (Hx : In x (filter (selected (Where (byHashNetworkUser h n u) DB)) (table s))).
    { apply filter_In; split; [assumption|].
      unfold selected, byHashNetworkUser; simpl.
      rewrite Hact, Hh, Hn, Hu, !String.eqb_refl. reflexivity. }
    rewrite Hnil in Hx. destruct Hx.
  - rewrite Hy. reflexivity.
Qed.

(** X29. Calling [NewUpload] a second time with the (contentHash,
    networkName, username) of an upload it has just created, the lookup
    query going through, fails with the "already exists" error, and the
    refused call leaves every row of the table as it was: nothing is created
    and nothing overwritten. *)
Theorem NewUpload_twice_fails (E : Env) (contentHash networkName username : string)
    (uploadType name uploadType' name' : string) (hold hold' : Z)
    (s s1 : State) (created : Upload) :
  NewUpload E contentHash uploadType networkName username name hold s
    = (Some created, None, s1) ->
  dbFault E (dbCalls s1) = false ->
  fst (NewUpload E contentHash uploadType' networkName username name' hold' s1)
    = (None, Some ErrUploadExists)
  /\ table (snd (NewUpload E contentHash uploadType' networkName username name' hold' s1))
     = table s1
  /\ nextID (snd (NewUpload E contentHash uploadType' networkName username name' hold' s1))
     = nextID s1.
Proof.
  intros Hfirst Hok.
  destruct (NewUpload_created _ _ _ _ _ _ _ _ _ _ Hfirst) as (Ht & Ha & Hh & Hn & Hu).
  rewrite (NewUpload_refuses E contentHash uploadType' networkName username name' hold'
             s1 created); auto.
  rewrite Ht. apply in_or_app. right. now left.
Qed.

Lemma NewUpload_twice_fails_witness :
  NewUpload (Examples.calm (Examples.noon 2018 6 15))
    "Qm123" "pin" "public" "alice" "f" 1 Examples.empty
    = (Some Examples.qm123, None, Examples.pinned)
  /\ fst (NewUpload (Examples.calm (Examples.noon 2018 6 15))
            "Qm123" "file" "public" "alice" "again" 6 Examples.pinned)
     = (None, Some ErrUploadExists)
  /\ table (snd (NewUpload (Examples.calm (Examples.noon 2018 6 15))
                   "Qm123" "file" "public" "alice" "again" 6 Examples.pinned))
     = table Examples.pinned
  /\ nextID (snd (NewUpload (Examples.calm (Examples.noon 2018 6 15))
                    "Qm123" "file" "public" "alice" "again" 6 Examples.pinned))
     = nextID Examples.pinned.
Proof.
  split; [vm_compute; reflexivity|].
  apply (NewUpload_twice_fails (Examples.calm (Examples.noon 2018 6 15))
           "Qm123" "public" "alice" "pin" "f" "file" "again" 1 6
           Examples.empty Examples.pinned Examples.qm123).
  - vm_compute; reflexivity.
  - reflexivity.
Defined.

(** C4. A second [NewUpload] of the same triple does not always fail:
    [NewUpload] tests the lookup with [err == nil] only, so it reads every
    error of the lookup, not just "record not found", as "no such record".
    On a database whose third call fails, the first [NewUpload] of
    ("Qm123", "public", "alice") stores the record; the lookup of the second
    one fails, its insert goes through, and the call returns a second record
    for the same triple instead of the "already exists" error: the table
    then holds two visible rows for the one triple. *)
Theorem NewUpload_duplicate_after_failed_lookup :
  NewUpload (Examples.failingAt (Examples.noon 2018 6 15) 2)
    "Qm123" "pin" "public" "alice" "f" 1 Examples.empty
  = (Some Examples.qm123, None, Examples.pinned)
  /\ NewUpload (Examples.failingAt (Examples.noon 2018 6 15) 2)
       "Qm123" "pin" "public" "alice" "f" 1 Examples.pinned
     = (Some (mkUpload 2 None "Qm123" "pin" "f" "public" 1 "alice"
                (Examples.noon 2018 7 15) ["alice"]),
        None,
        mkState [Examples.qm123;
                 mkUpload 2 None "Qm123" "pin" "f" "public" 1 "alice"
                   (Examples.noon 2018 7 15) ["alice"]] 3 4 2).
Proof. split; vm_compute; reflexivity. Qed.

(** The example states are the ones the manager builds. *)
Example pinned_built :
  NewUpload (Examples.calm (Examples.noon 2018 6 15))
    "Qm123" "pin" "public" "alice" "f" 1 Examples.empty
  = (Some Examples.qm123, None, Examples.pinned).
Proof. vm_compute; reflexivity. Qed.

Example twoPins_built :
  NewUpload (Examples.calm (Examples.noon 2018 6 16))
    "Qm456" "pin" "public" "bob" "g" 1 Examples.pinned
  = (Some Examples.qm456, None, Examples.twoPins).
Proof. vm_compute; reflexivity. Qed.

(** Month arithmetic at a month end: January 31 plus one month is the last
    day of February. *)
Example AddMonthsClamped_month_end :
  AddMonthsClamped (Examples.noon 2018 1 31) 1 = Examples.noon 2018 2 28.
Proof. vm_compute; reflexivity. Qed.

(** [UpdateUpload], call by call. *)
Lemma UpdateUpload_eq (E : Env) (hold : Z) (u h n : string) (s : State) :
  UpdateUpload E hold u h n s =
  match FindUploadByHashAndNetworkAndUser E h n u s with
  | ((_, Some e), s1) => ((None, Some e), s1)
  | ((None, None), s1) => ((None, Some PanicNilDereference), s1)
  | ((Some found, None), s1) =>
      match AtoiSprintf hold with
      | (_, Some e) => ((None, Some e), s1)
      | (holdInt, None) =>
          let '(upload, check, s2) :=
            Save E DB
              (renewedUpload hold u
                 (AddMonthsClamped (wallClock E (clockReads s1)) holdInt) found)
              (tickClock s1) in
          (match Error check with
           | Some _ => (None, None)
           | None => (Some upload, None)
           end, s2)
      end
  end.
Proof.
  unfold UpdateUpload, bind.
  destruct (FindUploadByHashAndNetworkAndUser E h n u s) as [[[found|] [e|]] s1];
    try reflexivity.
  destruct (AtoiSprintf hold) as [holdInt [e|]]; [reflexivity|].
  rewrite CalculateGarbageCollectDate_eq. unfold renewedUpload.
  destruct (Save E DB _ (tickClock s1)) as [[upload check] s2].
  destruct (Error check); reflexivity.
Qed.

Lemma renewedUpload_ID (hold : Z) (u : string) (t : Time) (x : Upload) :
  ID (renewedUpload hold u t x) = ID x.
Proof.
  unfold renewedUpload.
  destruct (Unix t >? _); destruct (negb _); reflexivity.
Qed.

Lemma renewedUpload_GarbageCollectDate (hold : Z) (u : string) (t : Time) (x : Upload) :
  GarbageCollectDate (renewedUpload hold u t x) = GarbageCollectDate x.
Proof.
  unfold renewedUpload.
  destruct (Unix t >? _); destruct (negb _); reflexivity.
Qed.

Lemma renewedUpload_DeletedAt (hold : Z) (u : string) (t : Time) (x : Upload) :
  DeletedAt (renewedUpload hold u t x) = DeletedAt x.
Proof.
  unfold renewedUpload.
  destruct (Unix t >? _); destruct (negb _); reflexivity.
Qed.

Arguments renewedUpload : simpl never.

(** C9. When [UpdateUpload] has found the record and the [Save] that follows
    fails, it returns a nil record together with a nil error: the [err] it
    hands back is the one [strconv.Atoi] left nil, not the error of [Save].
    Nothing has been written either. *)
Theorem UpdateUpload_save_failure_returns_nil_nil (E : Env) (holdTimeInMonths : Z)
    (username contentHash networkName : string) (s : State) (found : Upload) :
  minInt <= holdTimeInMonths <= maxInt ->
  fst (FindUploadByHashAndNetworkAndUser E contentHash networkName username s)
    = (Some found, None) ->
  dbFault E (S (dbCalls s)) = true ->
  fst (UpdateUpload E holdTimeInMonths username contentHash networkName s) = (None, None)
  /\ table (snd (UpdateUpload E holdTimeInMonths username contentHash networkName s))
     = table s.
Proof.
  intros Hrange Hfound Hfail.
  rewrite UpdateUpload_eq.
  rewrite FindUploadByHashAndNetworkAndUser_eq in *. cbn [fst] in Hfound.
  rewrite Hfound, (AtoiSprintf_int64 _ Hrange).
  set (up := renewedUpload _ _ _ _).
  destruct (Z.eq_dec (ID up) 0) as [Hz|Hz].
  - unfold Save. rewrite (proj2 (Z.eqb_eq _ _) Hz), Create_eq.
    cbn [tickClock tickDb dbCalls]. rewrite Hfail. split; reflexivity.
  - rewrite (Save_eq E DB up _ Hz).
    cbn [tickClock tickDb dbCalls]. rewrite Hfail. split; reflexivity.
Qed.

Lemma UpdateUpload_save_failure_returns_nil_nil_witness :
  fst (UpdateUpload (Examples.failingAt (Examples.noon 2018 6 20) 3)
         3 "alice" "Qm123" "public" Examples.pinned) = (None, None)
  /\ table (snd (UpdateUpload (Examples.failingAt (Examples.noon 2018 6 20) 3)
                   3 "alice" "Qm123" "public" Examples.pinned))
     = table Examples.pinned.
Proof.
  apply (UpdateUpload_save_failure_returns_nil_nil
           (Examples.failingAt (Examples.noon 2018 6 20) 3)
           3 "alice" "Qm123" "public" Examples.pinned Examples.qm123).
  - unfold minInt, maxInt; lia.
  - vm_compute; reflexivity.
  - reflexivity.
Defined.

(** C10. [FindUploadsByHash] and [GetUploadByHashForUser] run [Find] on the
    bare handle and only then chain [Where] onto the handle [Find] returned:
    the result is the same whatever hash and user name are passed, and when
    the query goes through it is every upload the table holds (every row not
    soft-deleted). *)
Theorem find_by_hash_returns_every_upload (E : Env) (s : State)
    (hash username : string) :
  (forall hash' username',
      FindUploadsByHash E hash s = FindUploadsByHash E hash' s
      /\ GetUploadByHashForUser E hash username s
         = GetUploadByHashForUser E hash' username' s)
  /\ (dbFault E (dbCalls s) = false ->
      fst (FindUploadsByHash E hash s) = activeRows s
      /\ fst (GetUploadByHashForUser E hash username s) = activeRows s).
Proof.
  unfold FindUploadsByHash, GetUploadByHashForUser, bind.
  rewrite Find_eq. split.
  - intros hash' username'. split; reflexivity.
  - intros Hok. rewrite Hok. simpl. unfold activeRows.
    split; apply filter_ext; intros u; apply selected_DB.
Qed.

Lemma find_by_hash_returns_every_upload_witness :
  activeRows Examples.twoPins = [Examples.qm123; Examples.qm456]
  /\ fst (FindUploadsByHash (Examples.calm (Examples.noon 2018 6 20)) "QmOther"
            Examples.twoPins)
     = activeRows Examples.twoPins
  /\ fst (GetUploadByHashForUser (Examples.calm (Examples.noon 2018 6 20))
            "Qm123" "alice" Examples.twoPins)
     = activeRows Examples.twoPins.
Proof.
  split; [reflexivity|]. split.
  - exact (proj1 (proj2 (find_by_hash_returns_every_upload
                           (Examples.calm (Examples.noon 2018 6 20))
                           Examples.twoPins "QmOther" "nobody") eq_refl)).
  - exact (proj2 (proj2 (find_by_hash_returns_every_upload
                           (Examples.calm (Examples.noon 2018 6 20))
                           Examples.twoPins "Qm123" "alice") eq_refl)).
Defined.

(** The sibling query [FindUploadsByNetwork] chains [Where] before [Find]
    and does filter. *)
Example FindUploadsByNetwork_filters :
  fst (FindUploadsByNetwork (Examples.calm (Examples.noon 2018 6 20)) "private"
         Examples.twoPins) = (Some [], None).
Proof. vm_compute; reflexivity. Qed.

(** ** Primary keys *)

Lemma idsAscending_above (lo : Z) (l : list Upload) (u : Upload) :
  idsAscending lo l = true -> In u l -> lo < ID u.
Proof.
  revert lo; induction l as [|a l IH]; simpl; intros lo H Hin; [destruct Hin|].
  apply andb_prop in H as [Ha Hl]. apply Z.ltb_lt in Ha.
  destruct Hin as [<-|Hin]; [assumption|].
  specialize (IH _ Hl Hin). lia.
Qed.

Lemma idsAscending_unique (lo : Z) (l : list Upload) (u v : Upload) :
  idsAscending lo l = true -> In u l -> In v l -> ID u = ID v -> u = v.
Proof.
  revert lo; induction l as [|a l IH]; simpl; intros lo H Hu Hv Heq; [destruct Hu|].
  apply andb_prop in H as [Ha Hl].
  destruct Hu as [<-|Hu], Hv as [<-|Hv].
  - reflexivity.
  - pose proof (idsAscending_above _ _ _ Hl Hv). lia.
  - pose proof (idsAscending_above _ _ _ Hl Hu). lia.
  - eapply IH; eassumption.
Qed.

Lemma pk_ok_ascending (s : State) :
  pk_ok s = true -> idsAscending 0 (table s) = true.
Proof.
  unfold pk_ok; intros H.
  apply andb_prop in H as [H _]. now apply andb_prop in H as [H _].
Qed.

Lemma pk_ok_positive (s : State) (u : Upload) :
  pk_ok s = true -> In u (table s) -> 0 < ID u.
Proof.
  intros H Hin. eapply idsAscending_above; eauto using pk_ok_ascending.
Qed.

Lemma pk_ok_unique (s : State) (u v : Upload) :
  pk_ok s = true -> In u (table s) -> In v (table s) -> ID u = ID v -> u = v.
Proof.
  intros H. eapply idsAscending_unique; eauto using pk_ok_ascending.
Qed.

Lemma idsAscending_ids (lo : Z) (l l' : list Upload) :
  map ID l = map ID l' -> idsAscending lo l = idsAscending lo l'.
Proof.
  revert lo l'; induction l as [|a l IH]; intros lo [|b l'] H; try discriminate;
    [reflexivity|].
  simpl in *. injection H as Hab Hl. rewrite Hab. f_equal. now apply IH.
Qed.

Lemma forallb_below_ids (n : Z) (l l' : list Upload) :
  map ID l = map ID l' ->
  forallb (fun u => ID u <? n) l = forallb (fun u => ID u <? n) l'.
Proof.
  revert l'; induction l as [|a l IH]; intros [|b l'] H; try discriminate;
    [reflexivity|].
  simpl in *. injection H as Hab Hl. rewrite Hab. f_equal. now apply IH.
Qed.

Lemma pk_ok_ids (s s' : State) :
  map ID (table s') = map ID (table s) -> nextID s' = nextID s ->
  pk_ok s' = pk_ok s.
Proof.
  intros Ht Hn. unfold pk_ok. rewrite Hn.
  rewrite (idsAscending_ids 0 _ _ Ht), (forallb_below_ids _ _ _ Ht). reflexivity.
Qed.

Lemma find_by_ID (lo : Z) (l : list Upload) (x : Upload) :
  idsAscending lo l = true -> In x l ->
  find (fun u => ID u =? ID x) l = Some x.
Proof.
  revert lo; induction l as [|a l IH]; simpl; intros lo H Hin; [destruct Hin|].
  apply andb_prop in H as [Ha Hl].
  destruct Hin as [<-|Hin].
  - now rewrite Z.eqb_refl.
  - pose proof (idsAscending_above _ _ _ Hl Hin) as Hlt.
    destruct (Z.eqb_spec (ID a) (ID x)) as [Heq|_]; [lia|].
    eapply IH; eassumption.
Qed.

Lemma idsAscending_snoc (lo n : Z) (l : list Upload) (x : Upload) :
  idsAscending lo l = true -> forallb (fun u => ID u <? n) l = true ->
  lo < n -> ID x = n -> idsAscending lo (l ++ [x]) = true.
Proof.
  revert lo; induction l as [|a l IH]; simpl; intros lo Hasc Hbelow Hlo Hx.
  - rewrite Hx. rewrite (proj2 (Z.ltb_lt _ _) Hlo). reflexivity.
  - apply andb_prop in Hasc as [Ha Hl]. apply andb_prop in Hbelow as [Hb Hbl].
    rewrite Ha. apply Z.ltb_lt in Hb. now apply IH.
Qed.

(** The empty table is in order, and [NewUpload] keeps a table in order. *)
Example pk_ok_empty : pk_ok Examples.empty = true.
Proof. reflexivity. Qed.

Lemma pk_ok_tick (s s' : State) :
  table s' = table s -> nextID s' = nextID s -> pk_ok s = true -> pk_ok s' = true.
Proof. intros Ht Hn H. rewrite (pk_ok_ids s); [assumption | now rewrite Ht | assumption]. Qed.

Lemma pk_ok_Create (E : Env) (u : Upload) (s : State) :
  pk_ok s = true -> pk_ok (snd (Create E DB u s)) = true.
Proof.
  intros Hpk. rewrite Create_eq.
  destruct (dbFault E (dbCalls s)); [exact Hpk|].
  unfold pk_ok in *. cbn [snd table nextID].
  apply andb_prop in Hpk as [Hpk Hn]. apply andb_prop in Hpk as [Hasc Hbelow].
  apply Z.ltb_lt in Hn.
  rewrite (idsAscending_snoc 0 (nextID s)); auto.
  rewrite forallb_app. cbn [forallb set_ID ID].
  rewrite (proj2 (Z.ltb_lt _ _)) by lia. rewrite (proj2 (Z.ltb_lt 0 _)) by lia.
  rewrite !andb_true_r.
  apply forallb_forall. intros r Hr.
  rewrite forallb_forall in Hbelow. specialize (Hbelow r Hr).
  apply Z.ltb_lt in Hbelow. apply Z.ltb_lt. lia.
Qed.

Lemma pk_ok_NewUpload (E : Env) (h ty n u nm : string) (hold : Z) (s : State) :
  pk_ok s = true -> pk_ok (snd (NewUpload E h ty n u nm hold s)) = true.
Proof.
  intros Hpk. unfold NewUpload, bind.
  rewrite FindUploadByHashAndNetworkAndUser_eq.
  destruct (dbFault E (dbCalls s)); [|destruct (lowestID _); [exact Hpk|]];
    (destruct (AtoiSprintf hold) as [hi [e0|]]; [exact Hpk|];
     rewrite CalculateGarbageCollectDate_eq;
     match goal with
     | |- context [Create E DB ?x ?st] =>
         pose proof (pk_ok_Create E x st Hpk) as Hc;
         destruct (Create E DB x st) as [[up chk] s2]
     end;
     cbn [snd] in Hc; destruct (Error chk); exact Hc).
Qed.

(** ** Renewal leaves the garbage-collect dates alone *)

Lemma gcColumn_ids (s s' : State) :
  gcColumn s' = gcColumn s -> map ID (table s') = map ID (table s).
Proof.
  unfold gcColumn; intros H.
  apply (f_equal (map fst)) in H. rewrite !map_map in H. exact H.
Qed.

Lemma storedGcd_gcColumn (i : Z) (s s' : State) :
  gcColumn s' = gcColumn s -> storedGcd i s' = storedGcd i s.
Proof.
  unfold gcColumn, storedGcd.
  generalize (table s) as l, (table s') as l'.
  intros l l'; revert l; induction l' as [|a l' IH]; intros [|b l] H;
    try discriminate; [reflexivity|].
  simpl in *. injection H as Hid Hg Hl. rewrite Hid.
  destruct (ID b =? i); simpl; [now rewrite Hg | now apply IH].
Qed.

Lemma UpdateUpload_gcColumn (E : Env) (hold : Z) (u h n : string) (s : State) :
  pk_ok s = true ->
  gcColumn (snd (UpdateUpload E hold u h n s)) = gcColumn s
  /\ nextID (snd (UpdateUpload E hold u h n s)) = nextID s.
Proof.
  intros Hpk. rewrite UpdateUpload_eq, FindUploadByHashAndNetworkAndUser_eq.
  destruct (dbFault E (dbCalls s)); [split; reflexivity|].
  destruct (lowestID _) as [x|] eqn:Hx; [|split; reflexivity].
  apply lowestID_In, filter_In in Hx as [Hin _].
  destruct (AtoiSprintf hold) as [holdInt [e|]]; [split; reflexivity|].
  set (up := renewedUpload _ _ _ _).
  assert (Hid : ID up = ID x) by apply renewedUpload_ID.
  assert (Hg : GarbageCollectDate up = GarbageCollectDate x)
    by apply renewedUpload_GarbageCollectDate.
  pose proof (pk_ok_positive _ _ Hpk Hin) as Hpos.
  rewrite (Save_eq E DB up); [|lia].
  cbn [tickClock tickDb dbCalls].
  destruct (dbFault E (S (dbCalls s))); [split; reflexivity|].
  split; [|reflexivity].
  unfold gcColumn; cbn [snd table]. rewrite map_map.
  apply map_ext_in. intros r Hr.
  destruct (selected DB r && (ID r =? ID up)) eqn:Hc; [|reflexivity].
  apply andb_prop in Hc as [_ Hc]. apply Z.eqb_eq in Hc.
  assert (r = x) by (eapply pk_ok_unique; eauto; lia).
  subst r. now rewrite Hid, Hg.
Qed.

Lemma renewAll_gcColumn (E : Env) (calls : list Renewal) (s : State) :
  pk_ok s = true -> gcColumn (renewAll E calls s) = gcColumn s.
Proof.
  revert s; induction calls as [|c calls IH]; intros s Hpk; [reflexivity|].
  simpl.
  destruct (UpdateUpload_gcColumn E (rHold c) (rUser c) (rHash c) (rNetwork c) s Hpk)
    as [Hg Hn].
  rewrite IH; [assumption|].
  rewrite (pk_ok_ids s); auto using gcColumn_ids.
Qed.

Lemma pk_ok_UpdateUpload (E : Env) (hold : Z) (u h n : string) (s : State) :
  pk_ok s = true -> pk_ok (snd (UpdateUpload E hold u h n s)) = true.
Proof.
  intros Hpk. destruct (UpdateUpload_gcColumn E hold u h n s Hpk) as [Hg Hn].
  rewrite (pk_ok_ids s); auto using gcColumn_ids.
Qed.

(** C5. On a table with its primary key in order: a renewal whose newly
    computed garbage-collect date is not later than the stored one leaves
    the stored date of the record as it was; and over any run of renewals
    the stored date of a record never moves back. *)
Theorem renew_never_shortens_retention (E : Env) (s : State) :
  pk_ok s = true ->
  (forall (holdTimeInMonths : Z) (username contentHash networkName : string)
          (found : Upload),
      fst (FindUploadByHashAndNetworkAndUser E contentHash networkName username s)
        = (Some found, None) ->
      Unix (AddMonthsClamped (wallClock E (clockReads s)) holdTimeInMonths)
        <= Unix (GarbageCollectDate found) ->
      storedGcd (ID found)
        (snd (UpdateUpload E holdTimeInMonths username contentHash networkName s))
        = Some (GarbageCollectDate found))
  /\ (forall (calls : list Renewal) (i : Z) (old : Time),
      storedGcd i s = Some old ->
      exists new, storedGcd i (renewAll E calls s) = Some new /\ Unix old <= Unix new).
Proof.
  intros Hpk. split.
  - intros hold u h n found Hfound _.
    rewrite (storedGcd_gcColumn _ s) by (now apply UpdateUpload_gcColumn).
    rewrite FindUploadByHashAndNetworkAndUser_eq in Hfound. cbn [fst] in Hfound.
    destruct (dbFault E (dbCalls s)); [discriminate|].
    destruct (lowestID _) as [x|] eqn:Hx; [|discriminate].
    injection Hfound as ->.
    apply lowestID_In, filter_In in Hx as [Hin _].
    unfold storedGcd. pose proof (pk_ok_ascending _ Hpk) as Hasc.
    now rewrite (find_by_ID _ _ _ Hasc Hin).
  - intros calls i old Hold. exists old.
    rewrite (storedGcd_gcColumn _ s) by (now apply renewAll_gcColumn).
    split; [assumption | lia].
Qed.

Lemma renew_never_shortens_retention_witness :
  storedGcd 1
    (snd (UpdateUpload (Examples.calm (Examples.noon 2018 6 20))
            0 "alice" "Qm123" "public" Examples.pinned))
    = Some (Examples.noon 2018 7 15)
  /\ exists new,
       storedGcd 1
         (renewAll (Examples.calm (Examples.noon 2018 6 20))
            [mkRenewal 3 "alice" "Qm123" "public"; mkRenewal 0 "alice" "Qm123" "public"]
            Examples.pinned) = Some new
       /\ Unix (Examples.noon 2018 7 15) <= Unix new.
Proof.
  split.
  - apply (proj1 (renew_never_shortens_retention
                    (Examples.calm (Examples.noon 2018 6 20)) Examples.pinned eq_refl)
             0 "alice" "Qm123" "public" Examples.qm123).
    + vm_compute; reflexivity.
    + apply Z.leb_le; vm_compute; reflexivity.
  - apply (proj2 (renew_never_shortens_retention
                    (Examples.calm (Examples.noon 2018 6 20)) Examples.pinned eq_refl)).
    vm_compute; reflexivity.
Defined.

(** C1, the code at a renewal that should extend retention. "Qm123" is held
    until 2018-07-15; alice renews on 2018-06-20 for three months, so the
    new date, 2018-09-20, is strictly later. [UpdateUpload] stores the new
    hold time but writes the old date back. *)
Example UpdateUpload_later_date_not_stored :
  Unix (AddMonthsClamped (Examples.noon 2018 6 20) 3) = Unix (Examples.noon 2018 9 20)
  /\ Unix (Examples.noon 2018 9 20) > Unix (Examples.noon 2018 7 15)
  /\ storedGcd 1 Examples.pinned = Some (Examples.noon 2018 7 15)
  /\ storedGcd 1 (snd (UpdateUpload (Examples.calm (Examples.noon 2018 6 20))
                         3 "alice" "Qm123" "public" Examples.pinned))
     = Some (Examples.noon 2018 7 15)
  /\ storedHold 1 (snd (UpdateUpload (Examples.calm (Examples.noon 2018 6 20))
                          3 "alice" "Qm123" "public" Examples.pinned))
     = Some 3.
Proof. vm_compute. repeat split; reflexivity. Qed.

(** ** The garbage-collection sweep *)

Lemma gcLoop_cons (E : Env) (v : Upload) (rest acc : list Upload) (s : State) :
  gcLoop E (v :: rest) acc s =
  if Unix (wallClock E (clockReads s)) >? Unix (GarbageCollectDate v) then
    if dbFault E (dbCalls s)
    then (None, Some ErrDatabase, tickDb (tickClock (tickClock s)))
    else gcLoop E rest (acc ++ [v]) (snd (Delete E DB v (tickClock s)))
  else gcLoop E rest acc (tickClock s).
Proof.
  cbn [gcLoop]. unfold bind at 1.
  change (timeNow E s) with (wallClock E (clockReads s), tickClock s).
  cbv iota beta.
  destruct (Unix (wallClock E (clockReads s)) >? Unix (GarbageCollectDate v));
    [|reflexivity].
  unfold bind. rewrite !Delete_eq. cbn [tickClock dbCalls].
  destruct (dbFault E (dbCalls s)); reflexivity.
Qed.

Lemma RunDatabaseGarbageCollection_eq (E : Env) (s : State) :
  RunDatabaseGarbageCollection E s =
  if dbFault E (dbCalls s) then (None, Some ErrDatabase, tickDb s)
  else gcLoop E (activeRows s) [] (tickDb s).
Proof.
  unfold RunDatabaseGarbageCollection, bind. rewrite Find_eq.
  destruct (dbFault E (dbCalls s)); [reflexivity|].
  cbn [Error DB]. unfold activeRows.
  now rewrite (filter_ext _ _ selected_DB).
Qed.

Lemma filter_filter_and {A} (f g : A -> bool) (l : list A) :
  filter f (filter g l) = filter (fun x => g x && f x) l.
Proof.
  induction l as [|a l IH]; [reflexivity|]. simpl.
  destruct (g a); simpl; [destruct (f a); now rewrite IH | assumption].
Qed.

(** A soft delete by primary key: the rows carrying that key leave the
    visible rows, nothing else changes, and no key is touched. *)
Lemma Delete_effect (E : Env) (v : Upload) (s : State) :
  ID v <> 0 -> dbFault E (dbCalls s) = false ->
  activeRows (snd (Delete E DB v s))
    = filter (fun r => negb (ID v =? ID r)) (activeRows s)
  /\ map ID (table (snd (Delete E DB v s))) = map ID (table s)
  /\ nextID (snd (Delete E DB v s)) = nextID s
  /\ dbCalls (snd (Delete E DB v s)) = S (dbCalls s)
  /\ clockReads (snd (Delete E DB v s)) = S (clockReads s).
Proof.
  intros Hv Hok. rewrite Delete_eq, Hok. cbn [snd table nextID dbCalls clockReads].
  apply Z.eqb_neq in Hv. rewrite Hv. cbn [orb].
  repeat split. 
  - unfold activeRows. cbn [table].
    induction (table s) as [|r t IH]; [reflexivity|].
    cbn [map]. rewrite selected_DB, (Z.eqb_sym (ID r) (ID v)).
    destruct (active r) eqn:Ha; cbn [andb].
    + destruct (ID v =? ID r) eqn:Hid.
      * cbn [filter]. rewrite Ha. cbn [filter]. rewrite Hid.
        cbn [active set_DeletedAt DeletedAt negb]. exact IH.
      * cbn [filter]. rewrite Ha. cbn [filter]. rewrite Hid. cbn [negb].
        now rewrite IH.
    + cbn [filter]. rewrite Ha. exact IH.
  - rewrite map_map. apply map_ext. intros r.
    destruct (selected DB r && (ID r =? ID v)); reflexivity.
Qed.

(** The sweep touches neither a primary key nor the serial counter, and its
    counters only grow. *)
Lemma gcLoop_frame (E : Env) (l acc : list Upload) (s : State) :
  (forall v, In v l -> ID v <> 0) ->
  map ID (table (snd (gcLoop E l acc s))) = map ID (table s)
  /\ nextID (snd (gcLoop E l acc s)) = nextID s
  /\ (dbCalls s <= dbCalls (snd (gcLoop E l acc s)))%nat
  /\ (clockReads s <= clockReads (snd (gcLoop E l acc s)))%nat.
Proof.
  revert acc s; induction l as [|v rest IH]; intros acc s Hnz.
  - cbn. auto.
  - rewrite gcLoop_cons.
    assert (Hrest : forall x, In x rest -> ID x <> 0) by (intros; apply Hnz; now right).
    destruct (Unix (wallClock E (clockReads s)) >? Unix (GarbageCollectDate v)).
    + destruct (dbFault E (dbCalls s)) eqn:Hf.
      * cbn. repeat split; lia.
      * destruct (Delete_effect E v (tickClock s) (Hnz v (or_introl eq_refl)) Hf)
          as (_ & Hids & Hn & Hd & Hc).
        destruct (IH (acc ++ [v])%list (snd (Delete E DB v (tickClock s))) Hrest)
          as (Hids' & Hn' & Hd' & Hc').
        rewrite Hids', Hn', Hids, Hn. rewrite Hd in Hd'. rewrite Hc in Hc'.
        cbn in *. repeat split; lia.
    + destruct (IH acc (tickClock s) Hrest) as (Hids' & Hn' & Hd' & Hc').
      rewrite Hids', Hn'. cbn in *. repeat split; lia.
Qed.

(** When the sweep returns a list, that list extends [acc] by records of
    [l], none twice, and the visible rows it leaves are the earlier ones
    minus those carrying a returned key. *)
Lemma gcLoop_success (E : Env) (l acc dl : list Upload) (s s' : State) :
  (forall v, In v l -> ID v <> 0) ->
  gcLoop E l acc s = (Some dl, None, s') ->
  exists d, dl = (acc ++ d)%list /\ incl d l /\ (NoDup l -> NoDup d)
            /\ activeRows s' = filter (fun r => negb (idIn d r)) (activeRows s).
Proof.
  revert acc s; induction l as [|v rest IH]; intros acc s Hnz H.
  - cbn in H. injection H as <- <-. exists []. rewrite app_nil_r.
    repeat split; auto using incl_nil_l.
    cbn. induction (activeRows s) as [|r t IHt]; [reflexivity|].
    cbn. now rewrite <- IHt.
  - rewrite gcLoop_cons in H.
    assert (Hrest : forall x, In x rest -> ID x <> 0) by (intros; apply Hnz; now right).
    destruct (Unix (wallClock E (clockReads s)) >? Unix (GarbageCollectDate v)).
    + destruct (dbFault E (dbCalls s)) eqn:Hf; [discriminate|].
      destruct (IH _ _ Hrest H) as (d & -> & Hincl & Hnd & Hact).
      destruct (Delete_effect E v (tickClock s) (Hnz v (or_introl eq_refl)) Hf)
        as (Hdel & _).
      exists (v :: d). rewrite <- app_assoc. repeat split.
      * intros x [<-|Hx]; [now left | right; now apply Hincl].
      * intros Hl. inversion Hl as [|? ? Hnotin Hndrest]; subst.
        constructor; [intros Hin; apply Hnotin; now apply Hincl | now apply Hnd].
      * rewrite Hact, Hdel, filter_filter_and.
        change (activeRows (tickClock s)) with (activeRows s).
        apply filter_ext. intros r. unfold idIn. cbn [existsb].
        now rewrite negb_orb.
    + destruct (IH _ _ Hrest H) as (d & -> & Hincl & Hnd & Hact).
      exists d. repeat split.
      * intros x Hx; right; now apply Hincl.
      * intros Hl. inversion Hl; subst. now apply Hnd.
      * exact Hact.
Qed.

(** With no database failure and every clock reading within second [T],
    the sweep returns the records of [l] that have passed at [T]. *)
Lemma gcLoop_calm (E : Env) (T : Z) (l acc : list Upload) (s : State) :
  (forall v, In v l -> ID v <> 0) ->
  (forall k, (dbCalls s <= k)%nat -> dbFault E k = false) ->
  (forall k, (clockReads s <= k)%nat -> Unix (wallClock E k) = T) ->
  fst (gcLoop E l acc s) = (Some (acc ++ filter (passedAt T) l)%list, None).
Proof.
  revert acc s; induction l as [|v rest IH]; intros acc s Hnz Hdb Hclk.
  - cbn. now rewrite app_nil_r.
  - rewrite gcLoop_cons.
    assert (Hrest : forall x, In x rest -> ID x <> 0) by (intros; apply Hnz; now right).
    rewrite (Hclk (clockReads s)) by lia. rewrite (Hdb (dbCalls s)) by lia.
    cbn [filter]. change (passedAt T v) with (T >? Unix (GarbageCollectDate v)).
    destruct (T >? Unix (GarbageCollectDate v)).
    + destruct (Delete_effect E v (tickClock s) (Hnz v (or_introl eq_refl))
                  (Hdb (dbCalls s) (Nat.le_refl _)))
        as (_ & _ & _ & Hd & Hc).
      rewrite IH; auto.
      * now rewrite <- app_assoc.
      * intros k Hk. apply Hdb. rewrite Hd in Hk. cbn in Hk. lia.
      * intros k Hk. apply Hclk. rewrite Hc in Hk. cbn in Hk. lia.
    + apply IH; auto. intros k Hk. apply Hclk. cbn in Hk. lia.
Qed.


Lemma idsAscending_NoDup (lo : Z) (l : list Upload) :
  idsAscending lo l = true -> NoDup l.
Proof.
  revert lo; induction l as [|a l IH]; intros lo H; [constructor|].
  simpl in H. apply andb_prop in H as [_ Hl]. constructor.
  - intros Hin. pose proof (idsAscending_above _ _ _ Hl Hin). lia.
  - eapply IH; eassumption.
Qed.

Lemma activeRows_NoDup (s : State) : pk_ok s = true -> NoDup (activeRows s).
Proof.
  intros H. apply NoDup_filter.
  eapply idsAscending_NoDup, pk_ok_ascending, H.
Qed.

Lemma activeRows_In (s : State) (u : Upload) :
  In u (activeRows s) -> In u (table s).
Proof. unfold activeRows; intros H. now apply filter_In in H. Qed.

Lemma activeRows_nonzero (s : State) :
  pk_ok s = true -> forall u, In u (activeRows s) -> ID u <> 0.
Proof.
  intros Hpk u Hin. pose proof (pk_ok_positive _ _ Hpk (activeRows_In _ _ Hin)). lia.
Qed.

(** The sweep keeps a table in order, whatever fails. *)
Lemma pk_ok_sweep (E : Env) (s : State) :
  pk_ok s = true -> pk_ok (snd (RunDatabaseGarbageCollection E s)) = true.
Proof.
  intros Hpk. rewrite RunDatabaseGarbageCollection_eq.
  destruct (dbFault E (dbCalls s)); [exact Hpk|].
  destruct (gcLoop_frame E (activeRows s) [] (tickDb s)) as (Hids & Hn & _).
  - intros v Hv. apply filter_In in Hv as [Hv _].
    pose proof (pk_ok_positive _ _ Hpk Hv). lia.
  - rewrite (pk_ok_ids s); [assumption | exact Hids | exact Hn].
Qed.

(** On a table with its key in order, the returned records are exactly the
    rows that were visible before the sweep and are not after it. *)
Lemma sweep_returns_what_it_deletes (E : Env) (s : State) (dl : list Upload) :
  pk_ok s = true ->
  fst (RunDatabaseGarbageCollection E s) = (Some dl, None) ->
  NoDup dl
  /\ forall r, In r dl <->
               (In r (activeRows s)
                /\ ~ In r (activeRows (snd (RunDatabaseGarbageCollection E s)))).
Proof.
  intros Hpk. rewrite RunDatabaseGarbageCollection_eq.
  destruct (dbFault E (dbCalls s)); [discriminate|].
  destruct (gcLoop E (activeRows s) [] (tickDb s)) as [[res e] s'] eqn:Hloop.
  cbn [fst snd]. intros Hres. injection Hres as -> ->.
  destruct (gcLoop_success E _ _ _ _ _ (activeRows_nonzero s Hpk) Hloop)
    as (d & Hd & Hincl & Hnd & Hact).
  cbn [app] in Hd. subst d.
  change (activeRows (tickDb s)) with (activeRows s) in Hact.
  split; [apply Hnd, activeRows_NoDup, Hpk|].
  intros r. rewrite Hact. split.
  - intros Hr. split; [now apply Hincl|].
    intros Hin. apply filter_In in Hin as [_ Hneg].
    apply negb_true_iff in Hneg.
    assert (idIn dl r = true); [|congruence].
    apply existsb_exists. exists r. split; [assumption | apply Z.eqb_refl].
  - intros [Hin Hnot].
    destruct (idIn dl r) eqn:Hid.
    + apply existsb_exists in Hid as (v & Hv & Heq). apply Z.eqb_eq in Heq.
      assert (v = r); [|now subst].
      eapply pk_ok_unique; eauto using activeRows_In.
    + exfalso. apply Hnot. apply filter_In. split; [assumption|].
      now rewrite Hid.
Qed.

(** The sweep while the database answers and the clock stays in second [T]. *)
Lemma sweep_calm (E : Env) (T : Z) (s : State) :
  pk_ok s = true ->
  (forall k, (dbCalls s <= k)%nat -> dbFault E k = false) ->
  (forall k, (clockReads s <= k)%nat -> Unix (wallClock E k) = T) ->
  fst (RunDatabaseGarbageCollection E s)
    = (Some (filter (passedAt T) (activeRows s)), None)
  /\ activeRows (snd (RunDatabaseGarbageCollection E s))
     = filter (fun u => negb (passedAt T u)) (activeRows s)
  /\ pk_ok (snd (RunDatabaseGarbageCollection E s)) = true
  /\ (dbCalls s <= dbCalls (snd (RunDatabaseGarbageCollection E s)))%nat
  /\ (clockReads s <= clockReads (snd (RunDatabaseGarbageCollection E s)))%nat.
Proof.
  intros Hpk Hdb Hclk.
  assert (Hfst : fst (RunDatabaseGarbageCollection E s)
                 = (Some (filter (passedAt T) (activeRows s)), None)).
  { rewrite RunDatabaseGarbageCollection_eq, (Hdb (dbCalls s)) by lia.
    apply (gcLoop_calm E T (activeRows s) [] (tickDb s)).
    - apply activeRows_nonzero, Hpk.
    - intros k Hk. apply Hdb. cbn in Hk. lia.
    - intros k Hk. apply Hclk. exact Hk. }
  destruct (sweep_returns_what_it_deletes E s _ Hpk Hfst) as [_ Hiff].
  split; [exact Hfst|].
  rewrite RunDatabaseGarbageCollection_eq, (Hdb (dbCalls s)) in * by lia.
  destruct (gcLoop_frame E (activeRows s) [] (tickDb s) (activeRows_nonzero s Hpk))
    as (Hids & Hn & Hd & Hc).
  destruct (gcLoop E (activeRows s) [] (tickDb s)) as [[res e] s'] eqn:Hloop.
  cbn [fst snd] in *. injection Hfst as -> ->.
  destruct (gcLoop_success E _ _ _ _ _ (activeRows_nonzero s Hpk) Hloop)
    as (d & Hdl & _ & _ & Hact).
  cbn [app] in Hdl. subst d.
  change (activeRows (tickDb s)) with (activeRows s) in Hact.
  repeat split.
  - rewrite Hact. apply filter_ext_in. intros r Hr. f_equal.
    destruct (passedAt T r) eqn:Hp.
    + apply existsb_exists. exists r. split; [|apply Z.eqb_refl].
      apply filter_In. now split.
    + apply not_true_is_false. intros Hid.
      apply existsb_exists in Hid as (v & Hv & Heq). apply Z.eqb_eq in Heq.
      apply filter_In in Hv as [Hv Hpv].
      assert (v = r) by (eapply pk_ok_unique; eauto using activeRows_In).
      subst v. congruence.
  - rewrite (pk_ok_ids s); [assumption | exact Hids | exact Hn].
  - cbn in Hd. lia.
  - exact Hc.
Qed.

Lemma filter_passed_kept (T : Z) (l : list Upload) :
  filter (passedAt T) (filter (fun u => negb (passedAt T u)) l) = [].
Proof.
  rewrite filter_filter_and. induction l as [|a l IH]; [reflexivity|].
  cbn [filter]. destruct (passedAt T a); cbn; exact IH.
Qed.

Lemma filter_kept_kept (T : Z) (l : list Upload) :
  filter (fun u => negb (passedAt T u)) (filter (fun u => negb (passedAt T u)) l)
  = filter (fun u => negb (passedAt T u)) l.
Proof.
  rewrite filter_filter_and. apply filter_ext. intros a. apply andb_diag.
Qed.

(** C3, as the code has it. On a table with its primary key in order, while
    no database call fails and the clock stays within one second [T], the
    sweep returns and deletes exactly the visible records whose
    garbage-collect date, in whole seconds, is strictly before [T]; a record
    whose date falls in second [T] itself stays. A second sweep right after
    returns the empty list and deletes nothing. *)
Theorem sweep_deletes_exactly_the_passed (E : Env) (T : Z) (s : State) :
  pk_ok s = true ->
  (forall k, (dbCalls s <= k)%nat -> dbFault E k = false) ->
  (forall k, (clockReads s <= k)%nat -> Unix (wallClock E k) = T) ->
  fst (RunDatabaseGarbageCollection E s)
    = (Some (filter (fun u => T >? Unix (GarbageCollectDate u)) (activeRows s)), None)
  /\ activeRows (snd (RunDatabaseGarbageCollection E s))
     = filter (fun u => negb (T >? Unix (GarbageCollectDate u))) (activeRows s)
  /\ fst (RunDatabaseGarbageCollection E
            (snd (RunDatabaseGarbageCollection E s))) = (Some [], None)
  /\ activeRows (snd (RunDatabaseGarbageCollection E
                        (snd (RunDatabaseGarbageCollection E s))))
     = activeRows (snd (RunDatabaseGarbageCollection E s)).
Proof.
  intros Hpk Hdb Hclk.
  destruct (sweep_calm E T s Hpk Hdb Hclk) as (H1 & H2 & Hpk' & Hd & Hc).
  destruct (sweep_calm E T (snd (RunDatabaseGarbageCollection E s)) Hpk')
    as (H3 & H4 & _).
  - intros k Hk. apply Hdb. lia.
  - intros k Hk. apply Hclk. lia.
  - rewrite H2 in H3, H4.
    rewrite filter_passed_kept in H3. rewrite filter_kept_kept in H4.
    rewrite <- H2 in H4. repeat split; assumption.
Qed.

Lemma sweep_deletes_exactly_the_passed_witness :
  fst (RunDatabaseGarbageCollection (Examples.calm (Examples.noon 2018 7 16))
         Examples.twoPins)
    = (Some (filter (fun u => Unix (Examples.noon 2018 7 16)
                               >? Unix (GarbageCollectDate u))
               (activeRows Examples.twoPins)), None)
  /\ filter (fun u => Unix (Examples.noon 2018 7 16) >? Unix (GarbageCollectDate u))
       (activeRows Examples.twoPins) = [Examples.qm123].
Proof.
  split; [|vm_compute; reflexivity].
  apply (sweep_deletes_exactly_the_passed
           (Examples.calm (Examples.noon 2018 7 16))
           (Unix (Examples.noon 2018 7 16)) Examples.twoPins).
  - reflexivity.
  - intros k _. reflexivity.
  - intros k _. reflexivity.
Defined.

(** C3, the boundary. At noon of 2018-07-15 the garbage-collect date of
    "Qm123" is not later than now, yet the sweep returns nothing and the
    record stays visible. *)
Lemma sweep_keeps_record_due_now :
  GarbageCollectDate Examples.qm123 <= Examples.noon 2018 7 15
  /\ activeRows Examples.pinned = [Examples.qm123]
  /\ fst (RunDatabaseGarbageCollection (Examples.calm (Examples.noon 2018 7 15))
            Examples.pinned) = (Some [], None)
  /\ activeRows (snd (RunDatabaseGarbageCollection
                        (Examples.calm (Examples.noon 2018 7 15)) Examples.pinned))
     = [Examples.qm123].
Proof.
  split; [apply Z.leb_le; vm_compute; reflexivity|].
  vm_compute. repeat split; reflexivity.
Qed.

(** C2, as the code has it. [RunDatabaseGarbageCollection] works through the
    database handle alone: whatever it deletes, the broker holds the same
    messages after the sweep as before it. What it hands to its caller, on a
    table with its primary key in order, is the list of the records it
    deleted, each exactly once. *)
Theorem sweep_publishes_nothing (E : Env) (sys : System) :
  broker (snd (onLedger (RunDatabaseGarbageCollection E) sys)) = broker sys
  /\ (pk_ok (ledger sys) = true ->
      forall dl,
        fst (onLedger (RunDatabaseGarbageCollection E) sys) = (Some dl, None) ->
        NoDup dl
        /\ forall r,
             In r dl <->
             (In r (activeRows (ledger sys))
              /\ ~ In r (activeRows
                           (ledger (snd (onLedger (RunDatabaseGarbageCollection E) sys)))))).
Proof.
  unfold onLedger.
  pose proof (sweep_returns_what_it_deletes E (ledger sys)) as H.
  destruct (RunDatabaseGarbageCollection E (ledger sys)) as [res s'].
  cbn [fst snd broker ledger] in *. split; [reflexivity|].
  intros Hpk dl Hres. now apply H.
Qed.

Lemma sweep_publishes_nothing_witness :
  NoDup [Examples.qm123]
  /\ forall r,
       In r [Examples.qm123] <->
       (In r (activeRows (ledger (mkSystem Examples.pinned [])))
        /\ ~ In r (activeRows
                     (ledger (snd (onLedger
                                     (RunDatabaseGarbageCollection
                                        (Examples.calm (Examples.noon 2018 7 17)))
                                     (mkSystem Examples.pinned [])))))).
Proof.
  apply (proj2 (sweep_publishes_nothing (Examples.calm (Examples.noon 2018 7 17))
                  (mkSystem Examples.pinned []))).
  - reflexivity.
  - vm_compute; reflexivity.
Defined.

(** C2, the sweep 32 days after "Qm123" was pinned for one month: the record
    is deleted and returned, and the broker has been handed no message. *)
Lemma sweep_deletes_without_publishing :
  fst (onLedger (RunDatabaseGarbageCollection (Examples.calm (Examples.noon 2018 7 17)))
         (mkSystem Examples.pinned []))
    = (Some [Examples.qm123], None)
  /\ activeRows (ledger (snd (onLedger
                                (RunDatabaseGarbageCollection
                                   (Examples.calm (Examples.noon 2018 7 17)))
                                (mkSystem Examples.pinned [])))) = []
  /\ broker (snd (onLedger
                    (RunDatabaseGarbageCollection
                       (Examples.calm (Examples.noon 2018 7 17)))
                    (mkSystem Examples.pinned []))) = []
  /\ List.length (broker (snd (onLedger
                                 (RunDatabaseGarbageCollection
                                    (Examples.calm (Examples.noon 2018 7 17)))
                                 (mkSystem Examples.pinned []))))
     <> List.length [Examples.qm123].
Proof. vm_compute. repeat split; try reflexivity. discriminate. Qed.

(** By contrast, a private-network pin request served for a member of the
    network does leave its message with the broker. *)
Example serve_pin_publishes :
  broker (serve (Api.pinToHostedIPFSNetwork (Examples.services "alice" "QmGood")
                   (Examples.request "alice"
                      [("network_name", "acme"); ("hold_time", "1")] "QmGood"))
            (mkSystem Examples.pinned []))
  = [(Api.IpfsPinQueue, Some Api.PinExchange, Api.IPFSPin "QmGood" "acme" "alice" 1)].
Proof. reflexivity. Qed.




(** A delete failing later in the sweep: the first record is gone from the
    table, yet the caller is handed nil, not the record. *)
Example sweep_forgets_deleted_on_later_failure :
  fst (RunDatabaseGarbageCollection (Examples.failingAt (Examples.noon 2018 7 17) 6)
         Examples.twoPins) = (None, Some ErrDatabase)
  /\ activeRows (snd (RunDatabaseGarbageCollection
                        (Examples.failingAt (Examples.noon 2018 7 17) 6)
                        Examples.twoPins))
     = [Examples.qm456].
Proof. vm_compute. repeat split; reflexivity. Qed.

(** ** The request handlers *)

(** Case analysis on the next answer a handler waits for. *)
Ltac split_on_call :=
  match goal with
  | |- context [match ?x with _ => _ end] =>
      lazymatch x with
      | context [match _ with _ => _ end] => fail
      | _ => destruct x eqn:?
      end
  end.

Ltac unfold_handler :=
  unfold Api.pinToHostedIPFSNetwork, Api.addFileToHostedIPFSNetworkAdvanced,
    Api.addFileToHostedIPFSNetwork, Api.removePinFromLocalHostForHostedIPFSNetwork,
    Api.pinHashToCluster,
    Api.requirePostForm, Api.checkAccess, Api.initialize, Api.publish,
    Api.orLogAndFail, Api.orLogAndFailServer, Api.orFail, Api.emit, Api.bail,
    Api.hret, Api.hbind.

Ltac run_handler :=
  unfold_handler;
  repeat (cbn; rewrite ?String.eqb_refl; try reflexivity; split_on_call).

Lemma gated_sound (user net : string) (tr pre post : list Api.Event) (e : Api.Event) :
  gated user net tr = true -> tr = (pre ++ e :: post)%list -> isOperation e = true ->
  In (Api.EvCheckAccess user net None) pre.
Proof.
  revert tr; induction pre as [|a pre IH]; intros tr Hg -> He.
  - cbn [app] in Hg. destruct e; cbn in He; try discriminate;
      cbn in Hg; discriminate.
  - cbn [app] in Hg.
    assert (Hop : In e (pre ++ e :: post)%list) by
      (apply in_or_app; right; now left).
    destruct a; cbn in Hg; try discriminate;
      try (right; now apply (IH _ Hg eq_refl He)).
    apply andb_prop in Hg as [Hg Hr]. apply andb_prop in Hg as [Hu Hn].
    apply String.eqb_eq in Hu, Hn. subst.
    destruct result as [err|]; [|now left].
    exfalso. rewrite forallb_forall in Hr. specialize (Hr e Hop).
    rewrite He in Hr. discriminate.
Qed.

Lemma pin_gated (S : Api.Services) (c : Api.Context) :
  match Api.GetPostForm c "network_name" with
  | Some net => gated (Api.GetAuthenticatedUserFromContext c) net
                  (fst (Api.pinToHostedIPFSNetwork S c)) = true
  | None => quiet (fst (Api.pinToHostedIPFSNetwork S c)) = true
  end.
Proof. run_handler. Qed.

Lemma removePin_gated (S : Api.Services) (c : Api.Context) :
  match Api.GetPostForm c "network_name" with
  | Some net => gated (Api.GetAuthenticatedUserFromContext c) net
                  (fst (Api.removePinFromLocalHostForHostedIPFSNetwork S c)) = true
  | None => quiet (fst (Api.removePinFromLocalHostForHostedIPFSNetwork S c)) = true
  end.
Proof. run_handler. Qed.

Lemma addFile_gated (S : Api.Services) (c : Api.Context) :
  match Api.GetPostForm c "network_name" with
  | Some net => gated (Api.GetAuthenticatedUserFromContext c) net
                  (fst (Api.addFileToHostedIPFSNetwork S c)) = true
  | None => quiet (fst (Api.addFileToHostedIPFSNetwork S c)) = true
  end.
Proof. run_handler. Qed.

Lemma addFileAdvanced_gated (S : Api.Services) (c : Api.Context) :
  match Api.GetPostForm c "network_name" with
  | Some net => gated (Api.GetAuthenticatedUserFromContext c) net
                  (fst (Api.addFileToHostedIPFSNetworkAdvanced S c)) = true
  | None => quiet (fst (Api.addFileToHostedIPFSNetworkAdvanced S c)) = true
  end.
Proof. run_handler. Qed.

Lemma refused_quiet (S : Api.Services) (c : Api.Context) (net : string) (e : Api.err)
    (h : Api.Services -> Api.Context -> Api.H unit) :
  In h privateNetworkHandlers ->
  Api.GetPostForm c "network_name" = Some net ->
  Api.CheckAccessForPrivateNetwork S (Api.GetAuthenticatedUserFromContext c) net = Some e ->
  quiet (fst (h S c)) = true.
Proof.
  intros [<-|[<-|[<-|[<-|[]]]]] Hnet Hacc;
    unfold_handler; rewrite Hnet; cbn; rewrite ?Hacc; cbn; try reflexivity;
    split_on_call; cbn; rewrite ?Hacc; reflexivity.
Qed.

(** C7. In the private-network handlers for pin, pin removal and file add
    (simple and advanced), any queue or storage operation of a run comes
    after an access check of the caller for the posted network that let the
    caller through; and when the access check refuses, the run contains no
    such operation at all: nothing is published and nothing is stored. *)
Theorem access_check_precedes_operations (S : Api.Services) (c : Api.Context)
    (h : Api.Services -> Api.Context -> Api.H unit) :
  In h privateNetworkHandlers ->
  (forall pre e post,
      fst (h S c) = (pre ++ e :: post)%list -> isOperation e = true ->
      exists net,
        Api.GetPostForm c "network_name" = Some net
        /\ In (Api.EvCheckAccess (Api.GetAuthenticatedUserFromContext c) net None) pre)
  /\ (forall net refusal,
      Api.GetPostForm c "network_name" = Some net ->
      Api.CheckAccessForPrivateNetwork S (Api.GetAuthenticatedUserFromContext c) net
        = Some refusal ->
      forall e, In e (fst (h S c)) -> isOperation e = false).
Proof.
  intros Hh. split.
  - intros pre e post Htr He.
    assert (Hg : match Api.GetPostForm c "network_name" with
                 | Some net => gated (Api.GetAuthenticatedUserFromContext c) net
                                 (fst (h S c)) = true
                 | None => quiet (fst (h S c)) = true
                 end).
    { destruct Hh as [<-|[<-|[<-|[<-|[]]]]];
        [apply pin_gated | apply removePin_gated | apply addFile_gated
         | apply addFileAdvanced_gated]. }
    destruct (Api.GetPostForm c "network_name") as [net|].
    + exists net. split; [reflexivity|]. eapply gated_sound; eassumption.
    + exfalso. unfold quiet in Hg. rewrite forallb_forall in Hg.
      assert (Hin : In e (fst (h S c)))
        by (rewrite Htr; apply in_or_app; right; now left).
      specialize (Hg e Hin). rewrite He in Hg. discriminate.
  - intros net refusal Hnet Hacc e Hin.
    pose proof (refused_quiet S c net refusal h Hh Hnet Hacc) as Hq.
    unfold quiet in Hq. rewrite forallb_forall in Hq.
    specialize (Hq e Hin). now apply negb_true_iff in Hq.
Qed.

Lemma access_check_precedes_operations_witness :
  In (Api.EvCheckAccess "alice" "acme" None)
     [Api.EvCheckAccess "alice" "acme" None;
      Api.EvQueueInitialize Api.IpfsPinRemovalQueue None]
  /\ forall e,
       In e (fst (Api.removePinFromLocalHostForHostedIPFSNetwork
                    (Examples.services "alice" "QmGood")
                    (Examples.request "mallory" [("network_name", "acme")] "QmGood"))) ->
       isOperation e = false.
Proof.
  split.
  - destruct (proj1 (access_check_precedes_operations
                       (Examples.services "alice" "QmGood")
                       (Examples.request "alice" [("network_name", "acme")] "QmGood")
                       Api.removePinFromLocalHostForHostedIPFSNetwork
                       (or_intror (or_introl eq_refl)))
                [Api.EvCheckAccess "alice" "acme" None;
                 Api.EvQueueInitialize Api.IpfsPinRemovalQueue None]
                (Api.EvPublish Api.IpfsPinRemovalQueue (Some Api.PinRemovalExchange)
                   (Api.IPFSPinRemoval "QmGood" "acme" "alice") None)
                [Api.EvLogInfo "private ipfs pin removal request sent to backend";
                 Api.EvRespond 200 "pin removal sent to backend"]
                eq_refl eq_refl) as (net & Hnet & Hin).
    injection Hnet as <-. exact Hin.
  - apply (proj2 (access_check_precedes_operations
                    (Examples.services "alice" "QmGood")
                    (Examples.request "mallory" [("network_name", "acme")] "QmGood")
                    Api.removePinFromLocalHostForHostedIPFSNetwork
                    (or_intror (or_introl eq_refl)))
             "acme" "access denied"); reflexivity.
Defined.

(** C8, as the code has it. When the content identifier of a pin,
    pin-removal or cluster-pin request does not decode, no message is
    published to any queue. The pin-removal and cluster-pin handlers decode
    first: they fail with the decoder's error handed to the caller and log
    nothing. The private-network pin handler decodes only after the
    [network_name] and access checks, and fails that way once the request is
    past them. *)
Theorem malformed_cid_publishes_nothing (S : Api.Services) (c : Api.Context)
    (invalid : Api.err) :
  Api.gocid_Decode S (Api.Param c "hash") = Some invalid ->
  (forall h, In h cidHandlers ->
     forall e, In e (fst (h S c)) -> isPublish e = false)
  /\ Api.removePinFromLocalHostForHostedIPFSNetwork S c
     = ([Api.EvFailOnError invalid], None)
  /\ Api.pinHashToCluster S c = ([Api.EvFailOnError invalid], None)
  /\ (forall net,
        Api.GetPostForm c "network_name" = Some net ->
        Api.CheckAccessForPrivateNetwork S (Api.GetAuthenticatedUserFromContext c) net
          = None ->
        Api.pinToHostedIPFSNetwork S c
        = ([Api.EvCheckAccess (Api.GetAuthenticatedUserFromContext c) net None;
            Api.EvFailOnError invalid], None)).
Proof.
  intros Hbad.
  assert (Hrm : Api.removePinFromLocalHostForHostedIPFSNetwork S c
                = ([Api.EvFailOnError invalid], None))
    by (unfold_handler; rewrite Hbad; reflexivity).
  assert (Hcl : Api.pinHashToCluster S c = ([Api.EvFailOnError invalid], None))
    by (unfold_handler; rewrite Hbad; reflexivity).
  repeat split; try assumption.
  - intros h [<-|[<-|[<-|[]]]] e Hin.
    + revert Hin. unfold_handler.
      destruct (Api.GetPostForm c "network_name") as [net|]; cbn.
      * destruct (Api.CheckAccessForPrivateNetwork S _ net); cbn; rewrite ?Hbad; cbn;
          intuition (subst; reflexivity).
      * intuition (subst; reflexivity).
    + rewrite Hrm in Hin. cbn in Hin. intuition (subst; reflexivity).
    + rewrite Hcl in Hin. cbn in Hin. intuition (subst; reflexivity).
  - intros net Hnet Hacc. unfold_handler. rewrite Hnet. cbn.
    rewrite Hacc. cbn. rewrite Hbad. reflexivity.
Qed.

Lemma malformed_cid_publishes_nothing_witness :
  (forall h, In h cidHandlers ->
     forall e,
       In e (fst (h (Examples.services "alice" "QmGood")
                    (Examples.request "alice"
                       [("network_name", "acme"); ("hold_time", "1")] "not-a-cid"))) ->
       isPublish e = false)
  /\ Api.pinToHostedIPFSNetwork (Examples.services "alice" "QmGood")
       (Examples.request "alice" [("network_name", "acme"); ("hold_time", "1")] "not-a-cid")
     = ([Api.EvCheckAccess "alice" "acme" None; Api.EvFailOnError "invalid cid"], None).
Proof.
  pose proof (malformed_cid_publishes_nothing
                (Examples.services "alice" "QmGood")
                (Examples.request "alice"
                   [("network_name", "acme"); ("hold_time", "1")] "not-a-cid")
                "invalid cid" eq_refl) as (Hq & _ & _ & Hpin).
  split; [exact Hq|].
  exact (Hpin "acme" eq_refl eq_refl).
Defined.

(** C8, a private-network pin with a malformed identifier from a caller the
    access gate refuses: the error handed back is the refusal, not the
    decoder's, and it has been logged through [api.LogError]. *)
Lemma malformed_cid_pin_logs_access_error :
  Api.gocid_Decode (Examples.services "alice" "QmGood")
    (Api.Param (Examples.request "mallory"
                  [("network_name", "acme"); ("hold_time", "1")] "not-a-cid") "hash")
    = Some "invalid cid"
  /\ fst (Api.pinToHostedIPFSNetwork (Examples.services "alice" "QmGood")
            (Examples.request "mallory"
               [("network_name", "acme"); ("hold_time", "1")] "not-a-cid"))
     = [Api.EvCheckAccess "mallory" "acme" (Some "access denied");
        Api.EvLogError "access denied" Api.PrivateNetworkAccessError;
        Api.EvFailOnError "access denied"]
  /\ existsb isLogError
       (fst (Api.pinToHostedIPFSNetwork (Examples.services "alice" "QmGood")
               (Examples.request "mallory"
                  [("network_name", "acme"); ("hold_time", "1")] "not-a-cid")))
     = true.
Proof. vm_compute. repeat split; reflexivity. Qed.

(** The same request with [network_name] left out fails on the missing
    field before the identifier is looked at. *)
Example malformed_cid_pin_missing_network :
  Api.pinToHostedIPFSNetwork (Examples.services "alice" "QmGood")
    (Examples.request "alice" [("hold_time", "1")] "not-a-cid")
  = ([Api.EvFailNoExistPostForm "network_name"], None).
Proof. reflexivity. Qed.

(** * Further properties of the upload manager *)

(** ** Lookup *)

Lemma filter_none {A} (f : A -> bool) (l : list A) :
  (forall x, In x l -> f x = false) -> filter f l = [].
Proof.
  induction l as [|a l IH]; intros H; [reflexivity|].
  cbn [filter]. rewrite (H a (or_introl eq_refl)). apply IH.
  intros x Hx. apply H. now right.
Qed.

Lemma selected_triple (h n u : string) (x : Upload) :
  selected (Where (byHashNetworkUser h n u) DB) x
  = active x && byHashNetworkUser h n u x.
Proof. unfold selected; cbn. now rewrite andb_true_r. Qed.

Lemma lowestID_least (l : list Upload) (u : Upload) :
  lowestID l = Some u -> forall v, In v l -> ID u <= ID v.
Proof.
  revert u; induction l as [|a l IH]; cbn [lowestID]; intros u H v Hv; [destruct Hv|].
  destruct (lowestID l) as [w|] eqn:Hw.
  - injection H as <-. specialize (IH w eq_refl).
    destruct (Z.leb_spec (ID a) (ID w)); destruct Hv as [<-|Hv];
      try lia; specialize (IH v Hv); lia.
  - injection H as <-. destruct Hv as [<-|Hv]; [lia|].
    destruct l; [destruct Hv | cbn in Hw; destruct (lowestID l); discriminate].
Qed.

(** X1. [FindUploadByHashAndNetworkAndUser] is sound and complete: a record
    it returns is a visible row of the table carrying the hash, network and
    user name asked for, and the one of least id among such rows; it answers
    "record not found" exactly when the query went through and no visible
    row carries the triple. *)
Theorem lookup_finds_a_matching_row (E : Env) (hash networkName username : string)
    (s : State) :
  (forall x,
      fst (FindUploadByHashAndNetworkAndUser E hash networkName username s)
        = (Some x, None) ->
      In x (table s) /\ active x = true
      /\ Hash x = hash /\ NetworkName x = networkName /\ UserName x = username
      /\ forall y, In y (table s) -> active y = true ->
                   byHashNetworkUser hash networkName username y = true ->
                   ID x <= ID y)
  /\ (fst (FindUploadByHashAndNetworkAndUser E hash networkName username s)
        = (None, Some ErrRecordNotFound)
      <-> dbFault E (dbCalls s) = false
          /\ forall y, In y (table s) -> active y = true ->
                       byHashNetworkUser hash networkName username y = false).
Proof.
  rewrite FindUploadByHashAndNetworkAndUser_eq. cbn [fst].
  destruct (dbFault E (dbCalls s)).
  - split; [discriminate|]. split; [discriminate | intros [? _]; discriminate].
  - destruct (lowestID _) as [w|] eqn:Hw.
    + pose proof (lowestID_In _ _ Hw) as Hin.
      apply filter_In in Hin as [Hin Hsel]. rewrite selected_triple in Hsel.
      apply andb_prop in Hsel as [Hact Htri].
      split.
      * intros x Hx. injection Hx as <-.
        unfold byHashNetworkUser in Htri.
        apply andb_prop in Htri as [Htri Hu]. apply andb_prop in Htri as [Hh Hn].
        apply String.eqb_eq in Hh, Hn, Hu.
        repeat split; try assumption.
        intros y Hy Hya Hyt. apply (lowestID_least _ _ Hw).
        apply filter_In. split; [assumption|].
        rewrite selected_triple, Hya, Hyt. reflexivity.
      * split; [discriminate|]. intros [_ Hnone].
        specialize (Hnone w Hin Hact). congruence.
    + split; [discriminate|]. split; [|reflexivity].
      intros _. split; [reflexivity|]. intros y Hy Hya.
      destruct (byHashNetworkUser hash networkName username y) eqn:Hyt; [|reflexivity].
      assert (Hf : In y (filter (selected (Where (byHashNetworkUser hash networkName
                                                    username) DB)) (table s))).
      { apply filter_In. split; [assumption|].
        rewrite selected_triple, Hya, Hyt. reflexivity. }
      destruct (filter _ (table s)) as [|a l]; [destruct Hf|].
      cbn in Hw. destruct (lowestID l); discriminate.
Qed.

Lemma lookup_finds_a_matching_row_witness :
  In Examples.qm456 (table Examples.twoPins) /\ active Examples.qm456 = true
  /\ Hash Examples.qm456 = "Qm456" /\ NetworkName Examples.qm456 = "public"
  /\ UserName Examples.qm456 = "bob"
  /\ forall y, In y (table Examples.twoPins) -> active y = true ->
               byHashNetworkUser "Qm456" "public" "bob" y = true ->
               ID Examples.qm456 <= ID y.
Proof.
  apply (proj1 (lookup_finds_a_matching_row (Examples.calm (Examples.noon 2018 6 20))
                  "Qm456" "public" "bob" Examples.twoPins)).
  vm_compute; reflexivity.
Defined.

(** ** Creation *)

(** X2. [NewUpload] is all or nothing: when it returns a record, that record
    has been appended to the table as its one new row and the serial key has
    advanced by one; when it returns an error, the table and the serial key
    are as before. It never returns both or neither. *)
Theorem NewUpload_all_or_nothing (E : Env)
    (contentHash uploadType networkName username name : string)
    (holdTimeInMonths : Z) (s : State) :
  match NewUpload E contentHash uploadType networkName username name holdTimeInMonths s with
  | ((Some upload, None), s') =>
      table s' = (table s ++ [upload])%list /\ nextID s' = nextID s + 1
  | ((None, Some _), s') => table s' = table s /\ nextID s' = nextID s
  | _ => False
  end.
Proof.
  unfold NewUpload, bind. rewrite FindUploadByHashAndNetworkAndUser_eq.
  destruct (dbFault E (dbCalls s)); [|destruct (lowestID _); [split; reflexivity|]];
    (destruct (AtoiSprintf holdTimeInMonths) as [hi [e0|]]; [split; reflexivity|];
     rewrite CalculateGarbageCollectDate_eq, Create_eq;
     cbn [tickClock tickDb dbCalls];
     destruct (dbFault E (S (dbCalls s))); split; reflexivity).
Qed.

(** X3. Creation and lookup round trip. When no visible row carries the
    triple, the hold time is an [int64] and the database answers, [NewUpload]
    stores and returns a record with the next serial id, the arguments it was
    given, the caller as its only co-owner and the garbage-collect date
    computed from the clock; and a lookup of the triple right after returns
    that very record. *)
Theorem NewUpload_then_lookup (E : Env)
    (contentHash uploadType networkName username name : string)
    (holdTimeInMonths : Z) (s : State) :
  (forall x, In x (table s) -> active x = true ->
             byHashNetworkUser contentHash networkName username x = false) ->
  minInt <= holdTimeInMonths <= maxInt ->
  (forall k, (dbCalls s <= k)%nat -> dbFault E k = false) ->
  let created :=
    mkUpload (nextID s) None contentHash uploadType name networkName
             holdTimeInMonths username
             (AddMonthsClamped (wallClock E (clockReads s)) holdTimeInMonths)
             [username] in
  fst (NewUpload E contentHash uploadType networkName username name holdTimeInMonths s)
    = (Some created, None)
  /\ table (snd (NewUpload E contentHash uploadType networkName username name
                   holdTimeInMonths s)) = (table s ++ [created])%list
  /\ fst (FindUploadByHashAndNetworkAndUser E contentHash networkName username
            (snd (NewUpload E contentHash uploadType networkName username name
                    holdTimeInMonths s)))
     = (Some created, None).
Proof.
  intros Hnone Hrange Hdb created.
  assert (Hempty : filter (selected (Where (byHashNetworkUser contentHash networkName
                                              username) DB)) (table s) = []).
  { apply filter_none. intros x Hx. rewrite selected_triple.
    destruct (active x) eqn:Ha; [|reflexivity]. now rewrite (Hnone x Hx Ha). }
  unfold NewUpload, bind. rewrite FindUploadByHashAndNetworkAndUser_eq.
  rewrite (Hdb (dbCalls s)) by lia. rewrite Hempty. cbn [lowestID].
  rewrite (AtoiSprintf_int64 _ Hrange), CalculateGarbageCollectDate_eq, Create_eq.
  cbn [tickClock tickDb dbCalls clockReads nextID table].
  rewrite (Hdb (S (dbCalls s))) by lia.
  cbn [fst snd Error DB ret set_ID ID DeletedAt Hash Type_ Name NetworkName
       HoldTimeInMonths UserName GarbageCollectDate UserNames].
  repeat split.
  rewrite FindUploadByHashAndNetworkAndUser_eq. cbn [fst dbCalls table].
  rewrite (Hdb (S (S (dbCalls s)))) by lia.
  rewrite filter_app, Hempty. cbn [app filter].
  rewrite selected_triple. unfold byHashNetworkUser. cbn [active DeletedAt Hash
    NetworkName UserName]. rewrite !String.eqb_refl. reflexivity.
Qed.

Lemma NewUpload_then_lookup_witness :
  fst (NewUpload (Examples.calm (Examples.noon 2018 6 16))
         "Qm456" "pin" "public" "bob" "g" 1 Examples.pinned)
    = (Some Examples.qm456, None)
  /\ table (snd (NewUpload (Examples.calm (Examples.noon 2018 6 16))
                   "Qm456" "pin" "public" "bob" "g" 1 Examples.pinned))
     = [Examples.qm123; Examples.qm456]
  /\ fst (FindUploadByHashAndNetworkAndUser (Examples.calm (Examples.noon 2018 6 16))
            "Qm456" "public" "bob"
            (snd (NewUpload (Examples.calm (Examples.noon 2018 6 16))
                    "Qm456" "pin" "public" "bob" "g" 1 Examples.pinned)))
     = (Some Examples.qm456, None).
Proof.
  pose proof (NewUpload_then_lookup (Examples.calm (Examples.noon 2018 6 16))
                "Qm456" "pin" "public" "bob" "g" 1 Examples.pinned) as H.
  cbv zeta in H.
  change (mkUpload (nextID Examples.pinned) None "Qm456" "pin" "g" "public" 1 "bob"
            (AddMonthsClamped
               (wallClock (Examples.calm (Examples.noon 2018 6 16))
                  (clockReads Examples.pinned)) 1) ["bob"])
    with Examples.qm456 in H.
  apply H.
  - intros x [<-|[]] _. reflexivity.
  - unfold minInt, maxInt; lia.
  - intros k _. reflexivity.
Defined.

(** ** Renewal *)

(** X4. [UpdateUpload] for a triple no visible row carries, the lookup going
    through, returns nil with gorm's "record not found" and writes nothing. *)
Theorem UpdateUpload_not_found (E : Env) (holdTimeInMonths : Z)
    (username contentHash networkName : string) (s : State) :
  (forall x, In x (table s) -> active x = true ->
             byHashNetworkUser contentHash networkName username x = false) ->
  dbFault E (dbCalls s) = false ->
  fst (UpdateUpload E holdTimeInMonths username contentHash networkName s)
    = (None, Some ErrRecordNotFound)
  /\ table (snd (UpdateUpload E holdTimeInMonths username contentHash networkName s))
     = table s.
Proof.
  intros Hnone Hok.
  rewrite UpdateUpload_eq, FindUploadByHashAndNetworkAndUser_eq, Hok.
  rewrite filter_none; [split; reflexivity|].
  intros x Hx. rewrite selected_triple.
  destruct (active x) eqn:Ha; [|reflexivity]. now rewrite (Hnone x Hx Ha).
Qed.

Lemma UpdateUpload_not_found_witness :
  fst (UpdateUpload (Examples.calm (Examples.noon 2018 6 20))
         3 "carol" "Qm123" "public" Examples.pinned)
    = (None, Some ErrRecordNotFound)
  /\ table (snd (UpdateUpload (Examples.calm (Examples.noon 2018 6 20))
                   3 "carol" "Qm123" "public" Examples.pinned))
     = table Examples.pinned.
Proof.
  apply (UpdateUpload_not_found (Examples.calm (Examples.noon 2018 6 20))
           3 "carol" "Qm123" "public" Examples.pinned).
  - intros x [<-|[]] _. reflexivity.
  - reflexivity.
Defined.

(** What a renewal that goes through returns, in terms of the row it found. *)
Lemma UpdateUpload_success (E : Env) (hold : Z) (u h n : string) (s : State)
    (found : Upload) :
  pk_ok s = true ->
  fst (FindUploadByHashAndNetworkAndUser E h n u s) = (Some found, None) ->
  minInt <= hold <= maxInt ->
  dbFault E (S (dbCalls s)) = false ->
  UpdateUpload E hold u h n s
  = (Some (renewedUpload hold u (AddMonthsClamped (wallClock E (clockReads s)) hold)
             found), None,
     mkState (map (fun r => if ID r =? ID found
                            then renewedUpload hold u
                                   (AddMonthsClamped (wallClock E (clockReads s)) hold)
                                   found
                            else r) (table s))
             (nextID s) (S (S (dbCalls s))) (S (clockReads s))).
Proof.
  intros Hpk Hfound Hrange Hok.
  rewrite UpdateUpload_eq.
  rewrite FindUploadByHashAndNetworkAndUser_eq in *. cbn [fst] in Hfound.
  destruct (dbFault E (dbCalls s)); [discriminate|].
  destruct (lowestID _) as [x|] eqn:Hx; [|discriminate].
  injection Hfound as ->.
  apply lowestID_In, filter_In in Hx as [Hin Hsel].
  rewrite selected_triple in Hsel. apply andb_prop in Hsel as [Hact _].
  rewrite (AtoiSprintf_int64 _ Hrange).
  cbn [tickDb clockReads].
  set (up := renewedUpload _ _ _ _).
  assert (Hid : ID up = ID found) by apply renewedUpload_ID.
  pose proof (pk_ok_positive _ _ Hpk Hin) as Hpos.
  rewrite (Save_eq E DB up); [|lia].
  cbn [tickClock tickDb dbCalls clockReads table nextID]. rewrite Hok.
  cbn [Error DB]. do 2 f_equal.
  apply map_ext_in. intros r Hr. rewrite selected_DB, Hid.
  destruct (ID r =? ID found) eqn:Heq; [|now rewrite andb_false_r].
  apply Z.eqb_eq in Heq.
  assert (r = found) by (eapply pk_ok_unique; eauto).
  subst r. now rewrite Hact.
Qed.

(** X5. A renewal that goes through makes the caller the record's user and
    one of its co-owners, keeps every earlier co-owner, adds nobody else,
    and adds the caller once only: a list without repetition stays so. The
    record returned is the row now stored under the same primary key. *)
Theorem UpdateUpload_adds_coowner_once (E : Env) (holdTimeInMonths : Z)
    (username contentHash networkName : string) (s : State) (found : Upload) :
  pk_ok s = true ->
  fst (FindUploadByHashAndNetworkAndUser E contentHash networkName username s)
    = (Some found, None) ->
  minInt <= holdTimeInMonths <= maxInt ->
  dbFault E (S (dbCalls s)) = false ->
  exists upload,
    fst (UpdateUpload E holdTimeInMonths username contentHash networkName s)
      = (Some upload, None)
    /\ find (fun r => ID r =? ID found)
         (table (snd (UpdateUpload E holdTimeInMonths username contentHash
                        networkName s))) = Some upload
    /\ UserName upload = username
    /\ In username (UserNames upload)
    /\ (forall n, In n (UserNames found) -> In n (UserNames upload))
    /\ (forall n, In n (UserNames upload) -> n = username \/ In n (UserNames found))
    /\ (NoDup (UserNames found) -> NoDup (UserNames upload)).
Proof.
  intros Hpk Hfound Hrange Hok.
  rewrite (UpdateUpload_success E _ _ _ _ s found Hpk Hfound Hrange Hok).
  eexists. split; [reflexivity|]. cbn [snd table].
  assert (Hin : In found (table s)).
  { rewrite FindUploadByHashAndNetworkAndUser_eq in Hfound. cbn [fst] in Hfound.
    destruct (dbFault E (dbCalls s)); [discriminate|].
    destruct (lowestID _) as [x|] eqn:Hx; [|discriminate].
    injection Hfound as ->. now apply lowestID_In, filter_In in Hx as [Hx _]. }
  split.
  { pose proof (pk_ok_ascending _ Hpk) as Hasc. revert Hasc Hin.
    generalize 0. induction (table s) as [|a t IH]; intros lo Hasc Hin; [destruct Hin|].
    cbn [map find idsAscending] in *. apply andb_prop in Hasc as [Ha Ht].
    destruct (ID a =? ID found) eqn:Heq.
    - now rewrite renewedUpload_ID, Z.eqb_refl.
    - rewrite Heq. destruct Hin as [->|Hin]; [now rewrite Z.eqb_refl in Heq|].
      eapply IH; eassumption. }
  unfold renewedUpload.
  cbn [set_UserName UserNames UserName].
  destruct (existsb (String.eqb username) (UserNames found)) eqn:Hex; cbn [negb];
    destruct (Unix _ >? Unix _);
    cbn [set_GarbageCollectDate set_HoldTimeInMonths set_UserNames set_UserName
         UserNames UserName]; (split; [reflexivity|]).
  1,2: apply existsb_exists in Hex as (m & Hm & Heq); apply String.eqb_eq in Heq;
       subst m; repeat split; auto.
  1,2: assert (Hnew : ~ In username (UserNames found))
         by (intros Hc; apply not_true_iff_false in Hex; apply Hex;
             apply existsb_exists; exists username; split;
             [assumption | apply String.eqb_refl]);
       repeat split;
       [ apply in_or_app; right; now left
       | intros m Hm; apply in_or_app; now left
       | intros m Hm; apply in_app_or in Hm as [Hm|[<-|[]]]; auto
       | intros Hnd; apply NoDup_app; [assumption | repeat constructor; intros [] |];
         intros m Hm [<-|[]]; contradiction ].
Qed.

Lemma UpdateUpload_adds_coowner_once_witness :
  exists upload,
    fst (UpdateUpload (Examples.calm (Examples.noon 2018 6 20))
           3 "alice" "Qm123" "public" Examples.pinned) = (Some upload, None)
    /\ find (fun r => ID r =? ID Examples.qm123)
         (table (snd (UpdateUpload (Examples.calm (Examples.noon 2018 6 20))
                        3 "alice" "Qm123" "public" Examples.pinned))) = Some upload
    /\ UserName upload = "alice"
    /\ In "alice" (UserNames upload)
    /\ (forall n, In n (UserNames Examples.qm123) -> In n (UserNames upload))
    /\ (forall n, In n (UserNames upload) -> n = "alice" \/ In n (UserNames Examples.qm123))
    /\ (NoDup (UserNames Examples.qm123) -> NoDup (UserNames upload)).
Proof.
  apply (UpdateUpload_adds_coowner_once (Examples.calm (Examples.noon 2018 6 20))
           3 "alice" "Qm123" "public" Examples.pinned Examples.qm123).
  - reflexivity.
  - vm_compute; reflexivity.
  - unfold minInt, maxInt; lia.
  - reflexivity.
Defined.

(** X6. What a renewal that goes through writes. Of the row it found it
    changes at most the user name, the co-owners and the hold time: the
    primary key, hash, type, name, network, garbage-collect date and
    soft-delete mark are as found. The hold time becomes the new one exactly
    when the newly computed date is strictly later, in whole seconds, than
    the stored one, and is otherwise left alone. Every other row of the
    table is untouched. *)
Theorem UpdateUpload_writes_one_row (E : Env) (holdTimeInMonths : Z)
    (username contentHash networkName : string) (s : State) (found : Upload) :
  pk_ok s = true ->
  fst (FindUploadByHashAndNetworkAndUser E contentHash networkName username s)
    = (Some found, None) ->
  minInt <= holdTimeInMonths <= maxInt ->
  dbFault E (S (dbCalls s)) = false ->
  exists upload,
    fst (UpdateUpload E holdTimeInMonths username contentHash networkName s)
      = (Some upload, None)
    /\ table (snd (UpdateUpload E holdTimeInMonths username contentHash networkName s))
       = map (fun r => if ID r =? ID found then upload else r) (table s)
    /\ ID upload = ID found /\ Hash upload = Hash found
    /\ Type_ upload = Type_ found /\ Name upload = Name found
    /\ NetworkName upload = NetworkName found
    /\ GarbageCollectDate upload = GarbageCollectDate found
    /\ DeletedAt upload = DeletedAt found
    /\ HoldTimeInMonths upload
       = if Unix (AddMonthsClamped (wallClock E (clockReads s)) holdTimeInMonths)
            >? Unix (GarbageCollectDate found)
         then holdTimeInMonths else HoldTimeInMonths found.
Proof.
  intros Hpk Hfound Hrange Hok.
  rewrite (UpdateUpload_success E _ _ _ _ s found Hpk Hfound Hrange Hok).
  eexists. split; [reflexivity|]. split; [reflexivity|].
  unfold renewedUpload. cbn [set_UserName UserNames GarbageCollectDate].
  destruct (negb _);
    cbn [set_UserNames GarbageCollectDate];
    destruct (Unix _ >? Unix _); repeat split.
Qed.

Lemma UpdateUpload_writes_one_row_witness :
  exists upload,
    fst (UpdateUpload (Examples.calm (Examples.noon 2018 6 20))
           3 "bob" "Qm456" "public" Examples.twoPins) = (Some upload, None)
    /\ table (snd (UpdateUpload (Examples.calm (Examples.noon 2018 6 20))
                     3 "bob" "Qm456" "public" Examples.twoPins))
       = map (fun r => if ID r =? ID Examples.qm456 then upload else r)
           (table Examples.twoPins)
    /\ ID upload = ID Examples.qm456 /\ Hash upload = Hash Examples.qm456
    /\ Type_ upload = Type_ Examples.qm456 /\ Name upload = Name Examples.qm456
    /\ NetworkName upload = NetworkName Examples.qm456
    /\ GarbageCollectDate upload = GarbageCollectDate Examples.qm456
    /\ DeletedAt upload = DeletedAt Examples.qm456
    /\ HoldTimeInMonths upload
       = if Unix (AddMonthsClamped
                    (wallClock (Examples.calm (Examples.noon 2018 6 20))
                       (clockReads Examples.twoPins)) 3)
            >? Unix (GarbageCollectDate Examples.qm456)
         then 3 else HoldTimeInMonths Examples.qm456.
Proof.
  apply (UpdateUpload_writes_one_row (Examples.calm (Examples.noon 2018 6 20))
           3 "bob" "Qm456" "public" Examples.twoPins Examples.qm456).
  - reflexivity.
  - vm_compute; reflexivity.
  - unfold minInt, maxInt; lia.
  - reflexivity.
Defined.

(** ** Both sweeps *)

Lemma marked_refl (r : Upload) : marked r r.
Proof. now left. Qed.

Lemma marked_trans (a b c : Upload) : marked a b -> marked b c -> marked a c.
Proof.
  intros [->|(Ha & t & ->)] H; [exact H|].
  destruct H as [->|(Hb & _)]; [right; eauto | discriminate Hb].
Qed.

Lemma Forall2_marked_refl (l : list Upload) : Forall2 marked l l.
Proof. induction l; constructor; auto using marked_refl. Qed.

Lemma onlyMarks_refl (s s' : State) :
  table s' = table s -> nextID s' = nextID s -> onlyMarks s s'.
Proof.
  intros Ht Hn. split; [|exact Hn]. rewrite Ht. apply Forall2_marked_refl.
Qed.

Lemma Forall2_marked_trans (l1 l2 l3 : list Upload) :
  Forall2 marked l1 l2 -> Forall2 marked l2 l3 -> Forall2 marked l1 l3.
Proof.
  intros H; revert l3; induction H; intros l3 H3; inversion H3; subst;
    constructor; eauto using marked_trans.
Qed.

Lemma onlyMarks_trans (s1 s2 s3 : State) :
  onlyMarks s1 s2 -> onlyMarks s2 s3 -> onlyMarks s1 s3.
Proof.
  intros [H12 N12] [H23 N23]. split; [|congruence].
  eapply Forall2_marked_trans; eassumption.
Qed.

Lemma onlyMarks_ids (s s' : State) :
  onlyMarks s s' -> map ID (table s') = map ID (table s).
Proof.
  intros [H _]. induction H as [|r r' l l' Hr _ IH]; [reflexivity|].
  cbn [map]. rewrite IH. f_equal.
  destruct Hr as [->|(_ & t & ->)]; reflexivity.
Qed.

Lemma Delete_onlyMarks (E : Env) (v : Upload) (s : State) :
  onlyMarks s (snd (Delete E DB v s)).
Proof.
  rewrite Delete_eq. destruct (dbFault E (dbCalls s)).
  - now apply onlyMarks_refl.
  - split; [|reflexivity]. cbn [snd table].
    induction (table s) as [|r t IH]; constructor; [|exact IH].
    rewrite selected_DB.
    destruct (active r) eqn:Ha; cbn [andb]; [|now left].
    destruct ((ID v =? 0) || (ID r =? ID v)); [right; eauto | now left].
Qed.

Lemma gcLoop_onlyMarks (E : Env) (l acc : list Upload) (s : State) :
  onlyMarks s (snd (gcLoop E l acc s)).
Proof.
  revert acc s; induction l as [|v rest IH]; intros acc s.
  - now apply onlyMarks_refl.
  - rewrite gcLoop_cons.
    destruct (Unix (wallClock E (clockReads s)) >? Unix (GarbageCollectDate v)).
    + destruct (dbFault E (dbCalls s)); [now apply onlyMarks_refl|].
      eapply onlyMarks_trans; [|apply IH].
      apply (Delete_onlyMarks E v (tickClock s)).
    + eapply onlyMarks_trans; [|apply IH]. now apply onlyMarks_refl.
Qed.

Lemma testGcLoop_cons (E : Env) (v : Upload) (rest acc : list Upload) (s : State) :
  testGcLoop E (v :: rest) acc s =
  if dbFault E (dbCalls s)
  then (None, Some (ErrGorm ErrDatabase), tickDb (tickClock s))
  else testGcLoop E rest (acc ++ [v]) (snd (Delete E DB v s)).
Proof.
  cbn [testGcLoop]. unfold bind. rewrite !Delete_eq.
  destruct (dbFault E (dbCalls s)); reflexivity.
Qed.

Lemma RunTestDatabaseGarbageCollection_eq (E : Env) (s : State) :
  RunTestDatabaseGarbageCollection E s =
  if dbFault E (dbCalls s) then (None, Some (ErrGorm ErrDatabase), tickDb s)
  else testGcLoop E (activeRows s) [] (tickDb s).
Proof.
  unfold RunTestDatabaseGarbageCollection, bind. cbn [dev negb]. rewrite Find_eq.
  destruct (dbFault E (dbCalls s)); [reflexivity|].
  cbn [Error DB]. unfold activeRows.
  now rewrite (filter_ext _ _ selected_DB).
Qed.

Lemma testGcLoop_onlyMarks (E : Env) (l acc : list Upload) (s : State) :
  onlyMarks s (snd (testGcLoop E l acc s)).
Proof.
  revert acc s; induction l as [|v rest IH]; intros acc s.
  - now apply onlyMarks_refl.
  - rewrite testGcLoop_cons.
    destruct (dbFault E (dbCalls s)); [now apply onlyMarks_refl|].
    eapply onlyMarks_trans; [|apply IH]. apply Delete_onlyMarks.
Qed.

(** X7. Whatever the clock reads and whatever fails, neither sweep removes a
    row, adds one, reorders the table or writes a column other than the
    soft-delete mark: each row afterwards is the row it was, or a row that
    was visible and now carries a mark. A row already soft-deleted is never
    restored or re-marked, and the serial key is not touched. *)
Theorem sweeps_only_mark_rows (E : Env) (s : State) :
  (Forall2 marked (table s) (table (snd (RunDatabaseGarbageCollection E s)))
   /\ nextID (snd (RunDatabaseGarbageCollection E s)) = nextID s)
  /\ (Forall2 marked (table s) (table (snd (RunTestDatabaseGarbageCollection E s)))
      /\ nextID (snd (RunTestDatabaseGarbageCollection E s)) = nextID s).
Proof.
  split.
  - rewrite RunDatabaseGarbageCollection_eq.
    destruct (dbFault E (dbCalls s)); [now apply onlyMarks_refl|].
    apply (onlyMarks_trans s (tickDb s)); [now apply onlyMarks_refl|].
    apply gcLoop_onlyMarks.
  - rewrite RunTestDatabaseGarbageCollection_eq.
    destruct (dbFault E (dbCalls s)); [now apply onlyMarks_refl|].
    apply (onlyMarks_trans s (tickDb s)); [now apply onlyMarks_refl|].
    apply testGcLoop_onlyMarks.
Qed.

Lemma Delete_reaches (E : Env) (v : Upload) (s : State) :
  dbFault E (dbCalls s) = false ->
  activeRows (snd (Delete E DB v s))
    = filter (fun r => negb (reaches v r)) (activeRows s)
  /\ dbCalls (snd (Delete E DB v s)) = S (dbCalls s).
Proof.
  intros Hok. rewrite Delete_eq, Hok. cbn [snd table dbCalls].
  split; [|reflexivity]. unfold activeRows, reaches. cbn [table].
  induction (table s) as [|r t IH]; [reflexivity|].
  cbn [map]. rewrite selected_DB.
  destruct (active r) eqn:Ha; cbn [andb].
  - destruct ((ID v =? 0) || (ID r =? ID v)) eqn:Hr.
    + cbn [filter]. rewrite Ha. cbn [filter]. rewrite Hr.
      cbn [active set_DeletedAt DeletedAt negb]. exact IH.
    + cbn [filter]. rewrite Ha. cbn [filter]. rewrite Hr. cbn [negb].
      now rewrite IH.
  - cbn [filter]. rewrite Ha. exact IH.
Qed.

Lemma testGcLoop_calm (E : Env) (l acc : list Upload) (s : State) :
  (forall k, (dbCalls s <= k)%nat -> dbFault E k = false) ->
  fst (testGcLoop E l acc s) = (Some (acc ++ l)%list, None)
  /\ activeRows (snd (testGcLoop E l acc s))
     = filter (fun r => negb (existsb (fun v => reaches v r) l)) (activeRows s).
Proof.
  revert acc s; induction l as [|v rest IH]; intros acc s Hdb.
  - cbn. rewrite app_nil_r. split; [reflexivity|].
    induction (activeRows s) as [|r t IHt]; [reflexivity|]. cbn. now rewrite <- IHt.
  - rewrite testGcLoop_cons, (Hdb (dbCalls s)) by lia.
    destruct (Delete_reaches E v s (Hdb _ (Nat.le_refl _))) as [Hact Hd].
    destruct (IH (acc ++ [v])%list (snd (Delete E DB v s))) as [H1 H2].
    { intros k Hk. apply Hdb. rewrite Hd in Hk. lia. }
    rewrite H1, H2, Hact, filter_filter_and, <- app_assoc.
    split; [reflexivity|].
    apply filter_ext. intros r. cbn [existsb]. now rewrite negb_orb.
Qed.

(** X8. While the database answers, [RunTestDatabaseGarbageCollection]
    returns every visible upload, in table order, and leaves none visible:
    it deletes everything, whatever the garbage-collect dates. *)
Theorem test_sweep_deletes_everything (E : Env) (s : State) :
  (forall k, (dbCalls s <= k)%nat -> dbFault E k = false) ->
  fst (RunTestDatabaseGarbageCollection E s) = (Some (activeRows s), None)
  /\ activeRows (snd (RunTestDatabaseGarbageCollection E s)) = [].
Proof.
  intros Hdb. rewrite RunTestDatabaseGarbageCollection_eq, (Hdb (dbCalls s)) by lia.
  destruct (testGcLoop_calm E (activeRows s) [] (tickDb s)) as [H1 H2].
  { intros k Hk. apply Hdb. cbn in Hk. lia. }
  rewrite H1, H2. split; [reflexivity|].
  change (activeRows (tickDb s)) with (activeRows s).
  apply filter_none. intros r Hr. apply negb_false_iff.
  apply existsb_exists. exists r. split; [assumption|].
  unfold reaches. now rewrite Z.eqb_refl, orb_true_r.
Qed.

Lemma test_sweep_deletes_everything_witness :
  fst (RunTestDatabaseGarbageCollection (Examples.calm (Examples.noon 2018 6 20))
         Examples.twoPins) = (Some (activeRows Examples.twoPins), None)
  /\ activeRows (snd (RunTestDatabaseGarbageCollection
                        (Examples.calm (Examples.noon 2018 6 20)) Examples.twoPins))
     = [].
Proof.
  apply (test_sweep_deletes_everything (Examples.calm (Examples.noon 2018 6 20))
           Examples.twoPins).
  intros k _. reflexivity.
Defined.

(** X9. The primary-key invariant is kept by every call on the manager:
    started on a table whose keys are positive, ascending and below the
    serial counter, any run of creations, renewals and sweeps of either kind
    ends on such a table, whatever fails on the way. *)
Theorem ledger_calls_keep_primary_keys (E : Env) (calls : list LedgerCall) (s : State) :
  pk_ok s = true -> pk_ok (runCalls E calls s) = true.
Proof.
  revert s; induction calls as [|c calls IH]; intros s Hpk; [exact Hpk|].
  cbn [runCalls]. apply IH. destruct c; cbn [runCall].
  - now apply pk_ok_NewUpload.
  - now apply pk_ok_UpdateUpload.
  - now apply pk_ok_sweep.
  - destruct (sweeps_only_mark_rows E s) as [_ [Hm Hn]].
    rewrite (pk_ok_ids s); [assumption | | exact Hn].
    apply onlyMarks_ids. now split.
Qed.

Lemma ledger_calls_keep_primary_keys_witness :
  pk_ok (runCalls (Examples.failingAt (Examples.noon 2018 7 17) 3)
           [CallNewUpload "Qm123" "pin" "public" "alice" "f" 1;
            CallNewUpload "Qm456" "pin" "public" "bob" "g" 1;
            CallUpdateUpload 3 "alice" "Qm123" "public";
            CallRunDatabaseGarbageCollection;
            CallNewUpload "Qm123" "pin" "public" "alice" "f" 1;
            CallRunTestDatabaseGarbageCollection]
           Examples.empty) = true.
Proof.
  apply (ledger_calls_keep_primary_keys
           (Examples.failingAt (Examples.noon 2018 7 17) 3)).
  reflexivity.
Defined.

(** ** Queries *)

(** X10. While the query goes through, [GetUploads] returns the visible rows
    of the table, [FindUploadsByNetwork] those of them stored under the
    network asked for, and [GetUploadsForUser] those whose user is the one
    asked for: all of them, in table order, and no others. *)
Theorem queries_return_matching_visible_rows (E : Env) (s : State)
    (networkName username : string) :
  dbFault E (dbCalls s) = false ->
  fst (GetUploads E s) = (Some (activeRows s), None)
  /\ fst (FindUploadsByNetwork E networkName s)
     = (Some (filter (fun u => String.eqb (NetworkName u) networkName) (activeRows s)),
        None)
  /\ fst (GetUploadsForUser E username s)
     = (Some (filter (fun u => String.eqb (UserName u) username) (activeRows s)), None).
Proof.
  intros Hok.
  unfold GetUploads, FindUploadsByNetwork, GetUploadsForUser, bind.
  rewrite !Find_eq, Hok. cbn [fst Error DB Where ret]. unfold activeRows.
  repeat split.
  - now rewrite (filter_ext _ _ selected_DB).
  - rewrite filter_filter_and. do 2 f_equal. apply filter_ext. intros u.
    unfold selected; cbn. now rewrite andb_true_r.
  - rewrite filter_filter_and. do 2 f_equal. apply filter_ext. intros u.
    unfold selected; cbn. now rewrite andb_true_r.
Qed.

Lemma queries_return_matching_visible_rows_witness :
  fst (GetUploads (Examples.calm (Examples.noon 2018 6 20)) Examples.twoPins)
    = (Some (activeRows Examples.twoPins), None)
  /\ fst (FindUploadsByNetwork (Examples.calm (Examples.noon 2018 6 20)) "public"
            Examples.twoPins)
     = (Some (filter (fun u => String.eqb (NetworkName u) "public")
                (activeRows Examples.twoPins)), None)
  /\ fst (GetUploadsForUser (Examples.calm (Examples.noon 2018 6 20)) "bob"
            Examples.twoPins)
     = (Some (filter (fun u => String.eqb (UserName u) "bob")
                (activeRows Examples.twoPins)), None).
Proof.
  apply (queries_return_matching_visible_rows
           (Examples.calm (Examples.noon 2018 6 20)) Examples.twoPins "public" "bob").
  reflexivity.
Defined.

(** X11. When the query fails, [GetUploads], [FindUploadsByNetwork] and
    [GetUploadsForUser] return nil with the database error, whereas
    [FindUploadsByHash] and [GetUploadByHashForUser], which never look at
    the error, return an empty list as they would for an empty table. None
    of them writes to the table. *)
Theorem queries_on_database_failure (E : Env) (s : State)
    (networkName username hash : string) :
  dbFault E (dbCalls s) = true ->
  GetUploads E s = (None, Some ErrDatabase, tickDb s)
  /\ FindUploadsByNetwork E networkName s = (None, Some ErrDatabase, tickDb s)
  /\ GetUploadsForUser E username s = (None, Some ErrDatabase, tickDb s)
  /\ FindUploadsByHash E hash s = ([], tickDb s)
  /\ GetUploadByHashForUser E hash username s = ([], tickDb s).
Proof.
  intros Hf.
  unfold GetUploads, FindUploadsByNetwork, GetUploadsForUser, FindUploadsByHash,
    GetUploadByHashForUser, bind.
  rewrite !Find_eq, Hf. repeat split.
Qed.

Lemma queries_on_database_failure_witness :
  GetUploads (Examples.failingAt (Examples.noon 2018 6 20) 4) Examples.twoPins
    = (None, Some ErrDatabase, tickDb Examples.twoPins)
  /\ FindUploadsByNetwork (Examples.failingAt (Examples.noon 2018 6 20) 4) "public"
       Examples.twoPins = (None, Some ErrDatabase, tickDb Examples.twoPins)
  /\ GetUploadsForUser (Examples.failingAt (Examples.noon 2018 6 20) 4) "bob"
       Examples.twoPins = (None, Some ErrDatabase, tickDb Examples.twoPins)
  /\ FindUploadsByHash (Examples.failingAt (Examples.noon 2018 6 20) 4) "Qm123"
       Examples.twoPins = ([], tickDb Examples.twoPins)
  /\ GetUploadByHashForUser (Examples.failingAt (Examples.noon 2018 6 20) 4)
       "Qm123" "alice" Examples.twoPins = ([], tickDb Examples.twoPins).
Proof.
  apply (queries_on_database_failure (Examples.failingAt (Examples.noon 2018 6 20) 4)
           Examples.twoPins "public" "bob" "Qm123").
  reflexivity.
Defined.

(** ** Sweep, then query *)

Lemma Upload_eq_dec (a b : Upload) : {a = b} + {a <> b}.
Proof.
  decide equality;
    try apply Z.eq_dec; try apply string_dec;
    try (apply list_eq_dec; apply string_dec).
  decide equality; apply Z.eq_dec.
Qed.

Lemma marked_visible_before (t t' : list Upload) (r : Upload) :
  Forall2 marked t t' -> In r (filter active t') -> In r (filter active t).
Proof.
  intros H; induction H as [|a a' l l' Ha _ IH]; intros Hin; [exact Hin|].
  cbn [filter] in *.
  destruct Ha as [->|(Hact & t0 & ->)].
  - destruct (active a); [destruct Hin as [<-|Hin]; [now left | right; auto] | auto].
  - cbn [active set_DeletedAt DeletedAt] in Hin. rewrite Hact. right; auto.
Qed.

(** X12. A sweep and the listing after it agree. On a table with its primary
    key in order, when the sweep returns its list and the following
    [GetUploads] goes through, the uploads listed are exactly those that
    were visible before the sweep and are not in the list the sweep
    returned. *)
Theorem sweep_then_list (E : Env) (s : State) (deleted : list Upload) :
  pk_ok s = true ->
  fst (RunDatabaseGarbageCollection E s) = (Some deleted, None) ->
  dbFault E (dbCalls (snd (RunDatabaseGarbageCollection E s))) = false ->
  exists listed,
    fst (GetUploads E (snd (RunDatabaseGarbageCollection E s))) = (Some listed, None)
    /\ forall r, In r listed <-> (In r (activeRows s) /\ ~ In r deleted).
Proof.
  intros Hpk Hres Hok.
  destruct (queries_return_matching_visible_rows E _ "" "" Hok) as [Hl _].
  eexists. split; [exact Hl|].
  destruct (sweep_returns_what_it_deletes E s deleted Hpk Hres) as [_ Hiff].
  destruct (sweeps_only_mark_rows E s) as [[Hm _] _].
  intros r. split.
  - intros Hr. split.
    + eapply marked_visible_before; eassumption.
    + intros Hd. apply Hiff in Hd as [_ Hn]. contradiction.
  - intros [Hin Hnd].
    destruct (in_dec Upload_eq_dec r
                (activeRows (snd (RunDatabaseGarbageCollection E s)))) as [Hy|Hn];
      [exact Hy|].
    exfalso. apply Hnd. apply Hiff. now split.
Qed.

Lemma sweep_then_list_witness :
  exists listed,
    fst (GetUploads (Examples.calm (Examples.noon 2018 7 16))
           (snd (RunDatabaseGarbageCollection (Examples.calm (Examples.noon 2018 7 16))
                   Examples.twoPins))) = (Some listed, None)
    /\ forall r, In r listed <->
                 (In r (activeRows Examples.twoPins) /\ ~ In r [Examples.qm123]).
Proof.
  apply (sweep_then_list (Examples.calm (Examples.noon 2018 7 16)) Examples.twoPins
           [Examples.qm123]).
  - reflexivity.
  - vm_compute; reflexivity.
  - reflexivity.
Defined.

(** * Properties of the cluster routes and the other private-network routes *)

Ltac unfold_routes :=
  unfold Routes.syncClusterErrorsLocally, Routes.removePinFromCluster,
    Routes.getLocalStatusForClusterPin, Routes.getGlobalStatusForClusterPin,
    Routes.fetchLocalClusterStatus,
    Routes.getFileSizeInBytesForObjectForHostedIPFSNetwork,
    Routes.ipfsPubSubPublishToHostedIPFSNetwork,
    Routes.getLocalPinsForHostedIPFSNetwork,
    Routes.getObjectStatForIpfsForHostedIPFSNetwork,
    Routes.checkLocalNodeForPinForHostedIPFSNetwork,
    Routes.getIPFSPrivateNetworkByName, Routes.getAuthorizedPrivateNetworks,
    Routes.publishDetailedIPNSToHostedIPFSNetwork,
    Routes.downloadContentHashForPrivateNetwork, Routes.makeBucket,
    Routes.createHostedIPFSNetworkEntryInDatabase, Routes.pinHash,
    Routes.requireAdmin, Routes.requirePostForm, Routes.checkAccess,
    Routes.call_, Routes.call, Routes.orLogAndFail, Routes.orFail,
    Routes.emit, Routes.bail, Routes.hret, Routes.hbind.

Ltac run_route tac :=
  unfold_routes;
  repeat (cbn; rewrite ?String.eqb_refl; try (tac; fail); split_on_call).

(** X13. The administrator's routes (the five cluster routes, the local pin
    listing and pin check, network creation, network lookup and bucket
    creation) answer any other caller with "not authorized" and do nothing
    else: no form field is read into a call, nothing is called, nothing is
    logged. *)
Theorem admin_routes_refuse_others (B : Routes.Backend) (c : Routes.Context)
    (h : Routes.Backend -> Routes.Context -> Routes.H unit) :
  In h adminRoutes ->
  Routes.GetAuthenticatedUserFromContext c <> Routes.AdminAddress B ->
  exists message, h B c = ([Routes.EvFailNotAuthorized message], None).
Proof.
  intros Hh Hneq. apply String.eqb_neq in Hneq.
  repeat (destruct Hh as [<-|Hh]; [unfold_routes; rewrite Hneq; eexists; reflexivity|]).
  destruct Hh.
Qed.

Lemma admin_routes_refuse_others_witness :
  exists message,
    Routes.removePinFromCluster RouteExamples.backend
      (RouteExamples.request "alice" [] [] "QmA")
    = ([Routes.EvFailNotAuthorized message], None).
Proof.
  apply (admin_routes_refuse_others RouteExamples.backend
           (RouteExamples.request "alice" [] [] "QmA") Routes.removePinFromCluster).
  - right; left; reflexivity.
  - discriminate.
Defined.

Lemma gatedCalls_sound (user net : string) (tr pre post : list Routes.Event)
    (e : Routes.Event) :
  gatedCalls user net tr = true -> tr = (pre ++ e :: post)%list -> isCall e = true ->
  In (Routes.EvCheckAccess user net None) pre.
Proof.
  revert tr; induction pre as [|a pre IH]; intros tr Hg -> He.
  - cbn [app] in Hg. destruct e; cbn in He; try discriminate;
      cbn in Hg; discriminate.
  - cbn [app] in Hg.
    assert (Hop : In e (pre ++ e :: post)%list) by
      (apply in_or_app; right; now left).
    destruct a; cbn in Hg; try discriminate;
      try (right; now apply (IH _ Hg eq_refl He)).
    apply andb_prop in Hg as [Hg Hr]. apply andb_prop in Hg as [Hu Hn].
    apply String.eqb_eq in Hu, Hn. subst.
    destruct result as [err|]; [|now left].
    exfalso. rewrite forallb_forall in Hr. specialize (Hr e Hop).
    rewrite He in Hr. discriminate.
Qed.

Lemma networkRoutes_gated (B : Routes.Backend) (c : Routes.Context)
    (h : Routes.Backend -> Routes.Context -> Routes.H unit) :
  In h networkRoutes ->
  match Routes.GetPostForm c "network_name" with
  | Some net => gatedCalls (Routes.GetAuthenticatedUserFromContext c) net
                  (fst (h B c)) = true
  | None => forallb (fun e => negb (isCall e)) (fst (h B c)) = true
  end.
Proof.
  intros Hh.
  repeat (destruct Hh as [<-|Hh]; [run_route reflexivity|]).
  destruct Hh.
Qed.

Lemma networkRoutes_refused (B : Routes.Backend) (c : Routes.Context)
    (net : string) (refusal : Routes.err)
    (h : Routes.Backend -> Routes.Context -> Routes.H unit) :
  In h networkRoutes ->
  Routes.GetPostForm c "network_name" = Some net ->
  Routes.CheckAccessForPrivateNetwork B (Routes.GetAuthenticatedUserFromContext c) net
    = Some refusal ->
  forallb (fun e => negb (isCall e)) (fst (h B c)) = true.
Proof.
  intros Hh Hnet Hacc.
  repeat (destruct Hh as [<-|Hh];
          [unfold_routes; rewrite ?Hnet; cbn; rewrite ?Hacc; cbn; try reflexivity;
           split_on_call; cbn; rewrite ?Hnet; cbn; rewrite ?Hacc; reflexivity|]).
  destruct Hh.
Qed.

(** X14. In the other routes that act for a posted private network (object
    size, pub-sub publish, local pin listing, object stat, local pin check,
    IPNS publication, content download), every call on the database, the
    ipfs node or the queue comes after an access check of the caller for
    that network that let the caller through; and when the check refuses,
    the run makes no such call at all. *)
Theorem network_routes_check_access_first (B : Routes.Backend) (c : Routes.Context)
    (h : Routes.Backend -> Routes.Context -> Routes.H unit) :
  In h networkRoutes ->
  (forall pre e post,
      fst (h B c) = (pre ++ e :: post)%list -> isCall e = true ->
      exists net,
        Routes.GetPostForm c "network_name" = Some net
        /\ In (Routes.EvCheckAccess (Routes.GetAuthenticatedUserFromContext c) net None)
              pre)
  /\ (forall net refusal,
      Routes.GetPostForm c "network_name" = Some net ->
      Routes.CheckAccessForPrivateNetwork B
        (Routes.GetAuthenticatedUserFromContext c) net = Some refusal ->
      forall e, In e (fst (h B c)) -> isCall e = false).
Proof.
  intros Hh. split.
  - intros pre e post Htr He.
    pose proof (networkRoutes_gated B c h Hh) as Hg.
    destruct (Routes.GetPostForm c "network_name") as [net|].
    + exists net. split; [reflexivity|]. eapply gatedCalls_sound; eassumption.
    + exfalso. rewrite forallb_forall in Hg.
      assert (Hin : In e (fst (h B c)))
        by (rewrite Htr; apply in_or_app; right; now left).
      specialize (Hg e Hin). rewrite He in Hg. discriminate.
  - intros net refusal Hnet Hacc e Hin.
    pose proof (networkRoutes_refused B c net refusal h Hh Hnet Hacc) as Hq.
    rewrite forallb_forall in Hq.
    specialize (Hq e Hin). now apply negb_true_iff in Hq.
Qed.

Lemma network_routes_check_access_first_witness :
  Forall (fun e => isCall e = false)
    (fst (Routes.ipfsPubSubPublishToHostedIPFSNetwork RouteExamples.backend
            (RouteExamples.request "mallory"
               [("network_name", "acme"); ("message", "hi")] [] "topic"))).
Proof.
  apply Forall_forall.
  apply (proj2 (network_routes_check_access_first RouteExamples.backend
                  (RouteExamples.request "mallory"
                     [("network_name", "acme"); ("message", "hi")] [] "topic")
                  Routes.ipfsPubSubPublishToHostedIPFSNetwork
                  (or_intror (or_introl eq_refl)))
           "acme" (Routes.Msg "access denied")); reflexivity.
Defined.

(** X15. In each of these fifteen routes (the five cluster routes, object
    size, pub-sub publish, local pins, object stat, pin check, network
    lookup, authorized networks, IPNS publication, content download, bucket
    creation), a call that fails ends the run: it is followed by the log
    entry of that error and its report to the caller, and by nothing else;
    in particular no response is sent and no further call is made.
    [pinHash], which goes on after a failed pin, is not one of them. *)
Theorem routes_stop_at_failed_call (B : Routes.Backend) (c : Routes.Context)
    (h : Routes.Backend -> Routes.Context -> Routes.H unit) :
  In h straightRoutes ->
  forall pre call e post,
    fst (h B c) = (pre ++ Routes.EvCall call (Some e) :: post)%list ->
    exists message, post = [Routes.EvLogError e message; Routes.EvFailOnError e].
Proof.
  intros Hh.
  assert (Hfs : failStop (fst (h B c))).
  { repeat (destruct Hh as [<-|Hh]; [run_route ltac:(first [exact I | eexists; reflexivity])|]).
    destruct Hh. }
  clear Hh. intros pre. revert Hfs. generalize (fst (h B c)) as tr.
  induction pre as [|a pre IH]; intros tr Hfs call e post ->.
  - exact Hfs.
  - cbn [app] in Hfs.
    destruct a as [? ? ?|cl fl|? ?|?|?|?|?|?|? ?|? ? ? ? ?|? ?];
      try exact (IH (pre ++ Routes.EvCall call (Some e) :: post)%list Hfs call e post eq_refl).
    destruct fl as [e0|]; [|exact (IH (pre ++ Routes.EvCall call (Some e) :: post)%list Hfs call e post eq_refl)].
    destruct Hfs as [m Hm].
    destruct pre as [|x [|y [|z pre]]]; cbn in Hm; try discriminate;
      injection Hm; intros; subst; discriminate.
Qed.

Lemma routes_stop_at_failed_call_witness :
  exists message,
    [Routes.EvLogError (Routes.Msg "pin failed") Routes.IPFSClusterPinRemovalError;
     Routes.EvFailOnError (Routes.Msg "pin failed")]
    = [Routes.EvLogError (Routes.Msg "pin failed") message;
       Routes.EvFailOnError (Routes.Msg "pin failed")].
Proof.
  apply (routes_stop_at_failed_call RouteExamples.backend
           (RouteExamples.request "admin" [] [] "QmGone")
           Routes.removePinFromCluster (or_intror (or_introl eq_refl))
           [Routes.EvCall Routes.ClusterInitialize None]
           (Routes.ClusterRemovePinFromCluster "QmGone") (Routes.Msg "pin failed")).
  reflexivity.
Defined.

(** X16. The cluster routes that take a content identifier (pin removal,
    local status, global status) decode it before they connect: for the
    administrator with an identifier that does not decode, each reports the
    decoder's error, unlogged, and makes no call on the cluster. *)
Theorem cluster_routes_decode_before_connecting (B : Routes.Backend)
    (c : Routes.Context) (invalid : Routes.err) :
  Routes.GetAuthenticatedUserFromContext c = Routes.AdminAddress B ->
  Routes.gocid_Decode B (Routes.Param c "hash") = Some invalid ->
  Routes.removePinFromCluster B c = ([Routes.EvFailOnError invalid], None)
  /\ Routes.getLocalStatusForClusterPin B c = ([Routes.EvFailOnError invalid], None)
  /\ Routes.getGlobalStatusForClusterPin B c = ([Routes.EvFailOnError invalid], None).
Proof.
  intros Hadmin Hbad. unfold_routes.
  rewrite Hadmin, String.eqb_refl, Hbad. repeat split.
Qed.

Lemma cluster_routes_decode_before_connecting_witness :
  Routes.removePinFromCluster RouteExamples.backend
    (RouteExamples.request "admin" [] [] "not-a-cid")
    = ([Routes.EvFailOnError (Routes.Msg "invalid cid")], None)
  /\ Routes.getLocalStatusForClusterPin RouteExamples.backend
       (RouteExamples.request "admin" [] [] "not-a-cid")
     = ([Routes.EvFailOnError (Routes.Msg "invalid cid")], None)
  /\ Routes.getGlobalStatusForClusterPin RouteExamples.backend
       (RouteExamples.request "admin" [] [] "not-a-cid")
     = ([Routes.EvFailOnError (Routes.Msg "invalid cid")], None).
Proof.
  apply (cluster_routes_decode_before_connecting RouteExamples.backend
           (RouteExamples.request "admin" [] [] "not-a-cid")); reflexivity.
Defined.

Lemma collectStatuses_spec (maps : list (string * string)) (cids statuses : list string) :
  Routes.collectStatuses maps cids statuses
  = ((cids ++ map fst maps)%list, (statuses ++ map snd maps)%list).
Proof.
  revert cids statuses; induction maps as [|[k v] maps IH]; intros cids statuses.
  - cbn. now rewrite !app_nil_r.
  - cbn [Routes.collectStatuses map fst snd]. rewrite IH, <- !app_assoc. reflexivity.
Qed.

(** X17. [fetchLocalClusterStatus] answers with two lists that go together:
    when the cluster answers, the identifiers and the statuses it returns
    have the same length, and putting them side by side gives back the
    entries the cluster reported, in the order they were visited. *)
Theorem fetchLocalClusterStatus_lists_aligned (B : Routes.Backend) (c : Routes.Context)
    (maps : list (string * string)) :
  Routes.GetAuthenticatedUserFromContext c = Routes.AdminAddress B ->
  Routes.cluster_Initialize B = None ->
  Routes.FetchLocalStatus B = (maps, None) ->
  exists cids statuses,
    Routes.fetchLocalClusterStatus B c
    = ([Routes.EvCall Routes.ClusterInitialize None;
        Routes.EvCall Routes.ClusterFetchLocalStatus None;
        Routes.EvLogInfo "local cluster state fetched";
        Routes.EvRespond 200 (Routes.BCidsStatuses cids statuses)], Some tt)
    /\ List.length cids = List.length statuses
    /\ combine cids statuses = maps.
Proof.
  intros Hadmin Hinit Hfetch.
  exists (map fst maps), (map snd maps). split; [|split].
  - unfold_routes. rewrite Hadmin, String.eqb_refl, Hinit, Hfetch.
    cbn. rewrite collectStatuses_spec. reflexivity.
  - now rewrite !length_map.
  - induction maps as [|[k v] maps IH] in |- *; [reflexivity|].
    cbn. f_equal. exact IH.
Qed.

Lemma fetchLocalClusterStatus_lists_aligned_witness :
  exists cids statuses,
    Routes.fetchLocalClusterStatus RouteExamples.backend
      (RouteExamples.request "admin" [] [] "")
    = ([Routes.EvCall Routes.ClusterInitialize None;
        Routes.EvCall Routes.ClusterFetchLocalStatus None;
        Routes.EvLogInfo "local cluster state fetched";
        Routes.EvRespond 200 (Routes.BCidsStatuses cids statuses)], Some tt)
    /\ List.length cids = List.length statuses
    /\ combine cids statuses = [("QmA", "pinned"); ("QmB", "pin_error")].
Proof.
  apply (fetchLocalClusterStatus_lists_aligned RouteExamples.backend
           (RouteExamples.request "admin" [] [] "")); reflexivity.
Defined.

(** X18. [pinHash] never returns early: it always ends by writing a 200
    response carrying the hash. When the pin fails it has written a 404
    just before, so the failure is answered with both. *)
Theorem pinHash_always_answers_200 (B : Routes.Backend) (c : Routes.Context) :
  snd (Routes.pinHash B c) = Some tt
  /\ exists before,
       fst (Routes.pinHash B c)
       = (before ++ [Routes.EvJSON 200 (Routes.BHash (Routes.Param c "hash"))])%list
       /\ (forall e, Routes.Shell_Pin B (Routes.Param c "hash") = Some e ->
           In (Routes.EvJSON 404 Routes.BNil) before).
Proof.
  unfold_routes. destruct (Routes.Shell_Pin B (Routes.Param c "hash")) as [e|] eqn:Hpin.
  - split; [reflexivity|]. eexists [_; _]. split; [reflexivity|].
    intros _ _. right; now left.
  - split; [reflexivity|]. eexists [_]. split; [reflexivity|]. discriminate.
Qed.

Lemma pinHash_always_answers_200_witness :
  In (Routes.EvJSON 404 Routes.BNil)
     [Routes.EvCall (Routes.IpfsPin "QmGone") (Some (Routes.Msg "pin failed"));
      Routes.EvJSON 404 Routes.BNil].
Proof.
  destruct (pinHash_always_answers_200 RouteExamples.backend
              (RouteExamples.request "anyone" [] [] "QmGone"))
    as (_ & before & Htr & H404).
  assert (Hb : before = [Routes.EvCall (Routes.IpfsPin "QmGone")
                           (Some (Routes.Msg "pin failed"));
                         Routes.EvJSON 404 Routes.BNil]).
  { apply (app_inv_tail [Routes.EvJSON 200 (Routes.BHash "QmGone")]).
    symmetry. exact Htr. }
  rewrite <- Hb. exact (H404 (Routes.Msg "pin failed") eq_refl).
Defined.

(** ** The extra headers of a download *)

Lemma headerLoop_spec (fuel : nat) (done rest : list string)
    (m : list (string * string)) :
  Nat.even (List.length rest) = true -> (List.length rest <= 2 * fuel)%nat ->
  Routes.headerLoop fuel (done ++ rest) (List.length done + 1) m
  = assignAll (pairUp (firstn (List.length rest - 2) rest)) m.
Proof.
  revert done rest m; induction fuel as [|fuel IH]; intros done rest m Hev Hlen.
  - destruct rest; [reflexivity | cbn in Hlen; lia].
  - cbn [Routes.headerLoop]. rewrite length_app.
    destruct rest as [|a [|b rest]].
    + cbn [List.length]. destruct (Nat.ltb_spec (List.length done + 1)
                                     (List.length done + 0 - 1)); [lia | reflexivity].
    + discriminate Hev.
    + cbn [List.length] in *.
      destruct rest as [|x [|y rest]].
      * cbn [List.length].
        destruct (Nat.ltb_spec (List.length done + 1) (List.length done + 2 - 1));
          [lia | reflexivity].
      * discriminate Hev.
      * cbn [List.length] in *.
        destruct (Nat.ltb_spec (List.length done + 1)
                    (List.length done + S (S (S (S (List.length rest)))) - 1));
          [|lia].
        replace (List.length done + 1 - 1)%nat with (List.length done) by lia.
        rewrite app_nth2 by lia. rewrite Nat.sub_diag. cbn [nth].
        rewrite app_nth2 by lia.
        replace (List.length done + 1 - List.length done)%nat with 1%nat by lia.
        cbn [nth].
        replace (done ++ a :: b :: x :: y :: rest)%list
          with ((done ++ [a; b]) ++ x :: y :: rest)%list
          by (now rewrite <- app_assoc).
        replace (List.length done + 1 + 2)%nat
          with (List.length (done ++ [a; b]) + 1)%nat
          by (rewrite length_app; cbn; lia).
        rewrite IH; [|exact Hev | cbn [List.length]; lia].
        replace (S (S (S (S (List.length rest)))) - 2)%nat
          with (S (S (List.length (x :: y :: rest) - 2)))
          by (cbn [List.length]; lia).
        reflexivity.
Qed.

Lemma even_mod2 (n : nat) : (n mod 2 =? 0)%nat = Nat.even n.
Proof.
  destruct (Nat.even n) eqn:Hev.
  - apply Nat.even_spec in Hev as [k ->]. apply Nat.eqb_eq.
    rewrite Nat.mul_comm. apply Nat.Div0.mod_mul.
  - assert (Hodd : Nat.odd n = true) by (now rewrite <- Nat.negb_even, Hev).
    apply Nat.odd_spec in Hodd as [k ->]. apply Nat.eqb_neq.
    rewrite Nat.add_comm, Nat.mul_comm, Nat.Div0.mod_add. cbn. discriminate.
Qed.

(** X19. How a download reads its [extra_headers]. An odd number of entries
    is refused with "not even in length". With an even number, 2n, the
    entries are taken two by two as header name and value, but only the
    first n-1 pairs: the loop stops one pair short, so the last pair posted
    is never sent, and a single pair gives no extra header at all. *)
Theorem extra_headers_drop_last_pair (exHeaders : list string) :
  (Nat.even (List.length exHeaders) = false ->
   Routes.parseExtraHeaders exHeaders
   = ([], Some (Routes.Msg "extra_headers post form is not even in length")))
  /\ (Nat.even (List.length exHeaders) = true ->
      Routes.parseExtraHeaders exHeaders
      = (assignAll (pairUp (firstn (List.length exHeaders - 2) exHeaders)) [], None)).
Proof.
  unfold Routes.parseExtraHeaders. rewrite even_mod2. split; intros Hev; rewrite Hev.
  - destruct exHeaders as [|a l]; [discriminate | reflexivity].
  - destruct exHeaders as [|a l]; [reflexivity|].
    cbn [Nat.ltb Nat.leb List.length negb]. f_equal.
    apply (headerLoop_spec (List.length (a :: l)) [] (a :: l) [] Hev). lia.
Qed.

Lemma extra_headers_drop_last_pair_witness :
  Routes.parseExtraHeaders ["X-A"; "1"; "X-B"; "2"] = ([("X-A", "1")], None)
  /\ Routes.parseExtraHeaders ["X-A"; "1"] = ([], None)
  /\ Routes.parseExtraHeaders ["X-A"; "1"; "X-B"]
     = ([], Some (Routes.Msg "extra_headers post form is not even in length")).
Proof.
  split; [|split].
  - exact (proj2 (extra_headers_drop_last_pair ["X-A"; "1"; "X-B"; "2"]) eq_refl).
  - exact (proj2 (extra_headers_drop_last_pair ["X-A"; "1"]) eq_refl).
  - exact (proj1 (extra_headers_drop_last_pair ["X-A"; "1"; "X-B"]) eq_refl).
Defined.

(** ** IPNS publication *)

(** X20. An IPNS entry reaches the queue only for a caller who passed the
    access check of the posted network, posted an identifier that decodes,
    and owns the posted key according to the user database; the entry
    published carries that network, that caller, that identifier and that
    key. *)
Theorem ipns_entry_published_only_for_owned_key (B : Routes.Backend)
    (c : Routes.Context) (entry : Routes.IPNSEntry) (failed : option Routes.err) :
  In (Routes.EvCall (Routes.QueuePublishMessage entry) failed)
     (fst (Routes.publishDetailedIPNSToHostedIPFSNetwork B c)) ->
  Routes.GetPostForm c "network_name" = Some (Routes.EntryNetworkName entry)
  /\ Routes.EntryUserName entry = Routes.GetAuthenticatedUserFromContext c
  /\ Routes.CheckAccessForPrivateNetwork B (Routes.GetAuthenticatedUserFromContext c)
       (Routes.EntryNetworkName entry) = None
  /\ Routes.GetPostForm c "hash" = Some (Routes.CID entry)
  /\ Routes.gocid_Decode B (Routes.CID entry) = None
  /\ Routes.GetPostForm c "key" = Some (Routes.Key entry)
  /\ Routes.CheckIfKeyOwnedByUser B (Routes.GetAuthenticatedUserFromContext c)
       (Routes.Key entry) = (true, None).
Proof.
  unfold_routes.
  repeat (cbn;
          try (intros Hin;
               repeat (destruct Hin as [Hin|Hin]; try discriminate);
               first [ now destruct Hin
                     | injection Hin as <- <-; cbn; repeat split; try congruence;
                       destruct (Routes.CheckIfKeyOwnedByUser _ _ _) as [[] ?];
                       cbn in *; congruence ];
               fail);
          split_on_call).
Qed.

Lemma ipns_entry_published_only_for_owned_key_witness :
  Routes.CheckIfKeyOwnedByUser RouteExamples.backend "alice" "alice-key" = (true, None)
  /\ Routes.CheckAccessForPrivateNetwork RouteExamples.backend "alice" "acme" = None.
Proof.
  pose proof (ipns_entry_published_only_for_owned_key RouteExamples.backend
                (RouteExamples.request "alice"
                   [("network_name", "acme"); ("hash", "QmA"); ("life_time", "1h");
                    ("ttl", "1h"); ("key", "alice-key"); ("resolve", "true")] [] "")
                (Routes.mkIPNSEntry "QmA" 3600000000000 3600000000000 "alice-key"
                   true "acme" "alice")
                None) as H.
  destruct H as (_ & _ & Hacc & _ & _ & _ & Hown).
  - vm_compute. intuition.
  - split; [exact Hown | exact Hacc].
Defined.

(** ** Creating a private network *)

Lemma validatePeers_makes_no_call (B : Routes.Backend) (nodes : list string)
    (rem : list string) (k : nat) (loc boot : list string) :
  forallb (fun e => negb (isCall e))
    (fst (Routes.validatePeers B nodes k rem loc boot)) = true.
Proof.
  revert k loc boot; induction rem as [|v rem IH]; intros k loc boot; [reflexivity|].
  cbn [Routes.validatePeers]. unfold Routes.orFail, Routes.bail, Routes.hret, Routes.hbind.
  destruct (Routes.GenerateMultiAddrFromString B v) as [addr [e|]]; [reflexivity|].
  destruct (Routes.ParseMultiAddrForIPFSPeer B addr) as [valid [e|]]; [reflexivity|].
  destruct valid; [|reflexivity]. cbn [negb].
  destruct (Routes.GenerateMultiAddrFromString B (nth k nodes "")) as [addr' [e|]];
    [reflexivity|].
  destruct (Routes.ParseMultiAddrForIPFSPeer B addr') as [valid' [e|]]; [reflexivity|].
  destruct valid'; [|reflexivity]. cbn [negb].
  specialize (IH (S k) (loc ++ [nth k nodes ""])%list (boot ++ [v])%list).
  destruct (Routes.validatePeers B nodes (S k) rem _ _) as [tr r]. exact IH.
Qed.

(** When the loop lets every pair through, it has written nothing and hands
    back the two posted lists, whole and in order; and it lets a pair
    through only if both addresses are valid. *)
Lemma validatePeers_passed (B : Routes.Backend) (done rest rem loc boot : list string)
    (tr : list Routes.Event) (l b : list string) :
  List.length rest = List.length rem ->
  Routes.validatePeers B (done ++ rest) (List.length done) rem loc boot
    = (tr, Some (l, b)) ->
  tr = [] /\ l = (loc ++ rest)%list /\ b = (boot ++ rem)%list
  /\ Forall (validPeer B) rem /\ Forall (validPeer B) rest.
Proof.
  revert done rest loc boot tr; induction rem as [|v rem IH];
    intros done rest loc boot tr Hlen H.
  - destruct rest; [|discriminate]. cbn in H. injection H as <- <- <-.
    rewrite !app_nil_r. repeat split; constructor.
  - destruct rest as [|a rest]; [discriminate|]. injection Hlen as Hlen.
    cbn [Routes.validatePeers] in H.
    unfold Routes.orFail, Routes.bail, Routes.hret, Routes.hbind in H.
    rewrite app_nth2, Nat.sub_diag in H by lia. cbn [nth] in H.
    destruct (Routes.GenerateMultiAddrFromString B v) as [addr [e|]] eqn:Hg1;
      [discriminate|].
    destruct (Routes.ParseMultiAddrForIPFSPeer B addr) as [valid [e|]] eqn:Hp1;
      [discriminate|].
    destruct valid; [|discriminate]. cbn [negb] in H.
    destruct (Routes.GenerateMultiAddrFromString B a) as [addr' [e|]] eqn:Hg2;
      [discriminate|].
    destruct (Routes.ParseMultiAddrForIPFSPeer B addr') as [valid' [e|]] eqn:Hp2;
      [discriminate|].
    destruct valid'; [|discriminate]. cbn [negb] in H.
    replace (done ++ a :: rest)%list with ((done ++ [a]) ++ rest)%list in H
      by (now rewrite <- app_assoc).
    replace (S (List.length done)) with (List.length (done ++ [a])) in H
      by (rewrite length_app; cbn; lia).
    destruct (Routes.validatePeers B ((done ++ [a]) ++ rest) _ rem _ _)
      as [tr' r'] eqn:Hrec.
    destruct r' as [[l' b']|]; [|discriminate].
    cbn in H. injection H as <- <- <-.
    destruct (IH _ _ _ _ _ Hlen Hrec) as (-> & -> & -> & Hrem & Hrest).
    rewrite <- !app_assoc. repeat split; auto.
    + constructor; [exists addr; auto | assumption].
    + constructor; [exists addr'; auto | assumption].
Qed.

Lemma validatePeers_passes (B : Routes.Backend) (done rest rem loc boot : list string) :
  List.length rest = List.length rem ->
  Forall (validPeer B) rem -> Forall (validPeer B) rest ->
  Routes.validatePeers B (done ++ rest) (List.length done) rem loc boot
  = ([], Some ((loc ++ rest)%list, (boot ++ rem)%list)).
Proof.
  revert done rest loc boot; induction rem as [|v rem IH];
    intros done rest loc boot Hlen Hrem Hrest.
  - destruct rest; [|discriminate]. cbn. now rewrite !app_nil_r.
  - destruct rest as [|a rest]; [discriminate|]. injection Hlen as Hlen.
    inversion Hrem as [|? ? (addr & Hg1 & Hp1) Hrem']; subst.
    inversion Hrest as [|? ? (addr' & Hg2 & Hp2) Hrest']; subst.
    cbn [Routes.validatePeers].
    unfold Routes.orFail, Routes.bail, Routes.hret, Routes.hbind.
    rewrite app_nth2, Nat.sub_diag by lia. cbn [nth].
    rewrite Hg1, Hp1, Hg2, Hp2. cbn [negb].
    replace (done ++ a :: rest)%list with ((done ++ [a]) ++ rest)%list
      by (now rewrite <- app_assoc).
    replace (S (List.length done)) with (List.length (done ++ [a]))
      by (rewrite length_app; cbn; lia).
    rewrite IH by assumption. cbn. now rewrite <- !app_assoc.
Qed.

Lemma addUsers_makes_no_create (B : Routes.Backend) (net : string) (users : list string) :
  forallb (fun e => negb (isCreate e)) (fst (Routes.addUsers B net users)) = true.
Proof.
  induction users as [|v users IH]; [reflexivity|].
  cbn [Routes.addUsers].
  unfold Routes.call_, Routes.call, Routes.orLogAndFail, Routes.emit, Routes.bail,
    Routes.hret, Routes.hbind. cbn.
  destruct (Routes.AddIPFSNetworkForUser B v net); [reflexivity|]. cbn.
  destruct (Routes.addUsers B net users) as [tr r]. exact IH.
Qed.

Lemma addUsers_granted (B : Routes.Backend) (net : string) (users : list string) :
  (forall v, In v users -> Routes.AddIPFSNetworkForUser B v net = None) ->
  Routes.addUsers B net users
  = (map (fun v => Routes.EvCall (Routes.DbAddIPFSNetworkForUser v net) None) users,
     Some tt).
Proof.
  induction users as [|v users IH]; intros Hok; [reflexivity|].
  cbn [Routes.addUsers map].
  unfold Routes.call_, Routes.call, Routes.orLogAndFail, Routes.emit, Routes.bail,
    Routes.hret, Routes.hbind. cbn.
  rewrite (Hok v (or_introl eq_refl)). cbn.
  rewrite IH by (intros x Hx; apply Hok; now right). reflexivity.
Qed.

(** X21. [createHostedIPFSNetworkEntryInDatabase] asks the database to create
    a network only for the administrator, only when the two posted address
    lists have the same length, and only after every bootstrap peer and
    every node address has been parsed and found valid. The creation is
    asked with the posted node addresses, whole and in order, under
    [local_node_peer_addresses], the posted bootstrap peers under
    [bootstrap_peer_addresses], that key being left out when there is none,
    and the posted users. *)
Theorem network_created_only_after_validation (B : Routes.Backend)
    (c : Routes.Context) (name apiURL swarmKey : string)
    (args : list (string * list string)) (users : list string)
    (failed : option Routes.err) :
  In (Routes.EvCall
        (Routes.DbCreateHostedPrivateNetwork name apiURL swarmKey args users) failed)
     (fst (Routes.createHostedIPFSNetworkEntryInDatabase B c)) ->
  Routes.GetAuthenticatedUserFromContext c = Routes.AdminAddress B
  /\ Routes.GetPostForm c "network_name" = Some name
  /\ users = Routes.PostFormArray c "users"
  /\ exists bPeers nodeAddresses,
       Routes.GetPostFormArray c "bootstrap_peers" = Some bPeers
       /\ Routes.GetPostFormArray c "local_node_addresses" = Some nodeAddresses
       /\ List.length nodeAddresses = List.length bPeers
       /\ Forall (validPeer B) bPeers /\ Forall (validPeer B) nodeAddresses
       /\ Routes.mapGet "local_node_peer_addresses" args = Some nodeAddresses
       /\ Routes.mapGet "bootstrap_peer_addresses" args
          = match bPeers with [] => None | _ => Some bPeers end.
Proof.
  unfold Routes.createHostedIPFSNetworkEntryInDatabase, Routes.requireAdmin,
    Routes.requirePostForm, Routes.call_, Routes.call, Routes.orLogAndFail,
    Routes.emit, Routes.bail, Routes.hret, Routes.hbind.
  destruct (String.eqb _ (Routes.AdminAddress B)) eqn:Hadmin;
    [|cbn; intros [H|[]]; discriminate].
  apply String.eqb_eq in Hadmin. cbn [negb fst snd app].
  destruct (Routes.GetPostForm c "network_name") as [net|];
    [|cbn; intros [H|[]]; discriminate].
  destruct (Routes.GetPostForm c "api_url") as [url|];
    [|cbn; intros [H|[]]; discriminate].
  destruct (Routes.GetPostForm c "swarm_key") as [key|];
    [|cbn; intros [H|[]]; discriminate].
  destruct (Routes.GetPostFormArray c "bootstrap_peers") as [bPeers|] eqn:Hb;
    [|cbn; intros [H|[]]; discriminate].
  destruct (Routes.GetPostFormArray c "local_node_addresses") as [nodes|] eqn:Hn;
    [|cbn; intros [H|[]]; discriminate].
  cbn [negb fst snd app].
  destruct (Nat.eqb (List.length nodes) (List.length bPeers)) eqn:Hlen;
    [|cbn; intros [H|[]]; discriminate].
  apply Nat.eqb_eq in Hlen.
  pose proof (validatePeers_makes_no_call B nodes bPeers 0 [] []) as Hquiet.
  pose proof (validatePeers_passed B [] nodes bPeers [] []) as Hpass.
  cbn [app List.length] in Hpass.
  cbn [negb fst snd app].
  destruct (Routes.validatePeers B nodes 0 bPeers [] []) as [trv [[l b]|]].
  2:{ cbn. intros Hin. rewrite forallb_forall in Hquiet.
      specialize (Hquiet _ Hin). discriminate. }
  destruct (Hpass trv l b Hlen eq_refl) as (-> & -> & -> & Hvb & Hvn).
  cbn [app].
  set (args0 := if (0 <? List.length bPeers)%nat
                then Routes.mapSet "bootstrap_peer_addresses" bPeers
                       (Routes.mapSet "local_node_peer_addresses" nodes [])
                else Routes.mapSet "local_node_peer_addresses" nodes []).
  assert (Hargs : Routes.mapGet "local_node_peer_addresses" args0 = Some nodes
                  /\ Routes.mapGet "bootstrap_peer_addresses" args0
                     = match bPeers with [] => None | _ => Some bPeers end).
  { subst args0. destruct bPeers; cbn; split; reflexivity. }
  assert (Hgoal : forall ev,
             ev = Routes.EvCall
                    (Routes.DbCreateHostedPrivateNetwork net url key args0
                       (Routes.PostFormArray c "users"))
                    (snd (Routes.CreateHostedPrivateNetwork B net url key args0
                            (Routes.PostFormArray c "users"))) ->
             ev = Routes.EvCall
                    (Routes.DbCreateHostedPrivateNetwork name apiURL swarmKey args users)
                    failed ->
             Routes.GetAuthenticatedUserFromContext c = Routes.AdminAddress B
             /\ Some net = Some name
             /\ users = Routes.PostFormArray c "users"
             /\ exists bPeers0 nodeAddresses,
                  Some bPeers = Some bPeers0 /\ Some nodes = Some nodeAddresses
                  /\ List.length nodeAddresses = List.length bPeers0
                  /\ Forall (validPeer B) bPeers0 /\ Forall (validPeer B) nodeAddresses
                  /\ Routes.mapGet "local_node_peer_addresses" args = Some nodeAddresses
                  /\ Routes.mapGet "bootstrap_peer_addresses" args
                     = match bPeers0 with [] => None | _ => Some bPeers0 end).
  { intros ev -> Heq. injection Heq as <- <- <- <- <- _.
    destruct Hargs as [Ha1 Ha2].
    repeat split; auto. exists bPeers, nodes. repeat split; auto. }
  fold args0.
  destruct (Routes.CreateHostedPrivateNetwork B net url key args0
              (Routes.PostFormArray c "users")) as [network [e|]] eqn:Hcreate;
    cbn [fst snd app] in *.
  - intros [Hin|[Hin|[Hin|[]]]]; try discriminate.
    now apply (Hgoal _ eq_refl).
  - pose proof (addUsers_makes_no_create B net (Routes.PostFormArray c "users"))
      as Hnc.
    intros Hin.
    assert (Hcases :
              Routes.EvCall
                (Routes.DbCreateHostedPrivateNetwork net url key args0
                   (Routes.PostFormArray c "users")) None
              = Routes.EvCall
                  (Routes.DbCreateHostedPrivateNetwork name apiURL swarmKey args users)
                  failed).
    { destruct (0 <? List.length (Routes.PostFormArray c "users"))%nat.
      - destruct (Routes.addUsers B net (Routes.PostFormArray c "users")) as [tra [[]|]];
          cbn in Hin; destruct Hin as [Hin|Hin]; try exact Hin;
          rewrite forallb_forall in Hnc.
        + apply in_app_or in Hin as [Hin|[Hin|[Hin|[]]]]; try discriminate.
          specialize (Hnc _ Hin). discriminate.
        + specialize (Hnc _ Hin). discriminate.
      - cbn in Hin.
        destruct (Routes.AddIPFSNetworkForUser B (Routes.AdminAddress B) net);
          cbn in Hin; repeat (destruct Hin as [Hin|Hin]; try discriminate);
          try exact Hin; destruct Hin. }
    now apply (Hgoal _ eq_refl).
Qed.

Lemma network_created_only_after_validation_witness :
  Forall (validPeer RouteExamples.backend) ["/ip4/10.0.0.1/tcp/4001/ipfs/QmPeer"]
  /\ Forall (validPeer RouteExamples.backend) ["/ip4/10.0.0.2/tcp/4001/ipfs/QmNode"].
Proof.
  pose proof (network_created_only_after_validation RouteExamples.backend
                (RouteExamples.request "admin"
                   [("network_name", "acme"); ("api_url", "http://acme:5001");
                    ("swarm_key", "secret")]
                   [("bootstrap_peers", ["/ip4/10.0.0.1/tcp/4001/ipfs/QmPeer"]);
                    ("local_node_addresses", ["/ip4/10.0.0.2/tcp/4001/ipfs/QmNode"]);
                    ("users", ["alice"])] "")
                "acme" "http://acme:5001" "secret"
                [("local_node_peer_addresses", ["/ip4/10.0.0.2/tcp/4001/ipfs/QmNode"]);
                 ("bootstrap_peer_addresses", ["/ip4/10.0.0.1/tcp/4001/ipfs/QmPeer"])]
                ["alice"] None) as H.
  destruct H as (_ & _ & _ & b & n & Hb & Hn & _ & Hvb & Hvn & _).
  - vm_compute. left. reflexivity.
  - injection Hb as <-. injection Hn as <-. split; assumption.
Defined.

(** X22. When the administrator posts a name, an API URL, a swarm key and two
    address lists of the same length whose entries are all valid peers, and
    the database creates the network and grants every access it is asked
    for, [createHostedIPFSNetworkEntryInDatabase] makes exactly these calls,
    in this order: the creation, then one grant per posted user, or a
    single grant to the administrator when no user was posted; it then
    answers 200 with the network the database returned. *)
Theorem network_creation_grants_users_or_admin (B : Routes.Backend)
    (c : Routes.Context) (name apiURL swarmKey : string)
    (bPeers nodeAddresses : list string) (network : string) :
  let users := Routes.PostFormArray c "users" in
  let args :=
    (("local_node_peer_addresses", nodeAddresses)
     :: match bPeers with [] => [] | _ => [("bootstrap_peer_addresses", bPeers)] end) in
  let grantees := match users with [] => [Routes.AdminAddress B] | _ => users end in
  Routes.GetAuthenticatedUserFromContext c = Routes.AdminAddress B ->
  Routes.GetPostForm c "network_name" = Some name ->
  Routes.GetPostForm c "api_url" = Some apiURL ->
  Routes.GetPostForm c "swarm_key" = Some swarmKey ->
  Routes.GetPostFormArray c "bootstrap_peers" = Some bPeers ->
  Routes.GetPostFormArray c "local_node_addresses" = Some nodeAddresses ->
  List.length nodeAddresses = List.length bPeers ->
  Forall (validPeer B) bPeers -> Forall (validPeer B) nodeAddresses ->
  Routes.CreateHostedPrivateNetwork B name apiURL swarmKey args users
    = (network, None) ->
  (forall v, In v grantees -> Routes.AddIPFSNetworkForUser B v name = None) ->
  Routes.createHostedIPFSNetworkEntryInDatabase B c
  = ((Routes.EvCall
        (Routes.DbCreateHostedPrivateNetwork name apiURL swarmKey args users) None
      :: map (fun v => Routes.EvCall (Routes.DbAddIPFSNetworkForUser v name) None)
           grantees
      ++ [Routes.EvLogInfo "private ipfs network created";
          Routes.EvRespond 200 (Routes.BText network)])%list,
     Some tt).
Proof.
  intros users args grantees Hadmin Hname Hurl Hkey Hb Hn Hlen Hvb Hvn Hcreate Hgrant.
  unfold Routes.createHostedIPFSNetworkEntryInDatabase, Routes.requireAdmin,
    Routes.requirePostForm.
  rewrite Hadmin, String.eqb_refl, Hname, Hurl, Hkey, Hb, Hn.
  unfold Routes.call_, Routes.call, Routes.orLogAndFail, Routes.emit, Routes.bail,
    Routes.hret, Routes.hbind. cbn [negb fst snd app].
  rewrite Hlen, Nat.eqb_refl. cbn [negb fst snd app].
  pose proof (validatePeers_passes B [] nodeAddresses bPeers [] [] Hlen Hvb Hvn)
    as Hpass.
  cbn [app List.length] in Hpass. rewrite Hpass.
  cbn [negb fst snd app].
  assert (Hargs : (if (0 <? List.length bPeers)%nat
                   then Routes.mapSet "bootstrap_peer_addresses" bPeers
                          (Routes.mapSet "local_node_peer_addresses" nodeAddresses [])
                   else Routes.mapSet "local_node_peer_addresses" nodeAddresses [])
                  = args).
  { subst args. destruct bPeers; reflexivity. }
  rewrite Hargs. fold users. rewrite Hcreate. cbn [negb fst snd app].
  subst grantees. destruct users as [|u us] eqn:Husers.
  - cbn [List.length Nat.ltb Nat.leb].
    rewrite (Hgrant (Routes.AdminAddress B) (or_introl eq_refl)). reflexivity.
  - cbn [List.length Nat.ltb Nat.leb].
    rewrite (addUsers_granted B name (u :: us) Hgrant). reflexivity.
Qed.

Lemma network_creation_grants_users_or_admin_witness :
  Routes.createHostedIPFSNetworkEntryInDatabase RouteExamples.backend
    (RouteExamples.request "admin"
       [("network_name", "acme"); ("api_url", "http://acme:5001");
        ("swarm_key", "secret")]
       [("bootstrap_peers", ["/ip4/10.0.0.1/tcp/4001/ipfs/QmPeer"]);
        ("local_node_addresses", ["/ip4/10.0.0.2/tcp/4001/ipfs/QmNode"])] "")
  = ([Routes.EvCall
        (Routes.DbCreateHostedPrivateNetwork "acme" "http://acme:5001" "secret"
           [("local_node_peer_addresses", ["/ip4/10.0.0.2/tcp/4001/ipfs/QmNode"]);
            ("bootstrap_peer_addresses", ["/ip4/10.0.0.1/tcp/4001/ipfs/QmPeer"])]
           []) None;
      Routes.EvCall (Routes.DbAddIPFSNetworkForUser "admin" "acme") None;
      Routes.EvLogInfo "private ipfs network created";
      Routes.EvRespond 200 (Routes.BText "acme")],
     Some tt).
Proof.
  apply (network_creation_grants_users_or_admin RouteExamples.backend
           (RouteExamples.request "admin"
              [("network_name", "acme"); ("api_url", "http://acme:5001");
               ("swarm_key", "secret")]
              [("bootstrap_peers", ["/ip4/10.0.0.1/tcp/4001/ipfs/QmPeer"]);
               ("local_node_addresses", ["/ip4/10.0.0.2/tcp/4001/ipfs/QmNode"])] "")
           "acme" "http://acme:5001" "secret"
           ["/ip4/10.0.0.1/tcp/4001/ipfs/QmPeer"]
           ["/ip4/10.0.0.2/tcp/4001/ipfs/QmNode"] "acme");
    try reflexivity.
  - repeat constructor. eexists; split; reflexivity.
  - repeat constructor. eexists; split; reflexivity.
  - intros v [<-|[]]. reflexivity.
Defined.

(** ** Listing the uploads of a private network *)

Lemma FindUploadsByNetwork_run (E : Env) (s : State) (networkName : string) :
  FindUploadsByNetwork E networkName s
  = (if dbFault E (dbCalls s) then (None, Some ErrDatabase)
     else (Some (filter (fun u => String.eqb (NetworkName u) networkName)
                   (activeRows s)), None),
     tickDb s).
Proof.
  unfold FindUploadsByNetwork, bind. rewrite Find_eq.
  destruct (dbFault E (dbCalls s)); cbn [fst snd Error DB Where ret withError];
    [reflexivity|].
  unfold activeRows, ret. rewrite filter_filter_and. do 3 f_equal. apply filter_ext.
  intros u. unfold selected; cbn. now rewrite andb_true_r.
Qed.

(** X23. [getUploadsByNetworkName] answers only a caller who posted a network
    name and passed the access check for that network, and only when the
    query went through; the answer is then status 200 with the visible rows
    of the ledger stored under that network, all of them, in table order,
    and no others. *)
Theorem network_uploads_answered_after_access (B : Routes.Backend) (E : Env)
    (c : Routes.Context) (s : State) (code : Z) (body : Routes.Body) :
  In (Routes.EvRespond code body) (fst (fst (Routes.getUploadsByNetworkName B E c s))) ->
  exists net,
    Routes.GetPostForm c "network_name" = Some net
    /\ Routes.CheckAccessForPrivateNetwork B
         (Routes.GetAuthenticatedUserFromContext c) net = None
    /\ dbFault E (dbCalls s) = false
    /\ code = 200
    /\ body = Routes.BUploads
                (filter (fun u => String.eqb (NetworkName u) net) (activeRows s)).
Proof.
  unfold Routes.getUploadsByNetworkName, Routes.requirePostForm, Routes.checkAccess,
    Routes.orLogAndFail, Routes.emit, Routes.bail, Routes.hret, Routes.hbind.
  destruct (Routes.GetPostForm c "network_name") as [net|];
    [|cbn; intros [H|[]]; discriminate].
  cbn [fst snd app].
  destruct (Routes.CheckAccessForPrivateNetwork B _ net) as [refusal|] eqn:Hacc;
    [cbn; intros [H|[H|[H|[]]]]; discriminate|].
  cbn [fst snd app].
  rewrite FindUploadsByNetwork_run.
  destruct (dbFault E (dbCalls s)) eqn:Hfault; cbn.
  - intros Hin. repeat (destruct Hin as [Hin|Hin]; try discriminate). destruct Hin.
  - intros Hin. repeat (destruct Hin as [Hin|Hin]; try discriminate); [|destruct Hin].
    injection Hin as <- <-. exists net. repeat split; auto.
Qed.

Lemma network_uploads_answered_after_access_witness :
  Routes.CheckAccessForPrivateNetwork RouteExamples.backend "alice" "public" = None
  /\ Routes.BUploads [Examples.qm123]
     = Routes.BUploads
         (filter (fun u => String.eqb (NetworkName u) "public")
            (activeRows Examples.pinned)).
Proof.
  pose proof (network_uploads_answered_after_access RouteExamples.backend
                (Examples.calm (Examples.noon 2018 6 20))
                (RouteExamples.request "alice" [("network_name", "public")] [] "")
                Examples.pinned 200 (Routes.BUploads [Examples.qm123])) as H.
  destruct H as (net & Hnet & Hacc & _ & _ & Hbody).
  - vm_compute. intuition.
  - injection Hnet as <-. split; [exact Hacc | exact Hbody].
Defined.

(** X24. A request that names no network, or whose caller the access check
    refuses, leaves the ledger exactly as it was, without a single call on
    the uploads table, and gets neither a listing nor any other answer than the
    failure. *)
Theorem network_uploads_refused_reads_nothing (B : Routes.Backend) (E : Env)
    (c : Routes.Context) (s : State) :
  (Routes.GetPostForm c "network_name" = None
   \/ exists net refusal,
        Routes.GetPostForm c "network_name" = Some net
        /\ Routes.CheckAccessForPrivateNetwork B
             (Routes.GetAuthenticatedUserFromContext c) net = Some refusal) ->
  snd (Routes.getUploadsByNetworkName B E c s) = s
  /\ snd (fst (Routes.getUploadsByNetworkName B E c s)) = None
  /\ forall e, In e (fst (fst (Routes.getUploadsByNetworkName B E c s))) ->
               isCall e = false /\ isRespond e = false.
Proof.
  unfold Routes.getUploadsByNetworkName, Routes.requirePostForm, Routes.checkAccess,
    Routes.orLogAndFail, Routes.emit, Routes.bail, Routes.hret, Routes.hbind.
  intros [Hnone|(net & refusal & Hnet & Hacc)].
  - rewrite Hnone. cbn. repeat split; destruct H as [<-|[]]; reflexivity.
  - rewrite Hnet. cbn [fst snd app]. rewrite Hacc. cbn.
    repeat split; destruct H as [<-|[<-|[<-|[]]]]; reflexivity.
Qed.

Lemma network_uploads_refused_reads_nothing_witness :
  snd (Routes.getUploadsByNetworkName RouteExamples.backend
         (Examples.calm (Examples.noon 2018 6 20))
         (RouteExamples.request "mallory" [("network_name", "public")] [] "")
         Examples.pinned)
  = Examples.pinned.
Proof.
  apply (network_uploads_refused_reads_nothing RouteExamples.backend
           (Examples.calm (Examples.noon 2018 6 20))
           (RouteExamples.request "mallory" [("network_name", "public")] [] "")
           Examples.pinned).
  right. exists "public", (Routes.Msg "access denied"). split; reflexivity.
Defined.

(** ** Answers *)

Lemma queueHandlers_answeredOnce (S : Api.Services) (c : Api.Context)
    (h : Api.Services -> Api.Context -> Api.H unit) :
  In h queueHandlers -> answeredOnce (h S c) = true.
Proof.
  intros Hh. unfold answeredOnce.
  repeat (destruct Hh as [<-|Hh]; [run_handler|]).
  destruct Hh.
Qed.

Lemma queueHandlers_respondedClean (S : Api.Services) (c : Api.Context)
    (h : Api.Services -> Api.Context -> Api.H unit) :
  In h queueHandlers -> respondedClean (fst (h S c)) = true.
Proof.
  intros Hh. unfold respondedClean.
  repeat (destruct Hh as [<-|Hh]; [run_handler|]).
  destruct Hh.
Qed.

(** X25. Each of the five handlers that hand work to a queue (private pin,
    private pin removal, the two private file uploads, cluster pin) writes
    the HTTP answer exactly once, as the last thing it does: a 200 when it
    ran to its end, and one failure answer otherwise. *)
Theorem queue_handlers_answer_once (S : Api.Services) (c : Api.Context)
    (h : Api.Services -> Api.Context -> Api.H unit) :
  In h queueHandlers ->
  exists pre ans,
    fst (h S c) = (pre ++ [ans])%list
    /\ isAnswer ans = true
    /\ (forall e, In e pre -> isAnswer e = false)
    /\ (snd (h S c) = Some tt <-> exists body, ans = Api.EvRespond 200 body).
Proof.
  intros Hh. pose proof (queueHandlers_answeredOnce S c h Hh) as Hb.
  unfold answeredOnce in Hb.
  destruct (rev (fst (h S c))) as [|ans pre] eqn:Hrev; [discriminate|].
  apply andb_prop in Hb as [Hpre Hans].
  exists (rev pre), ans. split; [|split; [|split]].
  - rewrite <- (rev_involutive (fst (h S c))), Hrev. reflexivity.
  - destruct ans, (snd (h S c)); cbn in *; congruence.
  - intros e He. apply in_rev in He. rewrite forallb_forall in Hpre.
    specialize (Hpre e He). now destruct (isAnswer e).
  - destruct (snd (h S c)) as [[]|]; split.
    + intros _. destruct ans; try discriminate.
      apply Z.eqb_eq in Hans as ->. eauto.
    + reflexivity.
    + discriminate.
    + intros [body ->]. discriminate.
Qed.

Lemma queue_handlers_answer_once_witness :
  exists pre ans,
    fst (Api.pinHashToCluster (Examples.services "alice" "Qm123")
           (Examples.request "bob" [("hold_time", "1")] "Qm123"))
    = (pre ++ [ans])%list
    /\ isAnswer ans = true
    /\ (forall e, In e pre -> isAnswer e = false)
    /\ (snd (Api.pinHashToCluster (Examples.services "alice" "Qm123")
               (Examples.request "bob" [("hold_time", "1")] "Qm123")) = Some tt
        <-> exists body, ans = Api.EvRespond 200 body).
Proof.
  apply (queue_handlers_answer_once (Examples.services "alice" "Qm123")
           (Examples.request "bob" [("hold_time", "1")] "Qm123") Api.pinHashToCluster).
  vm_compute. intuition.
Defined.

(** X26. When one of these handlers answers with [Respond], the status is
    200, the broker has accepted a message in that run, and nothing in the
    run went wrong: no refused access, no failed queue, store or ipfs call,
    no logged error. *)
Theorem ok_answer_means_message_accepted (S : Api.Services) (c : Api.Context)
    (h : Api.Services -> Api.Context -> Api.H unit) (status : Z) (body : string) :
  In h queueHandlers ->
  In (Api.EvRespond status body) (fst (h S c)) ->
  status = 200
  /\ (exists q x m, In (Api.EvPublish q x m None) (fst (h S c)))
  /\ (forall e, In e (fst (h S c)) -> isFailure e = false).
Proof.
  intros Hh Hin. pose proof (queueHandlers_respondedClean S c h Hh) as Hb.
  unfold respondedClean in Hb. rewrite forallb_forall in Hb.
  specialize (Hb _ Hin). cbn beta iota in Hb.
  apply andb_prop in Hb as [Hb Hclean]. apply andb_prop in Hb as [Hst Hacc].
  split; [now apply Z.eqb_eq|]. split.
  - apply existsb_exists in Hacc as (e & He & Hacc).
    destruct e as [| | | | | | | |q x m [?|]| | |]; try discriminate. eauto.
  - intros e He. rewrite forallb_forall in Hclean. specialize (Hclean e He).
    now destruct (isFailure e).
Qed.

Lemma ok_answer_means_message_accepted_witness :
  exists q x m,
    In (Api.EvPublish q x m None)
       (fst (Api.pinToHostedIPFSNetwork (Examples.services "alice" "Qm123")
               (Examples.request "alice"
                  [("network_name", "acme"); ("hold_time", "1")] "Qm123"))).
Proof.
  apply (ok_answer_means_message_accepted (Examples.services "alice" "Qm123")
           (Examples.request "alice" [("network_name", "acme"); ("hold_time", "1")]
              "Qm123")
           Api.pinToHostedIPFSNetwork 200 "content pin request sent to backend").
  - vm_compute. intuition.
  - vm_compute. intuition.
Defined.

(** X27. In [addFileToHostedIPFSNetwork] a pin message is published only for
    a file that ipfs added in that run and for which the broker accepted the
    ledger message in that run: both messages carry the hash ipfs
    returned, the caller, the posted network and the parsed hold time, and
    the pin message goes to the pin queue under the pin exchange. *)
Theorem simple_upload_pins_what_it_recorded (S : Api.Services) (c : Api.Context)
    (q : Api.QueueName) (x : option Api.Exchange)
    (hash network user : string) (months : Z) (result : option Api.err) :
  In (Api.EvPublish q x (Api.IPFSPin hash network user months) result)
     (fst (Api.addFileToHostedIPFSNetwork S c)) ->
  q = Api.IpfsPinQueue /\ x = Some Api.PinExchange
  /\ user = Api.GetAuthenticatedUserFromContext c
  /\ Api.GetPostForm c "network_name" = Some network
  /\ In (Api.EvIpfsAdd (hash, None)) (fst (Api.addFileToHostedIPFSNetwork S c))
  /\ In (Api.EvPublish Api.DatabaseFileAddQueue None
           (Api.DatabaseFileAdd hash months user network) None)
        (fst (Api.addFileToHostedIPFSNetwork S c)).
Proof.
  unfold_handler.
  repeat (cbn;
          try (intros Hin;
               repeat (destruct Hin as [Hin|Hin]; try discriminate);
               first [ now destruct Hin
                     | injection Hin as <- <- <- <- <- <- _; cbn;
                       repeat split; auto 20 ];
               fail);
          split_on_call).
Qed.

Lemma simple_upload_pins_what_it_recorded_witness :
  In (Api.EvPublish Api.DatabaseFileAddQueue None
        (Api.DatabaseFileAdd "QmAdded" 1 "alice" "acme") None)
     (fst (Api.addFileToHostedIPFSNetwork (Examples.services "alice" "Qm123")
             (Examples.request "alice"
                [("network_name", "acme"); ("hold_time", "1")] "Qm123"))).
Proof.
  apply (simple_upload_pins_what_it_recorded (Examples.services "alice" "Qm123")
           (Examples.request "alice" [("network_name", "acme"); ("hold_time", "1")]
              "Qm123")
           Api.IpfsPinQueue (Some Api.PinExchange) "QmAdded" "acme" "alice" 1 None).
  vm_compute. intuition.
Defined.

Lemma straightRoutes_repliedOnce (B : Routes.Backend) (c : Routes.Context)
    (h : Routes.Backend -> Routes.Context -> Routes.H unit) :
  In h straightRoutes -> repliedOnce (h B c) = true.
Proof.
  intros Hh. unfold repliedOnce.
  repeat (destruct Hh as [<-|Hh]; [run_route reflexivity|]).
  destruct Hh.
Qed.

(** X28. Each route without a loop over posted values (the five cluster
    routes, object size, pub-sub publish, local pins, object stat, pin
    check, network lookup, authorized networks, IPNS publication, content
    download, bucket creation) writes the HTTP answer exactly once, as the
    last thing it does: the response when it ran to its end, and one
    failure answer otherwise. *)
Theorem routes_answer_once (B : Routes.Backend) (c : Routes.Context)
    (h : Routes.Backend -> Routes.Context -> Routes.H unit) :
  In h straightRoutes ->
  exists pre ans,
    fst (h B c) = (pre ++ [ans])%list
    /\ isReply ans = true
    /\ (forall e, In e pre -> isReply e = false)
    /\ (snd (h B c) = Some tt <-> isRespond ans = true).
Proof.
  intros Hh. pose proof (straightRoutes_repliedOnce B c h Hh) as Hb.
  unfold repliedOnce in Hb.
  destruct (rev (fst (h B c))) as [|ans pre] eqn:Hrev; [discriminate|].
  apply andb_prop in Hb as [Hpre Hans].
  exists (rev pre), ans. split; [|split; [|split]].
  - rewrite <- (rev_involutive (fst (h B c))), Hrev. reflexivity.
  - destruct (snd (h B c)); [|now apply andb_prop in Hans].
    destruct ans; cbn in *; congruence.
  - intros e He. apply in_rev in He. rewrite forallb_forall in Hpre.
    specialize (Hpre e He). now destruct (isReply e).
  - destruct (snd (h B c)) as [[]|]; split; auto.
    + discriminate.
    + apply andb_prop in Hans as [_ Hans]. intros Hr. rewrite Hr in Hans.
      discriminate.
Qed.

Lemma routes_answer_once_witness :
  exists pre ans,
    fst (Routes.makeBucket RouteExamples.backend
           (RouteExamples.request "admin" [("bucket_name", "files")] [] ""))
    = (pre ++ [ans])%list
    /\ isReply ans = true
    /\ (forall e, In e pre -> isReply e = false)
    /\ (snd (Routes.makeBucket RouteExamples.backend
               (RouteExamples.request "admin" [("bucket_name", "files")] [] ""))
        = Some tt <-> isRespond ans = true).
Proof.
  apply (routes_answer_once RouteExamples.backend
           (RouteExamples.request "admin" [("bucket_name", "files")] [] "")
           Routes.makeBucket).
  vm_compute. intuition.
Defined.
